(** * lucidlink-direct-links: the direct link manager

    A shallow embedding of [lucidlink_direct_links/direct_link_manager.py]
    (class [DirectLinkManager]) and the properties of its resolve operation,
    [get_direct_link].

    Conventions.
    - A Python [str] is represented by its UTF-8 encoding, a [string] with one
      [ascii] per byte.  Every string operation the source uses ([startswith],
      [lstrip('/')], [rstrip('/')], slicing off a prefix, concatenation in
      f-strings) commutes with that encoding, and [urllib.parse.quote] starts
      by taking it.
    - [async] methods are functions in a state and exception monad: the state
      holds the manager object and the trace of what the call did to the
      outside world (gate operations, requests, sleeps, log records).
    - The daemon is a parameter: it decides what each [session.get] yields. *)

From Stdlib Require Import ZArith NArith QArith String Ascii List Bool Lia DecimalString.
Import ListNotations.

Set Implicit Arguments.
Open Scope string_scope.

(* ------------------------------------------------------------------ *)
(** * Python strings *)
(* ------------------------------------------------------------------ *)

Module PyStr.

(** [s.startswith(p)] *)
Definition startswith (s p : string) : bool := String.prefix p s.

(** [s.lstrip(c)] for a one-character argument *)
Fixpoint lstrip (c : ascii) (s : string) : string :=
  match s with
  | EmptyString => EmptyString
  | String a rest => if Ascii.eqb a c then lstrip c rest else s
  end.

(** [s.rstrip(c)] for a one-character argument *)
Fixpoint rstrip (c : ascii) (s : string) : string :=
  match s with
  | EmptyString => EmptyString
  | String a rest =>
      match rstrip c rest with
      | EmptyString => if Ascii.eqb a c then EmptyString else String a EmptyString
      | r => String a r
      end
  end.

(** [s[n:]] for [0 <= n] *)
Fixpoint slice_from (n : nat) (s : string) : string :=
  match n, s with
  | O, _ => s
  | S n', String _ rest => slice_from n' rest
  | S _, EmptyString => EmptyString
  end.

(** [c in s] for a character [c] *)
Fixpoint mem (c : ascii) (s : string) : bool :=
  match s with
  | EmptyString => false
  | String a rest => Ascii.eqb a c || mem c rest
  end.

(** [sub in s] for strings *)
Fixpoint contains (s sub : string) : bool :=
  String.prefix sub s ||
  match s with
  | EmptyString => false
  | String _ rest => contains rest sub
  end.

(** [str(n)] for an [int] *)
Definition of_int (z : Z) : string := NilZero.string_of_int (Z.to_int z).

(** [c * k] *)
Fixpoint replicate (k : nat) (c : ascii) : string :=
  match k with
  | O => EmptyString
  | S k' => String c (replicate k' c)
  end.

(** The first and the last character of a string, for stating what the
    strip functions achieve. *)
Definition head (s : string) : option ascii :=
  match s with EmptyString => None | String a _ => Some a end.

Fixpoint last (s : string) : option ascii :=
  match s with
  | EmptyString => None
  | String a EmptyString => Some a
  | String _ rest => last rest
  end.

(** [len(s.encode('utf-8'))]: the number of bytes of the representation.
    It is [len(s)] when [s] is ASCII only, and larger otherwise (a code
    point outside ASCII takes two to four bytes). *)
Definition utf8_len (s : string) : nat := String.length s.

End PyStr.

(* ------------------------------------------------------------------ *)
(** * [urllib.parse.quote] and percent-decoding *)
(* ------------------------------------------------------------------ *)

Module Urllib.

(** [_ALWAYS_SAFE]: the unreserved characters, never quoted. *)
Definition _ALWAYS_SAFE : string :=
  "ABCDEFGHIJKLMNOPQRSTUVWXYZabcdefghijklmnopqrstuvwxyz0123456789_.-~".

(** [safe.encode('ascii', 'ignore')]: bytes of [safe] above 127 are dropped. *)
Fixpoint ascii_only (s : string) : string :=
  match s with
  | EmptyString => EmptyString
  | String a rest =>
      if (N_of_ascii a <? 128)%N then String a (ascii_only rest) else ascii_only rest
  end.

Definition is_safe (safe : string) (b : ascii) : bool :=
  PyStr.mem b (_ALWAYS_SAFE ++ ascii_only safe).

(** One digit of ['{:02X}'.format(b)]. *)
Definition hex_digit (n : N) : ascii :=
  match String.get (N.to_nat n) "0123456789ABCDEF" with
  | Some c => c
  | None => "0"%char
  end.

(** ['%{:02X}'.format(b)] *)
Definition escape (b : ascii) : string :=
  String "%" (String (hex_digit (N_of_ascii b / 16)) (String (hex_digit (N_of_ascii b mod 16)) EmptyString)).

(** [_Quoter.__missing__]: a byte is kept when safe, escaped otherwise. *)
Definition quoter (safe : string) (b : ascii) : string :=
  if is_safe safe b then String b EmptyString else escape b.

(** [quote_from_bytes(bs, safe)]: [''.join(quoter(b) for b in bs)]. *)
Fixpoint quote_from_bytes (bs : string) (safe : string) : string :=
  match bs with
  | EmptyString => EmptyString
  | String b rest => quoter safe b ++ quote_from_bytes rest safe
  end.

(** [quote(string, safe)]: the string is encoded as UTF-8 (the identity on
    this representation) and quoted byte by byte. *)
Definition quote (s : string) (safe : string) : string := quote_from_bytes s safe.






End Urllib.

(* ------------------------------------------------------------------ *)
(** * Python values, exceptions and the outside world *)
(* ------------------------------------------------------------------ *)

(** What a JSON body parses to, and what a method may hand back. *)
#[local] Unset Elimination Schemes.
Inductive value :=
| VNone
| VBool (b : bool)
| VNum (q : Q)
| VStr (s : string)
| VList (xs : list value)
| VDict (items : list (string * value)).
#[local] Set Elimination Schemes.

(** Exceptions, all of them subclasses of [Exception].  [ClientError] stands
    for every [aiohttp.ClientError] raised by the transport (connection
    refused, reset, disconnected, ...); [ClientResponseError] is the subclass
    that [raise_for_status] and a body of the wrong content type raise. *)
Inductive exn :=
| ClientError (detail : string)
| ClientResponseError (status : Z)
| RuntimeError (msg : string)
| TypeError (detail : string)
| AttributeError (detail : string)
| KeyError (key : string)
| ValueError (detail : string)
| OtherException (detail : string).

(** [isinstance(e, aiohttp.ClientError)] *)
Definition is_ClientError (e : exn) : bool :=
  match e with
  | ClientError _ | ClientResponseError _ => true
  | _ => false
  end.

Inductive level := DEBUG | WARNING | ERROR.

(** Log records: one constructor per message of the source, holding the
    values its f-string interpolates. *)
Inductive record :=
| Filespace_name_not_set
| Generated_v2_using_provided_ID (file_path direct_link : string)
| Bad_Request (file_path : string)
| Failed_to_get_fsEntry_ID (file_path : string)
| Generated_v2_via_API (file_path direct_link : string)
| Error_generating_v2 (file_path : string) (e : exn)
| No_result_field (file_path : string)
| Error_generating (file_path : string) (e : exn).

(** What a call does to the world, in the order it does it. *)
Inductive event :=
| Acquire                          (* a slot of the gate taken *)
| Release                          (* and given back *)
| Get (url : string)               (* [session.get(url)] issued *)
| Sleep (delay : Q)                (* [asyncio.sleep(delay)] *)
| Log (l : level) (r : record).

(** What [session.get] yields: a well-formed HTTP response, with its status
    and what [await response.json()] will give, or an exception. *)
Inductive reply :=
| Response (status : Z) (json : exn + value)
| Failure (e : exn).

(** The daemon and the network between: the reply to the [attempt]-th
    request of a call, sent to [url]. *)
Definition daemon := nat -> string -> reply.

Module Py.

(** [bool(v)] *)
Definition truthy (v : value) : bool :=
  match v with
  | VNone => false
  | VBool b => b
  | VNum q => negb (Qeq_bool q 0)
  | VStr s => negb (String.eqb s "")
  | VList xs => match xs with [] => false | _ => true end
  | VDict items => match items with [] => false | _ => true end
  end.

(** [bool(s)] for an optional string: [None] and [''] are false. *)
Definition truthy_str (s : option string) : bool :=
  match s with
  | Some (String _ _) => true
  | _ => false
  end.

(** [key in data].  Where CPython raises, the class of the exception is the
    one modelled; the text it carries names the type of the operand and
    differs between Python versions, and the text here stands for it. *)
Definition contains (key : string) (data : value) : exn + bool :=
  match data with
  | VDict items => inr (existsb (fun kv => String.eqb (fst kv) key) items)
  | VList xs => inr (existsb (fun x => match x with VStr s => String.eqb s key | _ => false end) xs)
  | VStr s => inr (PyStr.contains s key)
  | VNone | VBool _ | VNum _ => inl (TypeError "argument is not iterable")
  end.

(** [data[key]] for a string [key]; the texts of the exceptions are
    stand-ins here too. *)
Definition getitem (data : value) (key : string) : exn + value :=
  match data with
  | VDict items =>
      match find (fun kv => String.eqb (fst kv) key) items with
      | Some kv => inr (snd kv)
      | None => inl (KeyError key)
      end
  | VList _ | VStr _ => inl (TypeError "indices must be integers")
  | VNone | VBool _ | VNum _ => inl (TypeError "object is not subscriptable")
  end.

(** [f"{s}"] for an optional string *)
Definition format_str (s : option string) : string :=
  match s with
  | Some s => s
  | None => "None"
  end.

End Py.

(* ------------------------------------------------------------------ *)
(** * The manager object *)
(* ------------------------------------------------------------------ *)

Inductive ClientSession := Open | Closed.

(** The attributes [__init__] sets.  [_request_semaphore] holds the counter
    of the [asyncio.Semaphore], once there is one. *)
Record DirectLinkManager := {
  port : Z;
  mount_point : string;
  version : Z;
  _max_workers : Z;
  _retry_attempts : Z;
  _retry_delay : Q;
  _filespace : option string;
  _request_semaphore : option Z;
  session : option ClientSession
}.

Definition __init__ (port : Z) (mount_point : string) (version : Z) (max_workers : Z)
    (retry_attempts : Z) (retry_delay : Q) (filespace : option string) : DirectLinkManager :=
  {| port := port;
     mount_point := PyStr.rstrip "/" mount_point;
     version := version;
     _max_workers := max_workers;
     _retry_attempts := retry_attempts;
     _retry_delay := retry_delay;
     _filespace := filespace;
     _request_semaphore := None;
     session := None |}.

Definition set_request_semaphore (v : option Z) (m : DirectLinkManager) : DirectLinkManager :=
  {| port := port m; mount_point := mount_point m; version := version m;
     _max_workers := _max_workers m; _retry_attempts := _retry_attempts m;
     _retry_delay := _retry_delay m; _filespace := _filespace m;
     _request_semaphore := v; session := session m |}.

Definition set_session (s : option ClientSession) (m : DirectLinkManager) : DirectLinkManager :=
  {| port := port m; mount_point := mount_point m; version := version m;
     _max_workers := _max_workers m; _retry_attempts := _retry_attempts m;
     _retry_delay := _retry_delay m; _filespace := _filespace m;
     _request_semaphore := _request_semaphore m; session := s |}.

(** [safe_chars] of [_encode_path_for_url] *)
Definition safe_chars : string := "/[](),-_ .".

Definition _encode_path_for_url (self : DirectLinkManager) (path : string) : string :=
  Urllib.quote path safe_chars.

Definition _get_relative_path (self : DirectLinkManager) (path : string) : string :=
  if PyStr.startswith path (mount_point self)
  then PyStr.lstrip "/" (PyStr.slice_from (String.length (mount_point self)) path)
  else PyStr.lstrip "/" path.

(* ------------------------------------------------------------------ *)
(** * Coroutines: state, exceptions and suspension *)
(* ------------------------------------------------------------------ *)

Record state := { self : DirectLinkManager; trace : list event }.

(** A coroutine run on its own returns, raises, or stays suspended for good
    (waiting for a slot nobody will give back). *)
Inductive outcome (A : Type) :=
| Return (a : A)
| Raise (e : exn)
| Blocked.

Arguments Return {A} a.
Arguments Raise {A} e.
Arguments Blocked {A}.

Definition M (A : Type) : Type := state -> outcome A * state.

Definition ret {A} (a : A) : M A := fun st => (Return a, st).

Definition raise {A} (e : exn) : M A := fun st => (Raise e, st).

Definition bind {A B} (c : M A) (k : A -> M B) : M B := fun st =>
  match c st with
  | (Return a, st') => k a st'
  | (Raise e, st') => (Raise e, st')
  | (Blocked, st') => (Blocked, st')
  end.

Notation "x <- c1 ;; c2" := (bind c1 (fun x => c2))
  (at level 61, c1 at next level, right associativity).
Notation "c1 ;; c2" := (bind c1 (fun _ => c2))
  (at level 61, right associativity).

Definition get_self : M DirectLinkManager := fun st => (Return (self st), st).

Definition set_self (m : DirectLinkManager) : M unit := fun st =>
  (Return tt, {| self := m; trace := trace st |}).

Definition emit (ev : event) : M unit := fun st =>
  (Return tt, {| self := self st; trace := (trace st ++ [ev])%list |}).

(** [x = e] where evaluating [e] may raise *)
Definition lift {A} (r : exn + A) : M A :=
  match r with
  | inl e => raise e
  | inr a => ret a
  end.

(** [try: body  except Exception as e: handler] *)
Definition try_except {A} (body : M A) (handler : exn -> M A) : M A := fun st =>
  match body st with
  | (Raise e, st') => handler e st'
  | r => r
  end.

(** [try: body  except aiohttp.ClientError as e: handler] *)
Definition try_except_ClientError {A} (body : M A) (handler : exn -> M A) : M A := fun st =>
  match body st with
  | (Raise e, st') => if is_ClientError e then handler e st' else (Raise e, st')
  | r => r
  end.

(** [for attempt in xs: body]; the body yields [Some v] when it executes
    [return v], [None] when it runs to its end. *)
Fixpoint for_each {A} (xs : list nat) (body : nat -> M (option A)) : M (option A) :=
  match xs with
  | [] => ret None
  | attempt :: rest =>
      r <- body attempt ;;
      match r with
      | Some v => ret (Some v)
      | None => for_each rest body
      end
  end.

(** [range(n)] *)
Definition range (n : Z) : list nat := seq 0 (Z.to_nat n).

Definition logger (l : level) (r : record) : M unit := emit (Log l r).

(** [await asyncio.sleep(delay)] *)
Definition sleep (delay : Q) : M unit := emit (Sleep delay).

(** [asyncio.Semaphore.release]: the counter goes up by one. *)
Definition release : M unit := fun st =>
  (Return tt,
   {| self := set_request_semaphore
                (option_map (fun v => v + 1)%Z (_request_semaphore (self st))) (self st);
      trace := (trace st ++ [Release])%list |}).

(** [async with self._request_semaphore: body].  Without a semaphore the
    statement raises ([TypeError]; [AttributeError] before Python 3.11).  With
    one, a slot is taken when the counter is positive, and given back however
    the body ends; at zero the coroutine waits. *)
Definition async_with_semaphore {A} (body : M A) : M A := fun st =>
  match _request_semaphore (self st) with
  | None => (Raise (TypeError "'NoneType' object does not support the asynchronous context manager protocol"), st)
  | Some v =>
      if (v <=? 0)%Z then (Blocked, st)
      else
        match body {| self := set_request_semaphore (Some (v - 1)%Z) (self st);
                      trace := (trace st ++ [Acquire])%list |} with
        | (Blocked, st') => (Blocked, st')
        | (o, st') => (o, snd (release st'))
        end
  end.

(** [self.session.get(url)], the [attempt]-th request of the call: the
    response, or what the transport raises.  A closed session refuses. *)
Definition session_get (d : daemon) (attempt : nat) (url : string) : M (Z * (exn + value)) :=
  m <- get_self ;;
  match session m with
  | None => raise (AttributeError "'NoneType' object has no attribute 'get'")
  | Some Closed => raise (RuntimeError "Session is closed")
  | Some Open =>
      emit (Get url) ;;
      match d attempt url with
      | Response status json => ret (status, json)
      | Failure e => raise e
      end
  end.

(** [response.raise_for_status()]: raises unless [response.ok], that is
    unless [status < 400]. *)
Definition raise_for_status (status : Z) : M unit :=
  if (status <? 400)%Z then ret tt else raise (ClientResponseError status).

(* ------------------------------------------------------------------ *)
(** * The methods *)
(* ------------------------------------------------------------------ *)

(** [__aenter__]: [asyncio.Semaphore(n)] raises [ValueError] for [n < 0]. *)
Definition __aenter__ : M unit :=
  m <- get_self ;;
  (if (_max_workers m <? 0)%Z
   then raise (ValueError "Semaphore initial value must be >= 0")
   else set_self (set_request_semaphore (Some (_max_workers m)) m)) ;;
  m <- get_self ;;
  set_self (set_session (Some Open) m).

Definition __aexit__ : M unit :=
  m <- get_self ;;
  match session m with
  | Some _ => set_self (set_session (Some Closed) m)
  | None => ret tt
  end.

Section Methods.

(** [str(v)] of a value that is not a string, as an f-string writes it;
    left uninterpreted. *)
Variable repr : value -> string.

(** [f"{v}"] *)
Definition format_value (v : value) : string :=
  match v with
  | VStr s => s
  | _ => repr v
  end.

Variable d : daemon.

(** Lines 112-138: one turn of the retry loop of [_get_direct_link_v2]. *)
Definition v2_attempt (url file_path : string) (attempt : nat) : M (option value) :=
  try_except_ClientError
    (response <- session_get d attempt url ;;
     if (fst response =? 400)%Z then
       logger WARNING (Bad_Request file_path) ;;
       ret (Some VNone)
     else
       raise_for_status (fst response) ;;
       data <- lift (snd response) ;;
       missing <- (if negb (Py.truthy data) then ret true
                   else has <- lift (Py.contains "id" data) ;; ret (negb has)) ;;
       if missing : bool then
         logger ERROR (Failed_to_get_fsEntry_ID file_path) ;;
         ret (Some VNone)
       else
         fsentry_id <- lift (Py.getitem data "id") ;;
         m <- get_self ;;
         if negb (Py.truthy_str (_filespace m)) then
           logger ERROR Filespace_name_not_set ;;
           ret (Some VNone)
         else
           let direct_link :=
             "lucid://" ++ Py.format_str (_filespace m) ++ "/file/" ++ format_value fsentry_id in
           logger DEBUG (Generated_v2_via_API file_path direct_link) ;;
           ret (Some (VStr direct_link)))
    (fun e =>
       m <- get_self ;;
       if (Z.of_nat attempt =? _retry_attempts m - 1)%Z then raise e
       else sleep (_retry_delay m) ;; ret None).

(** Lines 140-142.  The clause reads [file_path] as it is bound when the
    exception arrives, so it is installed once for each binding. *)
Definition v2_handler (file_path : string) (e : exn) : M value :=
  logger ERROR (Error_generating_v2 file_path e) ;;
  ret VNone.

Definition _get_direct_link_v2 (file_path : string) (fsentry_id : option string) : M value :=
  try_except
    (m <- get_self ;;
     if Py.truthy_str fsentry_id then
       if negb (Py.truthy_str (_filespace m)) then
         logger ERROR Filespace_name_not_set ;;
         ret VNone
       else
         let direct_link :=
           "lucid://" ++ Py.format_str (_filespace m) ++ "/file/" ++ Py.format_str fsentry_id in
         logger DEBUG (Generated_v2_using_provided_ID file_path direct_link) ;;
         ret (VStr direct_link)
     else
       let file_path := _get_relative_path m file_path in
       try_except
         (let encoded_path := _encode_path_for_url m file_path in
          let url := "http://127.0.0.1:" ++ PyStr.of_int (port m) ++ "/fsEntry?path=" ++ encoded_path in
          r <- async_with_semaphore
                 (for_each (range (_retry_attempts m)) (v2_attempt url file_path)) ;;
          match r with
          | Some v => ret v
          | None => ret VNone
          end)
         (v2_handler file_path))
    (v2_handler file_path).

(** Lines 156-174: one turn of the retry loop of [_get_direct_link_v3]. *)
Definition v3_attempt (url file_path : string) (attempt : nat) : M (option value) :=
  try_except_ClientError
    (response <- session_get d attempt url ;;
     if (fst response =? 400)%Z then
       logger WARNING (Bad_Request file_path) ;;
       ret (Some VNone)
     else
       raise_for_status (fst response) ;;
       data <- lift (snd response) ;;
       has <- lift (Py.contains "result" data) ;;
       if negb has then
         logger WARNING (No_result_field file_path) ;;
         ret (Some VNone)
       else
         result <- lift (Py.getitem data "result") ;;
         ret (Some result))
    (fun e =>
       m <- get_self ;;
       if (Z.of_nat attempt =? _retry_attempts m - 1)%Z then raise e
       else sleep (_retry_delay m) ;; ret None).

(** Lines 176-178, once for each binding of [file_path] as above. *)
Definition v3_handler (file_path : string) (e : exn) : M value :=
  logger ERROR (Error_generating file_path e) ;;
  ret VNone.

Definition _get_direct_link_v3 (file_path : string) : M value :=
  try_except
    (m <- get_self ;;
     (match session m with
      | None => raise (RuntimeError "Session not initialized")
      | Some _ => ret tt
      end) ;;
     let file_path := _get_relative_path m file_path in
     try_except
       (let encoded_path := _encode_path_for_url m file_path in
        let url := "http://127.0.0.1:" ++ PyStr.of_int (port m)
                   ++ "/fsEntry/direct-link?path=" ++ encoded_path in
        r <- async_with_semaphore
               (for_each (range (_retry_attempts m)) (v3_attempt url file_path)) ;;
        match r with
        | Some v => ret v
        | None => ret VNone
        end)
       (v3_handler file_path))
    (v3_handler file_path).

Definition get_direct_link (file_path : string) (fsentry_id : option string) : M value :=
  m <- get_self ;;
  if (version m =? 2)%Z then _get_direct_link_v2 file_path fsentry_id
  else _get_direct_link_v3 file_path.

End Methods.

(* ------------------------------------------------------------------ *)
(** * Observing a call *)
(* ------------------------------------------------------------------ *)

Definition is_Get (ev : event) : bool :=
  match ev with Get _ => true | _ => false end.

Definition is_Sleep (ev : event) : bool :=
  match ev with Sleep _ => true | _ => false end.

Definition is_gate (ev : event) : bool :=
  match ev with Acquire | Release => true | _ => false end.

(** How many requests, and how many sleeps, a trace holds. *)
Definition requests (t : list event) : nat := List.length (filter is_Get t).

Definition sleeps (t : list event) : nat := List.length (filter is_Sleep t).

(** The state a call starts from. *)
Definition fresh (m : DirectLinkManager) : state := {| self := m; trace := [] |}.

(** The session is open and the gate has a slot free. *)
Definition opened (m : DirectLinkManager) : Prop :=
  session m = Some Open /\ exists v, _request_semaphore m = Some v /\ (0 < v)%Z.

(** The gate exists and has no slot free: a call on its own would wait. *)
Definition gate_exhausted (m : DirectLinkManager) : bool :=
  match _request_semaphore m with
  | Some v => (v <=? 0)%Z
  | None => false
  end.

(** The call takes a network path: anything but version 2 with an entry id. *)
Definition network_path (m : DirectLinkManager) (fsentry_id : option string) : bool :=
  negb ((version m =? 2)%Z && Py.truthy_str fsentry_id).

(** The wire protocol: [GET /fsEntry?path=...] for version 2,
    [GET /fsEntry/direct-link?path=...] otherwise, at [127.0.0.1:port]. *)
Definition endpoint (m : DirectLinkManager) : string :=
  if (version m =? 2)%Z then "/fsEntry" else "/fsEntry/direct-link".

Definition request_url (m : DirectLinkManager) (file_path : string) : string :=
  "http://127.0.0.1:" ++ PyStr.of_int (port m) ++ endpoint m ++ "?path="
    ++ _encode_path_for_url m (_get_relative_path m file_path).

(** The record the top-level handler writes for [e] on a network path. *)
Definition error_record (m : DirectLinkManager) (file_path : string) (e : exn) : record :=
  if (version m =? 2)%Z then Error_generating_v2 file_path e
  else Error_generating file_path e.

(** [n] failed attempts, each followed by the delay. *)
Fixpoint retries (url : string) (delay : Q) (n : nat) : list event :=
  match n with
  | O => []
  | S n' => Get url :: Sleep delay :: retries url delay n'
  end.

(** The [aiohttp.ClientError] an attempt ends in, when the reply makes it
    end in one: a transport failure of that class, a status that
    [raise_for_status] rejects, or a body whose parsing raises one. *)
Definition client_error_of (r : reply) : option exn :=
  match r with
  | Failure e => if is_ClientError e then Some e else None
  | Response status json =>
      if (status =? 400)%Z then None
      else if (status <? 400)%Z then
        match json with
        | inl e => if is_ClientError e then Some e else None
        | inr _ => None
        end
      else Some (ClientResponseError status)
  end.

(** An exception reaches the caller: the only signal a call could give
    besides its return value. *)
Definition raises_to_caller (o : outcome value) : Prop := exists e, o = Raise e.

(** Events that neither touch the gate nor issue a request. *)
Definition quiet (ev : event) : Prop := is_gate ev = false /\ is_Get ev = false.

Definition ungated (ev : event) : Prop := is_gate ev = false.

(** The gate discipline of one call: it leaves the gate alone and issues no
    request, or it takes a slot first, issues its requests, gives the slot
    back, and issues none after. *)
Definition guarded (script : list event) : Prop :=
  Forall quiet script \/
  exists inner post,
    script = (Acquire :: inner ++ Release :: post)%list /\
    Forall ungated inner /\ Forall quiet post.

(* ------------------------------------------------------------------ *)
(** * Calls in flight together *)
(* ------------------------------------------------------------------ *)

(** Cooperative scheduling: calls issued together advance one event at a
    time in any order, sharing the gate; taking a slot waits until the
    counter is positive.  A request is outstanding from the moment it is
    issued until its call does the next thing. *)
Module Concurrent.

Record call := { call_daemon : daemon; call_path : string; call_id : option string }.

(** A call in flight: what it will do, and how much of it is done. *)
Record task := { script : list event; pos : nat }.

Record pool := { gate : Z; tasks : list task }.

Definition gate_after (ev : event) (g : Z) : Z :=
  match ev with
  | Acquire => (g - 1)%Z
  | Release => (g + 1)%Z
  | _ => g
  end.

Definition advance (t : task) : task := {| script := script t; pos := S (pos t) |}.

Fixpoint update {A} (i : nat) (x : A) (l : list A) : list A :=
  match l, i with
  | [], _ => []
  | _ :: rest, O => x :: rest
  | a :: rest, S i' => a :: update i' x rest
  end.

Inductive step (p : pool) : pool -> Prop :=
| step_task (i : nat) (t : task) (ev : event) :
    nth_error (tasks p) i = Some t ->
    nth_error (script t) (pos t) = Some ev ->
    (ev = Acquire -> (0 < gate p)%Z) ->
    step p {| gate := gate_after ev (gate p); tasks := update i (advance t) (tasks p) |}.

Inductive reachable (p0 : pool) : pool -> Prop :=
| reach_start : reachable p0 p0
| reach_step (p p' : pool) : reachable p0 p -> step p p' -> reachable p0 p'.

(** The last thing the call did was to issue a request. *)
Definition outstanding (t : task) : bool :=
  match pos t with
  | O => false
  | S k => match nth_error (script t) k with
           | Some ev => is_Get ev
           | None => false
           end
  end.

Definition in_flight (p : pool) : nat := List.length (filter outstanding (tasks p)).

(** Slots held: acquisitions less releases. *)
Fixpoint depth (evs : list event) : Z :=
  match evs with
  | [] => 0
  | Acquire :: rest => (1 + depth rest)%Z
  | Release :: rest => (depth rest - 1)%Z
  | _ :: rest => depth rest
  end.

Definition held (t : task) : Z := depth (firstn (pos t) (script t)).

Fixpoint total_held (ts : list task) : Z :=
  match ts with
  | [] => 0
  | t :: rest => (held t + total_held rest)%Z
  end.

(** The scheduler lets call [i] do its next thing, when it can. *)
Definition fire (i : nat) (p : pool) : option pool :=
  match nth_error (tasks p) i with
  | None => None
  | Some t =>
      match nth_error (script t) (pos t) with
      | None => None
      | Some ev =>
          if (match ev with Acquire => (gate p <=? 0)%Z | _ => false end) then None
          else Some {| gate := gate_after ev (gate p);
                       tasks := update i (advance t) (tasks p) |}
      end
  end.

(** A schedule: the calls to let run, in order; a call that cannot move
    is passed over. *)
Fixpoint schedule (order : list nat) (p : pool) : pool :=
  match order with
  | [] => p
  | i :: rest =>
      match fire i p with
      | Some p' => schedule rest p'
      | None => schedule rest p
      end
  end.

(** The invariant of a pool under a gate of [limit] slots: the slots free
    and the slots held add up to the limit, and every call keeps the gate
    discipline. *)
Definition well_formed (limit : Z) (p : pool) : Prop :=
  (gate p + total_held (tasks p) = limit)%Z /\
  (0 <= gate p)%Z /\
  Forall (fun t => guarded (script t)) (tasks p).

Section Pool.
Variable repr : value -> string.
Variable m : DirectLinkManager.

(** What the call does, from the code run on its own. *)
Definition script_of (c : call) : list event :=
  trace (snd (get_direct_link repr (call_daemon c) (call_path c) (call_id c) (fresh m))).

Definition start (calls : list call) : pool :=
  {| gate := match _request_semaphore m with Some v => v | None => 0%Z end;
     tasks := map (fun c => {| script := script_of c; pos := 0 |}) calls |}.
End Pool.

End Concurrent.

(* ------------------------------------------------------------------ *)
(** * Footprints *)
(* ------------------------------------------------------------------ *)

(** The state after some more events. *)
Definition extend (st : state) (evs : list event) : state :=
  {| self := self st; trace := (trace st ++ evs)%list |}.

(** [c] leaves the manager as it found it, adds only events of [P] to the
    trace, and does not wait. *)
Definition confined {A} (P : event -> Prop) (c : M A) : Prop :=
  forall st, exists o evs, c st = (o, extend st evs) /\ Forall P evs /\ o <> Blocked.

(** What may happen inside the retry loop for [url]. *)
Definition in_loop (url : string) (ev : event) : Prop :=
  match ev with
  | Get u => u = url
  | Sleep _ | Log _ _ => True
  | Acquire | Release => False
  end.

Definition is_log (ev : event) : Prop :=
  match ev with
  | Log _ _ => True
  | _ => False
  end.

(** Every request of the trace goes to [url]. *)
Definition requests_to (url : string) (evs : list event) : Prop :=
  Forall (fun ev => match ev with Get u => u = url | _ => True end) evs.

(** What every call keeps to, whatever the daemon does: the manager is left
    as found, no exception reaches the caller, the call waits only at an
    exhausted gate, the gate discipline holds and every request goes to
    [url st]. *)
Definition disciplined (url : state -> string) (c : M value) : Prop :=
  forall st, exists o evs,
    c st = (o, extend st evs) /\
    (forall e, o <> Raise e) /\
    (o = Blocked -> gate_exhausted (self st) = true) /\
    guarded evs /\
    requests_to (url st) evs.

(* ------------------------------------------------------------------ *)
(** * The example of [examples/basic_usage.py], and some daemons *)
(* ------------------------------------------------------------------ *)

Module Example.

(** The examples format strings only. *)
Definition repr (v : value) : string := "".

(** The manager of [basic_usage.py], with three attempts. *)
Definition manager (version : Z) (filespace : option string) : DirectLinkManager :=
  __init__ 8280 "/Volumes/filespace" version 10 3 (1#2) filespace.

(** The manager inside [async with]. *)
Definition entered (m : DirectLinkManager) : DirectLinkManager :=
  self (snd (__aenter__ (fresh m))).

Definition file : string := "/Volumes/filespace/path/to/file2[v1].pdf".

(** A daemon that gives every request the same reply. *)
Definition always (r : reply) : daemon := fun _ _ => r.

Definition found : reply :=
  Response 200 (inr (VDict [("id", VStr "abc123"); ("result", VStr "lucid://x/y/z")])).

(** The same manager with a gate of one slot. *)
Definition narrow : DirectLinkManager :=
  __init__ 8280 "/Volumes/filespace" 3 1 3 (1#2) None.

(** Two calls issued together. *)
Definition two_calls : list Concurrent.call :=
  [ {| Concurrent.call_daemon := always found;
       Concurrent.call_path := file;
       Concurrent.call_id := None |};
    {| Concurrent.call_daemon := always (Response 400 (inr VNone));
       Concurrent.call_path := "/Volumes/filespace/missing.txt";
       Concurrent.call_id := None |} ].

(** A daemon that refuses every connection. *)
Definition refusing : daemon :=
  fun k _ => Failure (ClientError ("Cannot connect, attempt " ++ PyStr.of_int (Z.of_nat k))).

End Example.

(* ------------------------------------------------------------------ *)
(** * Reading the body of an answer *)
(* ------------------------------------------------------------------ *)

(** The exception that looking [key] up in a parsed body raises, if any:
    [key in data] is evaluated first, [data[key]] when it holds. *)
Definition lookup_fault (key : string) (data : value) : option exn :=
  match Py.contains key data with
  | inl e => Some e
  | inr false => None
  | inr true =>
      match Py.getitem data key with
      | inl e => Some e
      | inr _ => None
      end
  end.

(** The exception, other than a client error, that reading the body of an
    accepted answer raises, if any: from [response.json()] itself, or from
    the lookup of [id] (version 2, once the body is seen not to be empty)
    or of [result]. *)
Definition body_fault (m : DirectLinkManager) (json : exn + value) : option exn :=
  match json with
  | inl e => if is_ClientError e then None else Some e
  | inr data =>
      if (version m =? 2)%Z
      then (if Py.truthy data then lookup_fault "id" data else None)
      else lookup_fault "result" data
  end.

(* ------------------------------------------------------------------ *)
(** * Calls that are done, and calls that can move *)
(* ------------------------------------------------------------------ *)

Module Progress.

(** The call has nothing left to do. *)
Definition finished (t : Concurrent.task) : Prop :=
  nth_error (Concurrent.script t) (Concurrent.pos t) = None.

(** The scheduler can let some call move. *)
Definition can_move (p : Concurrent.pool) : Prop := exists p', Concurrent.step p p'.

End Progress.

(* ------------------------------------------------------------------ *)
(** * [examples/basic_usage.py] *)
(* ------------------------------------------------------------------ *)

Module BasicUsage.

(** [async with manager: body]: [__aenter__], the body, and [__aexit__]
    however the body ends; [__aexit__] returns nothing, so an exception of
    the body goes on to the caller. *)
Definition async_with_manager {A} (body : M A) : M A := fun st =>
  match __aenter__ st with
  | (Return _, st1) =>
      match body st1 with
      | (Blocked, st2) => (Blocked, st2)
      | (o, st2) =>
          match __aexit__ st2 with
          | (Return _, st3) => (o, st3)
          | (Raise e, st3) => (Raise e, st3)
          | (Blocked, st3) => (Blocked, st3)
          end
      end
  | (Raise e, st1) => (Raise e, st1)
  | (Blocked, st1) => (Blocked, st1)
  end.

Definition files : list string :=
  [ "/Volumes/filespace/path/to/file1.txt";
    "/Volumes/filespace/path/to/file2[v1].pdf";
    "/Volumes/filespace/path to file3.doc" ].

Definition newline : string := String (ascii_of_nat 10) EmptyString.

Section Main.

Variable repr : value -> string.

(** The daemon as the [i]-th call of the run meets it. *)
Variable daemons : nat -> daemon.

(** [f"{direct_link}"] *)
Definition format_link (direct_link : value) : string :=
  match direct_link with
  | VNone => "None"
  | _ => format_value repr direct_link
  end.

(** The two [print] calls of the loop body, as what they are given. *)
Definition printed (file_path : string) (direct_link : value) : list string :=
  [ "File: " ++ file_path; "Direct Link: " ++ format_link direct_link ++ newline ].

(** [for file_path in files: ...], the [i]-th call of the run coming
    first; [stdout] is what has been printed so far. *)
Fixpoint resolve_files (i : nat) (files : list string) (stdout : list string)
  : M (list string) :=
  match files with
  | [] => ret stdout
  | file_path :: rest =>
      direct_link <- get_direct_link repr (daemons i) file_path None ;;
      resolve_files (S i) rest (stdout ++ printed file_path direct_link)%list
  end.

(** [main()]: what it prints, and the state it leaves. *)
Definition main : outcome (list string) * state :=
  async_with_manager (resolve_files O files [])
    (fresh (__init__ 8280 "/Volumes/filespace" 3 10 5 (1#2) (Some "myfilespace"))).

End Main.

End BasicUsage.

(* ================================================================== *)
(** * Properties *)
(* ================================================================== *)

Module PyStrFacts.
Import PyStr.

Lemma append_nil_r (s : string) : s ++ "" = s.
Proof. induction s; simpl; congruence. Qed.

Lemma append_assoc (a b c : string) : (a ++ b) ++ c = a ++ (b ++ c).
Proof. induction a; simpl; congruence. Qed.

Lemma prefix_append (p r : string) : String.prefix p (p ++ r) = true.
Proof.
  induction p as [|a p IH]; simpl.
  - now destruct r.
  - destruct (ascii_dec a a); [assumption | congruence].
Qed.

Lemma prefix_split (p s : string) :
  String.prefix p s = true -> s = p ++ slice_from (String.length p) s.
Proof.
  revert s; induction p as [|a p IH]; intros s H.
  - reflexivity.
  - destruct s as [|b s]; simpl in H; [discriminate|].
    destruct (ascii_dec a b); [subst | discriminate].
    simpl. f_equal. now apply IH.
Qed.

Lemma slice_from_append (p r : string) : slice_from (String.length p) (p ++ r) = r.
Proof. induction p; simpl; auto. Qed.

Lemma lstrip_spec (c : ascii) (s : string) :
  exists k, s = replicate k c ++ lstrip c s /\ head (lstrip c s) <> Some c.
Proof.
  induction s as [|a s IH]; simpl.
  - exists O. split; [reflexivity | discriminate].
  - destruct (Ascii.eqb a c) eqn:E.
    + apply Ascii.eqb_eq in E. subst a.
      destruct IH as [k [H1 H2]]. exists (S k). simpl. split; [congruence | assumption].
    + exists O. simpl. split; [reflexivity|].
      intros H. simpl in H. injection H as ->. now rewrite Ascii.eqb_refl in E.
Qed.

Lemma replicate_snoc (k : nat) (c : ascii) :
  String c (replicate k c) = replicate k c ++ String c "".
Proof. induction k; simpl; congruence. Qed.

Lemma rstrip_spec (c : ascii) (s : string) :
  exists k, s = rstrip c s ++ replicate k c /\ last (rstrip c s) <> Some c.
Proof.
  induction s as [|a s IH]; simpl.
  - exists O. split; [reflexivity | discriminate].
  - destruct IH as [k [H1 H2]].
    destruct (rstrip c s) as [|b r] eqn:E.
    + destruct (Ascii.eqb a c) eqn:Ea.
      * apply Ascii.eqb_eq in Ea. subst a. exists (S k). simpl in *.
        split; [congruence | discriminate].
      * exists k. simpl in *. split; [congruence|].
        intros H. simpl in H. injection H as ->. now rewrite Ascii.eqb_refl in Ea.
    + exists k. split.
      * simpl in *. congruence.
      * exact H2.
Qed.

End PyStrFacts.

Module UrllibFacts.
Import PyStr Urllib PyStrFacts.





Section Quote.
Variable safe : string.
Hypothesis percent_unsafe : is_safe safe "%" = false.






(** A safe byte is written as itself. *)
Lemma quoter_safe (b : ascii) : is_safe safe b = true -> quoter safe b = String b "".
Proof. unfold quoter. now intros ->. Qed.

End Quote.

End UrllibFacts.

(* ------------------------------------------------------------------ *)
(** ** Relative paths and their encoding *)
(* ------------------------------------------------------------------ *)

Module PathFacts.
Import PyStr PyStrFacts Urllib UrllibFacts.

Lemma startswith_false (p s : string) :
  (~ exists rest, s = p ++ rest) -> startswith s p = false.
Proof.
  intros H. unfold startswith. destruct (String.prefix p s) eqn:E; [|reflexivity].
  exfalso. apply H. eexists. now apply prefix_split.
Qed.



End PathFacts.

(** C7: the mount point is stored with its trailing separators stripped; a
    path that starts with it is made relative by removing that prefix and
    then every leading separator; any other path by removing its leading
    separators only. *)
Theorem C7_relative_path (port : Z) (raw : string) (ver workers attempts : Z) (delay : Q)
    (filespace : option string) (p : string) :
  let m := __init__ port raw ver workers attempts delay filespace in
  (exists k, raw = mount_point m ++ PyStr.replicate k "/"
             /\ PyStr.last (mount_point m) <> Some "/"%char) /\
  (forall rest, p = mount_point m ++ rest ->
     exists k, rest = PyStr.replicate k "/" ++ _get_relative_path m p
               /\ PyStr.head (_get_relative_path m p) <> Some "/"%char) /\
  ((~ exists rest, p = mount_point m ++ rest) ->
     exists k, p = PyStr.replicate k "/" ++ _get_relative_path m p
               /\ PyStr.head (_get_relative_path m p) <> Some "/"%char).
Proof.
  intros m. split; [|split].
  - apply PyStrFacts.rstrip_spec.
  - intros rest ->. unfold _get_relative_path, PyStr.startswith.
    rewrite PyStrFacts.prefix_append, PyStrFacts.slice_from_append.
    apply PyStrFacts.lstrip_spec.
  - intros H. unfold _get_relative_path.
    rewrite PathFacts.startswith_false by exact H.
    apply PyStrFacts.lstrip_spec.
Qed.

Lemma C7_relative_path_witness :
  exists k,
    "//path/to/file1.txt" =
      PyStr.replicate k "/" ++
      _get_relative_path (__init__ 8280 "/Volumes/filespace//" 3 10 5 (1#2) None)
        "/Volumes/filespace//path/to/file1.txt"
    /\ PyStr.head (_get_relative_path (__init__ 8280 "/Volumes/filespace//" 3 10 5 (1#2) None)
                     "/Volumes/filespace//path/to/file1.txt") <> Some "/"%char.
Proof.
  apply (proj1 (proj2 (C7_relative_path 8280 "/Volumes/filespace//" 3 10 5 (1#2) None
                         "/Volumes/filespace//path/to/file1.txt")) "//path/to/file1.txt").
  reflexivity.
Defined.


(* ------------------------------------------------------------------ *)
(** ** Coroutines and their footprints *)
(* ------------------------------------------------------------------ *)

Module MonadFacts.

Lemma extend_nil (st : state) : extend st [] = st.
Proof. destruct st. unfold extend. simpl. now rewrite app_nil_r. Qed.

Lemma extend_extend (st : state) (a b : list event) :
  extend (extend st a) b = extend st (a ++ b)%list.
Proof. unfold extend. simpl. now rewrite app_assoc. Qed.

Lemma emit_extend (ev : event) (st : state) : emit ev st = (Return tt, extend st [ev]).
Proof. reflexivity. Qed.

Section Confined.
Variable P : event -> Prop.

Lemma confined_ret {A} (a : A) : confined P (ret a).
Proof.
  intros st. exists (Return a), []. rewrite extend_nil.
  repeat split; [constructor | discriminate].
Qed.

Lemma confined_raise {A} (e : exn) : confined P (@raise A e).
Proof.
  intros st. exists (Raise e), []. rewrite extend_nil.
  repeat split; [constructor | discriminate].
Qed.

Lemma confined_get_self : confined P get_self.
Proof.
  intros st. exists (Return (self st)), []. rewrite extend_nil.
  repeat split; [constructor | discriminate].
Qed.

Lemma confined_lift {A} (r : exn + A) : confined P (lift r).
Proof. destruct r; [apply confined_raise | apply confined_ret]. Qed.

Lemma confined_emit (ev : event) : P ev -> confined P (emit ev).
Proof.
  intros H st. exists (Return tt), [ev]. rewrite emit_extend.
  repeat split; [now constructor | discriminate].
Qed.

Lemma confined_bind {A B} (c : M A) (k : A -> M B) :
  confined P c -> (forall a, confined P (k a)) -> confined P (bind c k).
Proof.
  intros Hc Hk st. destruct (Hc st) as [o [evs [E [F N]]]].
  unfold bind. rewrite E. destruct o as [a|e|].
  - destruct (Hk a (extend st evs)) as [o' [evs' [E' [F' N']]]].
    exists o', (evs ++ evs')%list. rewrite E', extend_extend.
    repeat split; [now apply Forall_app | assumption].
  - exists (Raise e), evs. repeat split; [assumption | discriminate].
  - now contradiction N.
Qed.

Lemma confined_try_except {A} (body : M A) (handler : exn -> M A) :
  confined P body -> (forall e, confined P (handler e)) ->
  confined P (try_except body handler).
Proof.
  intros Hc Hk st. destruct (Hc st) as [o [evs [E [F N]]]].
  unfold try_except. rewrite E. destruct o as [a|e|].
  - exists (Return a), evs. repeat split; [assumption | discriminate].
  - destruct (Hk e (extend st evs)) as [o' [evs' [E' [F' N']]]].
    exists o', (evs ++ evs')%list. rewrite E', extend_extend.
    repeat split; [now apply Forall_app | assumption].
  - now contradiction N.
Qed.

Lemma confined_try_except_ClientError {A} (body : M A) (handler : exn -> M A) :
  confined P body -> (forall e, confined P (handler e)) ->
  confined P (try_except_ClientError body handler).
Proof.
  intros Hc Hk st. destruct (Hc st) as [o [evs [E [F N]]]].
  unfold try_except_ClientError. rewrite E. destruct o as [a|e|].
  - exists (Return a), evs. repeat split; [assumption | discriminate].
  - destruct (is_ClientError e).
    + destruct (Hk e (extend st evs)) as [o' [evs' [E' [F' N']]]].
      exists o', (evs ++ evs')%list. rewrite E', extend_extend.
      repeat split; [now apply Forall_app | assumption].
    + exists (Raise e), evs. repeat split; [assumption | discriminate].
  - now contradiction N.
Qed.

Lemma confined_for_each {A} (xs : list nat) (body : nat -> M (option A)) :
  (forall k, confined P (body k)) -> confined P (for_each xs body).
Proof.
  intros Hb. induction xs as [|k xs IH]; simpl.
  - apply confined_ret.
  - apply confined_bind; [apply Hb|].
    intros [v|]; [apply confined_ret | apply IH].
Qed.

End Confined.

Lemma confined_weaken {A} (P Q : event -> Prop) (c : M A) :
  (forall ev, P ev -> Q ev) -> confined P c -> confined Q c.
Proof.
  intros H Hc st. destruct (Hc st) as [o [evs [E [F N]]]].
  exists o, evs. repeat split; try assumption.
  eapply Forall_impl; eassumption.
Qed.

(** A handler that cannot raise makes a [try] that cannot raise. *)
Lemma try_except_no_raise {A} (body : M A) (handler : exn -> M A) (st : state) :
  (forall e st' e', fst (handler e st') <> Raise e') ->
  forall e', fst (try_except body handler st) <> Raise e'.
Proof.
  intros H e'. unfold try_except.
  destruct (body st) as [[a|e|] st']; simpl; try discriminate.
  apply H.
Qed.

End MonadFacts.

Ltac confine :=
  repeat first
    [ apply MonadFacts.confined_ret
    | apply MonadFacts.confined_raise
    | apply MonadFacts.confined_get_self
    | apply MonadFacts.confined_lift
    | apply MonadFacts.confined_emit; solve [simpl; auto]
    | apply MonadFacts.confined_bind; [|intros]
    | apply MonadFacts.confined_try_except_ClientError; [|intros]
    | apply MonadFacts.confined_try_except; [|intros]
    | apply MonadFacts.confined_for_each; intros
    | match goal with
      | |- confined _ (if ?b then _ else _) => destruct b
      | |- confined _ (match ?x with _ => _ end) => destruct x
      end ].

Module MethodFacts.
Import MonadFacts.

Lemma set_request_semaphore_back (m : DirectLinkManager) (v : Z) :
  _request_semaphore m = Some v ->
  set_request_semaphore (Some (v - 1 + 1)%Z) (set_request_semaphore (Some (v - 1)%Z) m) = m.
Proof.
  destruct m; simpl; intros ->. unfold set_request_semaphore; simpl.
  do 2 f_equal. lia.
Qed.

(** The gate around a body that stays inside [P]. *)
Lemma async_with_semaphore_spec {A} (P : event -> Prop) (body : M A) (st : state) :
  confined P body ->
  match _request_semaphore (self st) with
  | None => exists msg, async_with_semaphore body st = (Raise (TypeError msg), st)
  | Some v =>
      if (v <=? 0)%Z then async_with_semaphore body st = (Blocked, st)
      else exists o evs,
          body {| self := set_request_semaphore (Some (v - 1)%Z) (self st);
                  trace := (trace st ++ [Acquire])%list |}
          = (o, {| self := set_request_semaphore (Some (v - 1)%Z) (self st);
                   trace := ((trace st ++ [Acquire]) ++ evs)%list |}) /\
          async_with_semaphore body st = (o, extend st (Acquire :: evs ++ [Release])) /\
          Forall P evs /\ o <> Blocked
  end.
Proof.
  intros Hc. unfold async_with_semaphore.
  destruct (_request_semaphore (self st)) as [v|] eqn:Ev; [|eexists; reflexivity].
  destruct (v <=? 0)%Z; [reflexivity|].
  destruct (Hc {| self := set_request_semaphore (Some (v - 1)%Z) (self st);
                  trace := (trace st ++ [Acquire])%list |}) as [o [evs [E [F N]]]].
  unfold extend in E; simpl in E.
  exists o, evs. rewrite E. repeat split; try assumption.
  assert (R : snd (release {| self := set_request_semaphore (Some (v - 1)%Z) (self st);
                               trace := ((trace st ++ [Acquire]) ++ evs)%list |})
              = extend st (Acquire :: evs ++ [Release])).
  { unfold release, extend; simpl. rewrite (set_request_semaphore_back _ Ev).
    f_equal. rewrite <- !app_assoc. reflexivity. }
  destruct o; [now rewrite R | now rewrite R | now contradiction N].
Qed.

Lemma in_loop_ungated (url : string) (evs : list event) :
  Forall (in_loop url) evs -> Forall ungated evs.
Proof.
  apply Forall_impl. intros [] H; simpl in H; try contradiction; reflexivity.
Qed.

Lemma in_loop_requests_to (url : string) (evs : list event) :
  Forall (in_loop url) evs -> requests_to url evs.
Proof.
  apply Forall_impl. intros [] H; simpl in H; try contradiction; auto.
Qed.

Lemma requests_to_bracket (url : string) (evs post : list event) :
  requests_to url evs -> requests_to url post ->
  requests_to url (Acquire :: evs ++ Release :: post).
Proof.
  intros H1 H2. constructor; [exact I|]. apply Forall_app. split; [assumption|].
  constructor; [exact I | assumption].
Qed.

Section Calls.
Variable repr : value -> string.
Variable d : daemon.

Lemma v2_attempt_confined (url file_path : string) (k : nat) :
  confined (in_loop url) (v2_attempt repr d url file_path k).
Proof.
  unfold v2_attempt, session_get, raise_for_status, logger, sleep. confine.
Qed.

Lemma v3_attempt_confined (url file_path : string) (k : nat) :
  confined (in_loop url) (v3_attempt d url file_path k).
Proof.
  unfold v3_attempt, session_get, raise_for_status, logger, sleep. confine.
Qed.

(** The part the two network paths share: the gate around the retry
    loop, inside a [try] whose handler logs and returns [None]. *)
Lemma network_call_disciplined (url : string) (attempt : nat -> M (option value))
    (xs : list nat) (rec : exn -> record) (handler : exn -> M value) :
  (forall k, confined (in_loop url) (attempt k)) ->
  (forall e, handler e = (logger ERROR (rec e) ;; ret VNone)) ->
  disciplined (fun _ => url)
    (try_except
       (r <- async_with_semaphore (for_each xs attempt) ;;
        match r with
        | Some v => ret v
        | None => ret VNone
        end)
       handler).
Proof.
  intros Hatt Hh st.
  pose proof (async_with_semaphore_spec st (confined_for_each xs attempt Hatt)) as H.
  unfold try_except, bind, gate_exhausted.
  destruct (_request_semaphore (self st)) as [v|] eqn:Ev.
  - destruct (v <=? 0)%Z eqn:Ez.
    + rewrite H. exists Blocked, []. rewrite extend_nil.
      repeat split; try discriminate; try (left; constructor); constructor.
    + destruct H as [o [evs [_ [E [F N]]]]]. rewrite E.
      destruct o as [[v'|]|e|].
      * exists (Return v'), (Acquire :: evs ++ [Release])%list.
        repeat split; try discriminate.
        -- right. exists evs, []. repeat split; [now apply in_loop_ungated with url | constructor].
        -- apply requests_to_bracket; [now apply in_loop_requests_to | constructor].
      * exists (Return VNone), (Acquire :: evs ++ [Release])%list.
        repeat split; try discriminate.
        -- right. exists evs, []. repeat split; [now apply in_loop_ungated with url | constructor].
        -- apply requests_to_bracket; [now apply in_loop_requests_to | constructor].
      * exists (Return VNone), (Acquire :: evs ++ Release :: [Log ERROR (rec e)])%list.
        rewrite Hh. unfold logger, ret, bind. rewrite emit_extend, extend_extend.
        replace ((Acquire :: evs ++ [Release]) ++ [Log ERROR (rec e)])%list
          with (Acquire :: evs ++ Release :: [Log ERROR (rec e)])%list
          by (simpl; now rewrite <- app_assoc).
        repeat split; try discriminate.
        -- right. exists evs, [Log ERROR (rec e)].
           repeat split; [now apply in_loop_ungated with url|].
           constructor; [split; reflexivity | constructor].
        -- apply requests_to_bracket; [now apply in_loop_requests_to|].
           constructor; [exact I | constructor].
      * now contradiction N.
  - destruct H as [msg E]. rewrite E.
    exists (Return VNone), [Log ERROR (rec (TypeError msg))].
    rewrite Hh. unfold logger, ret, bind. rewrite emit_extend.
    repeat split; try discriminate.
    + left. constructor; [split; reflexivity | constructor].
    + constructor; [exact I | constructor].
Qed.

Lemma log_only (l : level) (r : record) : guarded [Log l r] /\ forall url, requests_to url [Log l r].
Proof.
  split.
  - left. constructor; [split; reflexivity | constructor].
  - intros url. constructor; [exact I | constructor].
Qed.

Lemma _get_direct_link_v3_disciplined (file_path : string) :
  disciplined
    (fun st => "http://127.0.0.1:" ++ PyStr.of_int (port (self st))
               ++ "/fsEntry/direct-link?path="
               ++ _encode_path_for_url (self st) (_get_relative_path (self st) file_path))
    (_get_direct_link_v3 d file_path).
Proof.
  intros st. unfold _get_direct_link_v3.
  unfold try_except at 1. unfold bind at 1. unfold get_self at 1. cbv beta iota.
  unfold bind at 1.
  destruct (session (self st)) as [c|] eqn:Es.
  - unfold ret at 1. cbv beta iota zeta.
    match goal with
    | |- context [for_each _ (v3_attempt d ?url ?fp)] =>
        destruct (@network_call_disciplined url _ (range (_retry_attempts (self st)))
                    (Error_generating fp) (v3_handler fp)
                    (fun k => v3_attempt_confined url fp k) (fun e => eq_refl) st)
          as [o [evs [E [NR [B [G R]]]]]]
    end.
    rewrite E. exists o, evs.
    destruct o as [a|e|]; [| now contradiction (NR e) |]; repeat split; assumption.
  - unfold raise at 1. cbv beta iota. unfold v3_handler, logger, ret, bind.
    rewrite emit_extend.
    exists (Return VNone),
      [Log ERROR (Error_generating file_path (RuntimeError "Session not initialized"))].
    repeat split; try discriminate; apply log_only.
Qed.

Lemma _get_direct_link_v2_disciplined (file_path : string) (fsentry_id : option string) :
  disciplined
    (fun st => "http://127.0.0.1:" ++ PyStr.of_int (port (self st))
               ++ "/fsEntry?path="
               ++ _encode_path_for_url (self st) (_get_relative_path (self st) file_path))
    (_get_direct_link_v2 repr d file_path fsentry_id).
Proof.
  intros st. unfold _get_direct_link_v2.
  unfold try_except at 1. unfold bind at 1. unfold get_self at 1. cbv beta iota.
  destruct (Py.truthy_str fsentry_id).
  - destruct (negb (Py.truthy_str (_filespace (self st)))).
    + unfold logger, ret, bind. rewrite emit_extend.
      exists (Return VNone), [Log ERROR Filespace_name_not_set].
      repeat split; try discriminate; apply log_only.
    + cbv zeta. unfold logger, ret, bind. rewrite emit_extend.
      eexists (Return (VStr _)), [Log DEBUG _].
      repeat split; try discriminate; apply log_only.
  - cbv zeta.
    match goal with
    | |- context [for_each _ (v2_attempt repr d ?url ?fp)] =>
        destruct (@network_call_disciplined url _ (range (_retry_attempts (self st)))
                    (Error_generating_v2 fp) (v2_handler fp)
                    (fun k => v2_attempt_confined url fp k) (fun e => eq_refl) st)
          as [o [evs [E [NR [B [G R]]]]]]
    end.
    rewrite E. exists o, evs.
    destruct o as [a|e|]; [| now contradiction (NR e) |]; repeat split; assumption.
Qed.

(** Whatever the manager, the arguments and the daemon, a call keeps to
    the discipline, and its requests go to [request_url]. *)
Lemma get_direct_link_disciplined (file_path : string) (fsentry_id : option string) :
  disciplined (fun st => request_url (self st) file_path)
    (get_direct_link repr d file_path fsentry_id).
Proof.
  intros st. unfold get_direct_link, bind, get_self, request_url, endpoint.
  destruct (version (self st) =? 2)%Z.
  - apply _get_direct_link_v2_disciplined.
  - apply _get_direct_link_v3_disciplined.
Qed.

End Calls.
End MethodFacts.

(* ------------------------------------------------------------------ *)
(** ** Runs of the network paths *)
(* ------------------------------------------------------------------ *)

Ltac run_attempt :=
  unfold v2_attempt, v3_attempt, try_except_ClientError, session_get, raise_for_status,
    logger, sleep, bind, get_self, emit, ret, raise, lift, extend; simpl.

Module RunFacts.
Import MonadFacts MethodFacts.

Section Runs.
Variable repr : value -> string.
Variable d : daemon.

(** An attempt answered by status 400 ends the call with [None]. *)
Lemma v3_attempt_400 (url fp : string) (k : nat) (st : state) (json : exn + value) :
  session (self st) = Some Open ->
  d k url = Response 400 json ->
  v3_attempt d url fp k st
  = (Return (Some VNone), extend st [Get url; Log WARNING (Bad_Request fp)]).
Proof.
  intros Hs Hd. run_attempt. rewrite Hs. simpl. rewrite Hd. simpl.
  now rewrite <- app_assoc.
Qed.

Lemma v2_attempt_400 (url fp : string) (k : nat) (st : state) (json : exn + value) :
  session (self st) = Some Open ->
  d k url = Response 400 json ->
  v2_attempt repr d url fp k st
  = (Return (Some VNone), extend st [Get url; Log WARNING (Bad_Request fp)]).
Proof.
  intros Hs Hd. run_attempt. rewrite Hs. simpl. rewrite Hd. simpl.
  now rewrite <- app_assoc.
Qed.

(** An attempt that ends in a client error is the last one when it is
    number [retry_attempts - 1], and is followed by the delay otherwise. *)
Lemma v3_attempt_client_error (url fp : string) (k : nat) (st : state) (e : exn) :
  session (self st) = Some Open ->
  client_error_of (d k url) = Some e ->
  v3_attempt d url fp k st =
    if (Z.of_nat k =? _retry_attempts (self st) - 1)%Z
    then (Raise e, extend st [Get url])
    else (Return None, extend st [Get url; Sleep (_retry_delay (self st))]).
Proof.
  intros Hs He. run_attempt. rewrite Hs. simpl.
  unfold client_error_of in He.
  destruct (d k url) as [status json|e']; simpl.
  - destruct (status =? 400)%Z; [discriminate|].
    destruct (status <? 400)%Z.
    + destruct json as [e'|v]; [|discriminate]. simpl.
      destruct (is_ClientError e') eqn:Ec; [|discriminate]. injection He as ->.
      destruct (Z.of_nat k =? _ - 1)%Z; simpl; [reflexivity|].
      now rewrite <- app_assoc.
    + injection He as <-. simpl.
      destruct (Z.of_nat k =? _ - 1)%Z; simpl; [reflexivity|].
      now rewrite <- app_assoc.
  - destruct (is_ClientError e') eqn:Ec; [|discriminate]. injection He as ->.
    destruct (Z.of_nat k =? _ - 1)%Z; simpl; [reflexivity|].
    now rewrite <- app_assoc.
Qed.

Lemma v2_attempt_client_error (url fp : string) (k : nat) (st : state) (e : exn) :
  session (self st) = Some Open ->
  client_error_of (d k url) = Some e ->
  v2_attempt repr d url fp k st =
    if (Z.of_nat k =? _retry_attempts (self st) - 1)%Z
    then (Raise e, extend st [Get url])
    else (Return None, extend st [Get url; Sleep (_retry_delay (self st))]).
Proof.
  intros Hs He. run_attempt. rewrite Hs. simpl.
  unfold client_error_of in He.
  destruct (d k url) as [status json|e']; simpl.
  - destruct (status =? 400)%Z; [discriminate|].
    destruct (status <? 400)%Z.
    + destruct json as [e'|v]; [|discriminate]. simpl.
      destruct (is_ClientError e') eqn:Ec; [|discriminate]. injection He as ->.
      destruct (Z.of_nat k =? _ - 1)%Z; simpl; [reflexivity|].
      now rewrite <- app_assoc.
    + injection He as <-. simpl.
      destruct (Z.of_nat k =? _ - 1)%Z; simpl; [reflexivity|].
      now rewrite <- app_assoc.
  - destruct (is_ClientError e') eqn:Ec; [|discriminate]. injection He as ->.
    destruct (Z.of_nat k =? _ - 1)%Z; simpl; [reflexivity|].
    now rewrite <- app_assoc.
Qed.

(** A version 2 attempt answered with an entry id, when no filespace
    name is configured: the check comes after the request. *)
Lemma v2_attempt_no_filespace (url fp : string) (k : nat) (st : state)
    (status : Z) (data id : value) :
  session (self st) = Some Open ->
  d k url = Response status (inr data) ->
  (status <? 400)%Z = true ->
  Py.truthy data = true ->
  Py.contains "id" data = inr true ->
  Py.getitem data "id" = inr id ->
  Py.truthy_str (_filespace (self st)) = false ->
  v2_attempt repr d url fp k st
  = (Return (Some VNone), extend st [Get url; Log ERROR Filespace_name_not_set]).
Proof.
  intros Hs Hd Hok Ht Hc Hg Hf. run_attempt. rewrite Hs. simpl. rewrite Hd. simpl.
  assert (H4 : (status =? 400)%Z = false) by lia.
  rewrite H4, Hok. simpl. rewrite Ht. simpl. rewrite Hc. simpl. rewrite Hg. simpl.
  rewrite Hf. simpl. now rewrite <- app_assoc.
Qed.

(** The retry loop when every remaining attempt ends in a client error:
    the last of them is raised, after a delay behind each of the others. *)
Lemma retry_loop_exhausted (attempt : nat -> M (option value)) (url : string)
    (err : nat -> exn) :
  (forall k st e,
      session (self st) = Some Open ->
      client_error_of (d k url) = Some e ->
      attempt k st =
        if (Z.of_nat k =? _retry_attempts (self st) - 1)%Z
        then (Raise e, extend st [Get url])
        else (Return None, extend st [Get url; Sleep (_retry_delay (self st))])) ->
  forall (len a : nat) (st : state),
    session (self st) = Some Open ->
    Z.of_nat (a + len) = _retry_attempts (self st) ->
    (forall k, (a <= k < a + len)%nat -> client_error_of (d k url) = Some (err k)) ->
    for_each (seq a len) attempt st =
      match len with
      | O => (Return None, st)
      | S l => (Raise (err (a + l)%nat),
                extend st (retries url (_retry_delay (self st)) l ++ [Get url]))
      end.
Proof.
  intros Hatt. induction len as [|len IH]; intros a st Hs Hn Herr; [reflexivity|].
  simpl. unfold bind. rewrite (Hatt a st (err a) Hs) by (apply Herr; lia).
  destruct len as [|l].
  - replace (Z.of_nat a =? _retry_attempts (self st) - 1)%Z with true by lia.
    simpl. now rewrite Nat.add_0_r.
  - replace (Z.of_nat a =? _retry_attempts (self st) - 1)%Z with false by lia.
    rewrite (IH (S a) (extend st [Get url; Sleep (_retry_delay (self st))])).
    + rewrite extend_extend. simpl. now rewrite Nat.add_succ_r.
    + exact Hs.
    + simpl. lia.
    + intros k Hk. apply Herr. lia.
Qed.

(** The gate, the loop and the handler, once the loop's result is known. *)
Lemma network_call_run (attempt : nat -> M (option value)) (xs : list nat)
    (rec : exn -> record) (handler : exn -> M value) (st : state) (v : Z)
    (o : outcome (option value)) (evs : list event) :
  (forall e, handler e = (logger ERROR (rec e) ;; ret VNone)) ->
  _request_semaphore (self st) = Some v ->
  (0 < v)%Z ->
  for_each xs attempt {| self := set_request_semaphore (Some (v - 1)%Z) (self st);
                         trace := (trace st ++ [Acquire])%list |}
  = (o, {| self := set_request_semaphore (Some (v - 1)%Z) (self st);
           trace := ((trace st ++ [Acquire]) ++ evs)%list |}) ->
  o <> Blocked ->
  try_except
    (r <- async_with_semaphore (for_each xs attempt) ;;
     match r with
     | Some x => ret x
     | None => ret VNone
     end)
    handler st
  = (Return (match o with Return (Some x) => x | _ => VNone end),
     extend st (Acquire :: evs ++ Release ::
                  match o with Raise e => [Log ERROR (rec e)] | _ => [] end)).
Proof.
  intros Hh Hv Hpos Hloop Hnb.
  unfold try_except, bind, async_with_semaphore.
  rewrite Hv. replace (v <=? 0)%Z with false by lia. rewrite Hloop.
  assert (R : snd (release {| self := set_request_semaphore (Some (v - 1)%Z) (self st);
                               trace := ((trace st ++ [Acquire]) ++ evs)%list |})
              = extend st (Acquire :: evs ++ [Release])).
  { unfold release, extend; simpl. rewrite (set_request_semaphore_back _ Hv).
    f_equal. rewrite <- !app_assoc. reflexivity. }
  destruct o as [[x|]|e|]; rewrite ?R.
  - reflexivity.
  - reflexivity.
  - rewrite Hh. unfold logger, ret, bind. rewrite emit_extend, extend_extend.
    do 2 f_equal. simpl. now rewrite <- app_assoc.
  - now contradiction Hnb.
Qed.

(** With a session, [_get_direct_link_v3] is its inner [try]. *)
Lemma _get_direct_link_v3_inner (file_path : string) (st : state) (c : ClientSession) :
  session (self st) = Some c ->
  _get_direct_link_v3 d file_path st =
    let m := self st in
    let rel := _get_relative_path m file_path in
    try_except
      (r <- async_with_semaphore
              (for_each (range (_retry_attempts m))
                 (v3_attempt d ("http://127.0.0.1:" ++ PyStr.of_int (port m)
                                ++ "/fsEntry/direct-link?path=" ++ _encode_path_for_url m rel) rel)) ;;
       match r with
       | Some v => ret v
       | None => ret VNone
       end)
      (v3_handler rel) st.
Proof.
  intros Hs. unfold _get_direct_link_v3.
  unfold try_except at 1. unfold bind at 1. unfold get_self at 1. cbv beta iota.
  unfold bind at 1. rewrite Hs. unfold ret at 1. cbv beta iota zeta.
  match goal with
  | |- (let (_, _) := try_except ?body ?h st in _) = _ =>
      set (inner := try_except body h st);
      assert (NR : forall e', fst inner <> Raise e')
        by (apply try_except_no_raise; intros; discriminate)
  end.
  destruct inner as [[a|e|] st']; try reflexivity.
  exfalso. now apply (NR e).
Qed.

(** Without an entry id, [_get_direct_link_v2] is its inner [try]. *)
Lemma _get_direct_link_v2_inner (file_path : string) (fsentry_id : option string) (st : state) :
  Py.truthy_str fsentry_id = false ->
  _get_direct_link_v2 repr d file_path fsentry_id st =
    let m := self st in
    let rel := _get_relative_path m file_path in
    try_except
      (r <- async_with_semaphore
              (for_each (range (_retry_attempts m))
                 (v2_attempt repr d ("http://127.0.0.1:" ++ PyStr.of_int (port m)
                                     ++ "/fsEntry?path=" ++ _encode_path_for_url m rel) rel)) ;;
       match r with
       | Some v => ret v
       | None => ret VNone
       end)
      (v2_handler rel) st.
Proof.
  intros Hid. unfold _get_direct_link_v2.
  unfold try_except at 1. unfold bind at 1. unfold get_self at 1. cbv beta iota.
  rewrite Hid. cbv beta iota zeta.
  match goal with
  | |- (let (_, _) := try_except ?body ?h st in _) = _ =>
      set (inner := try_except body h st);
      assert (NR : forall e', fst inner <> Raise e')
        by (apply try_except_no_raise; intros; discriminate)
  end.
  destruct inner as [[a|e|] st']; try reflexivity.
  exfalso. now apply (NR e).
Qed.

(** A call on a network path, once the result of its retry loop is
    known: the slot is taken before and given back after, and an
    exception out of the loop becomes a log record and [None]. *)
Lemma get_direct_link_network (m : DirectLinkManager) (file_path : string)
    (fsentry_id : option string) (v : Z) (o : outcome (option value)) (evs : list event) :
  session m = Some Open ->
  _request_semaphore m = Some v ->
  (0 < v)%Z ->
  network_path m fsentry_id = true ->
  for_each (range (_retry_attempts m))
    (fun k => if (version m =? 2)%Z
              then v2_attempt repr d (request_url m file_path) (_get_relative_path m file_path) k
              else v3_attempt d (request_url m file_path) (_get_relative_path m file_path) k)
    {| self := set_request_semaphore (Some (v - 1)%Z) m; trace := [Acquire] |}
  = (o, {| self := set_request_semaphore (Some (v - 1)%Z) m; trace := Acquire :: evs |}) ->
  o <> Blocked ->
  get_direct_link repr d file_path fsentry_id (fresh m)
  = (Return (match o with Return (Some x) => x | _ => VNone end),
     {| self := m;
        trace := Acquire :: evs ++ Release ::
                   match o with
                   | Raise e => [Log ERROR (error_record m (_get_relative_path m file_path) e)]
                   | _ => []
                   end |}).
Proof.
  intros Hs Hv Hpos Hnet Hloop Hnb.
  unfold get_direct_link, bind, get_self, fresh. cbv beta iota.
  unfold network_path, request_url, endpoint, error_record in *. cbn [self] in *.
  destruct (version m =? 2)%Z.
  - simpl in Hnet. apply negb_true_iff in Hnet.
    rewrite (_get_direct_link_v2_inner _ _ _ Hnet). cbv zeta. cbn [self].
    apply (@network_call_run _ _ (Error_generating_v2 _) _ {| self := m; trace := [] |} v o evs
             (fun e => eq_refl) Hv Hpos Hloop Hnb).
  - rewrite (@_get_direct_link_v3_inner file_path {| self := m; trace := [] |} Open Hs).
    cbv zeta. cbn [self].
    apply (@network_call_run _ _ (Error_generating _) _ {| self := m; trace := [] |} v o evs
             (fun e => eq_refl) Hv Hpos Hloop Hnb).
Qed.

End Runs.
End RunFacts.

(* ------------------------------------------------------------------ *)
(** ** The retry policy *)
(* ------------------------------------------------------------------ *)

Module RetryFacts.
Import MonadFacts MethodFacts RunFacts.

Lemma range_pos (n : Z) : (1 <= n)%Z -> range n = O :: seq 1 (Z.to_nat n - 1).
Proof.
  intros H. unfold range. destruct (Z.to_nat n) as [|k] eqn:E; [lia|].
  simpl. now rewrite Nat.sub_0_r.
Qed.

Lemma requests_retries (url : string) (delay : Q) (k : nat) (rest : list event) :
  requests (retries url delay k ++ rest) = (k + requests rest)%nat.
Proof. unfold requests. induction k; simpl; [reflexivity | now rewrite IHk]. Qed.

Lemma sleeps_retries (url : string) (delay : Q) (k : nat) (rest : list event) :
  sleeps (retries url delay k ++ rest) = (k + sleeps rest)%nat.
Proof. unfold sleeps. induction k; simpl; [reflexivity | now rewrite IHk]. Qed.

Section Policy.
Variable repr : value -> string.
Variable d : daemon.
Variable m : DirectLinkManager.
Variable file_path : string.
Variable fsentry_id : option string.

Hypothesis session_open : opened m.
Hypothesis some_attempt : (1 <= _retry_attempts m)%Z.
Hypothesis on_network : network_path m fsentry_id = true.

(** Status 400 on the first request. *)
Lemma answered_400 (json : exn + value) :
  d O (request_url m file_path) = Response 400 json ->
  get_direct_link repr d file_path fsentry_id (fresh m)
  = (Return VNone,
     {| self := m;
        trace := [Acquire; Get (request_url m file_path);
                  Log WARNING (Bad_Request (_get_relative_path m file_path)); Release] |}).
Proof.
  intros Hd. destruct session_open as [Hs [v [Hv Hpos]]].
  apply (@get_direct_link_network repr d m file_path fsentry_id v (Return (Some VNone))
           [Get (request_url m file_path);
            Log WARNING (Bad_Request (_get_relative_path m file_path))]
           Hs Hv Hpos on_network); [|discriminate].
  rewrite (range_pos some_attempt). simpl. unfold bind.
  destruct (version m =? 2)%Z.
  - erewrite v2_attempt_400; [reflexivity | exact Hs | exact Hd].
  - erewrite v3_attempt_400; [reflexivity | exact Hs | exact Hd].
Qed.

(** Every attempt ends in a client error. *)
Lemma client_errors_exhaust (err : nat -> exn) :
  (forall k, (k < Z.to_nat (_retry_attempts m))%nat ->
             client_error_of (d k (request_url m file_path)) = Some (err k)) ->
  get_direct_link repr d file_path fsentry_id (fresh m)
  = (Return VNone,
     {| self := m;
        trace := Acquire ::
          retries (request_url m file_path) (_retry_delay m)
            (Z.to_nat (_retry_attempts m) - 1)
          ++ [Get (request_url m file_path); Release;
              Log ERROR (error_record m (_get_relative_path m file_path)
                           (err (Z.to_nat (_retry_attempts m) - 1)%nat))] |}).
Proof.
  intros Herr. destruct session_open as [Hs [v [Hv Hpos]]].
  pose proof (@get_direct_link_network repr d m file_path fsentry_id v
                (Raise (err (Z.to_nat (_retry_attempts m) - 1)%nat))
                (retries (request_url m file_path) (_retry_delay m)
                   (Z.to_nat (_retry_attempts m) - 1) ++ [Get (request_url m file_path)])
                Hs Hv Hpos on_network) as H.
  rewrite H; [now rewrite <- app_assoc | | discriminate].
  unfold range.
  destruct (Z.to_nat (_retry_attempts m)) as [|l] eqn:En; [lia|].
  replace (S l - 1)%nat with l by lia.
  rewrite (@retry_loop_exhausted d _ (request_url m file_path) err) with (len := S l) (a := O).
  - reflexivity.
  - intros k st e Hs' He. destruct (version m =? 2)%Z.
    + now apply v2_attempt_client_error.
    + now apply v3_attempt_client_error.
  - exact Hs.
  - simpl. lia.
  - intros k Hk. apply Herr. lia.
Qed.

(** A failure that is no client error (a total timeout, say) is not
    tried again: it leaves the loop at once. *)
Lemma other_failure_not_retried (e : exn) :
  d O (request_url m file_path) = Failure e ->
  is_ClientError e = false ->
  get_direct_link repr d file_path fsentry_id (fresh m)
  = (Return VNone,
     {| self := m;
        trace := [Acquire; Get (request_url m file_path); Release;
                  Log ERROR (error_record m (_get_relative_path m file_path) e)] |}).
Proof.
  intros Hd He. destruct session_open as [Hs [v [Hv Hpos]]].
  apply (@get_direct_link_network repr d m file_path fsentry_id v (Raise e)
           [Get (request_url m file_path)] Hs Hv Hpos on_network); [|discriminate].
  rewrite (range_pos some_attempt). simpl. unfold bind.
  destruct (version m =? 2)%Z; run_attempt; cbn [session set_request_semaphore];
    rewrite Hs; simpl; rewrite Hd; simpl; rewrite He; reflexivity.
Qed.

End Policy.
End RetryFacts.

(** C5: on a network path, when the daemon answers the request with status
    400, the call logs a warning and returns no link after exactly one
    request, without waiting or trying again. *)
Theorem C5_status_400_not_retried (repr : value -> string) (d : daemon) (m : DirectLinkManager)
    (file_path : string) (fsentry_id : option string) (json : exn + value) :
  opened m ->
  (1 <= _retry_attempts m)%Z ->
  network_path m fsentry_id = true ->
  d O (request_url m file_path) = Response 400 json ->
  let r := get_direct_link repr d file_path fsentry_id (fresh m) in
  r = (Return VNone,
       {| self := m;
          trace := [Acquire; Get (request_url m file_path);
                    Log WARNING (Bad_Request (_get_relative_path m file_path)); Release] |})
  /\ requests (trace (snd r)) = 1%nat
  /\ sleeps (trace (snd r)) = 0%nat.
Proof.
  intros Ho Hn Hnet Hd r. subst r.
  rewrite (@RetryFacts.answered_400 repr d m file_path fsentry_id Ho Hn Hnet json Hd).
  repeat split.
Qed.

Lemma C5_status_400_not_retried_witness :
  let r := get_direct_link Example.repr (Example.always (Response 400 (inr VNone)))
             Example.file None (fresh (Example.entered (Example.manager 3 None))) in
  r = (Return VNone,
       {| self := Example.entered (Example.manager 3 None);
          trace := [Acquire;
                    Get (request_url (Example.entered (Example.manager 3 None)) Example.file);
                    Log WARNING (Bad_Request
                                   (_get_relative_path (Example.entered (Example.manager 3 None))
                                      Example.file));
                    Release] |})
  /\ requests (trace (snd r)) = 1%nat
  /\ sleeps (trace (snd r)) = 0%nat.
Proof.
  apply (@C5_status_400_not_retried Example.repr (Example.always (Response 400 (inr VNone)))
           (Example.entered (Example.manager 3 None)) Example.file None (inr VNone)).
  - split; [reflexivity | exists 10%Z; split; [reflexivity | reflexivity]].
  - vm_compute. discriminate.
  - reflexivity.
  - reflexivity.
Defined.

(** C6, as the code has it: the failures that are tried again are those
    the loop catches, the subclasses of [aiohttp.ClientError] (connection
    refused, reset, disconnected, ...).  On a network path, when every
    attempt fails with one of them, exactly [retry_attempts] requests are
    issued, with a sleep of [retry_delay] between consecutive attempts
    ([retry_attempts - 1] sleeps in all); the failure of the last attempt
    is the one that ends the loop, and the call yields no link. *)
Theorem C6_transport_failures_exhaust_retries (repr : value -> string) (d : daemon)
    (m : DirectLinkManager) (file_path : string) (fsentry_id : option string) (err : nat -> exn) :
  opened m ->
  (1 <= _retry_attempts m)%Z ->
  network_path m fsentry_id = true ->
  (forall k, (k < Z.to_nat (_retry_attempts m))%nat ->
             d k (request_url m file_path) = Failure (err k) /\ is_ClientError (err k) = true) ->
  let n := Z.to_nat (_retry_attempts m) in
  let r := get_direct_link repr d file_path fsentry_id (fresh m) in
  r = (Return VNone,
       {| self := m;
          trace := Acquire ::
            retries (request_url m file_path) (_retry_delay m) (n - 1)
            ++ [Get (request_url m file_path); Release;
                Log ERROR (error_record m (_get_relative_path m file_path) (err (n - 1)%nat))] |})
  /\ requests (trace (snd r)) = n
  /\ sleeps (trace (snd r)) = (n - 1)%nat.
Proof.
  intros Ho Hn Hnet Hd n r. subst r.
  rewrite (@RetryFacts.client_errors_exhaust repr d m file_path fsentry_id Ho Hn Hnet err).
  - cbn [snd trace]. split; [reflexivity|]. split.
    + change (requests (Acquire :: ?l)) with (requests l).
      rewrite RetryFacts.requests_retries. cbn. subst n. lia.
    + change (sleeps (Acquire :: ?l)) with (sleeps l).
      rewrite RetryFacts.sleeps_retries. cbn. lia.
  - intros k Hk. destruct (Hd k Hk) as [-> Hc]. simpl. now rewrite Hc.
Qed.

Lemma C6_transport_failures_exhaust_retries_witness :
  let m := Example.entered (Example.manager 3 None) in
  let r := get_direct_link Example.repr Example.refusing Example.file None (fresh m) in
  r = (Return VNone,
       {| self := m;
          trace := Acquire ::
            retries (request_url m Example.file) (1#2) 2
            ++ [Get (request_url m Example.file); Release;
                Log ERROR (error_record m (_get_relative_path m Example.file)
                             (ClientError "Cannot connect, attempt 2"))] |})
  /\ requests (trace (snd r)) = 3%nat
  /\ sleeps (trace (snd r)) = 2%nat.
Proof.
  apply (@C6_transport_failures_exhaust_retries Example.repr Example.refusing
           (Example.entered (Example.manager 3 None)) Example.file None
           (fun k => ClientError ("Cannot connect, attempt " ++ PyStr.of_int (Z.of_nat k)))).
  - split; [reflexivity | exists 10%Z; split; [reflexivity | reflexivity]].
  - vm_compute. discriminate.
  - reflexivity.
  - intros k Hk. split; reflexivity.
Defined.

(** C6 as stated fails for a timeout: the request that runs into the total
    timeout of the session raises [asyncio.TimeoutError], which is no
    [aiohttp.ClientError]; [except aiohttp.ClientError] lets it through to
    the top-level handler.  With three attempts allowed and a daemon that
    times out on every request, one request is issued, not three, and the
    call never sleeps. *)
Lemma C6_counterexample :
  let m := Example.entered (Example.manager 3 None) in
  let timeout := OtherException "TimeoutError" in
  let d := Example.always (Failure timeout) in
  let r := get_direct_link Example.repr d Example.file None (fresh m) in
  network_path m None = true /\
  _retry_attempts m = 3%Z /\
  (forall k, d k (request_url m Example.file) = Failure timeout) /\
  is_ClientError timeout = false /\
  r = (Return VNone,
       {| self := m;
          trace := [Acquire; Get (request_url m Example.file); Release;
                    Log ERROR (error_record m (_get_relative_path m Example.file) timeout)] |}) /\
  requests (trace (snd r)) = 1%nat /\
  requests (trace (snd r)) <> Z.to_nat (_retry_attempts m) /\
  sleeps (trace (snd r)) = 0%nat.
Proof.
  cbv zeta. split; [reflexivity|]. split; [reflexivity|]. split; [intros k; reflexivity|].
  split; [reflexivity|]. split; [vm_compute; reflexivity|]. split; [vm_compute; reflexivity|].
  split; [vm_compute; discriminate | vm_compute; reflexivity].
Qed.

(** C2, as the code has it: a response whose status is above 400 makes
    [raise_for_status] raise a client error, which the retry loop treats as
    it treats a transport failure.  When every attempt is answered so, the
    call issues [retry_attempts] requests with a delay between them, and the
    error of the last one becomes the no-link result. *)
Theorem C2_error_status_is_retried (repr : value -> string) (d : daemon)
    (m : DirectLinkManager) (file_path : string) (fsentry_id : option string)
    (status : nat -> Z) (json : nat -> exn + value) :
  opened m ->
  (1 <= _retry_attempts m)%Z ->
  network_path m fsentry_id = true ->
  (forall k, (k < Z.to_nat (_retry_attempts m))%nat ->
             d k (request_url m file_path) = Response (status k) (json k)
             /\ (400 < status k)%Z) ->
  let n := Z.to_nat (_retry_attempts m) in
  let r := get_direct_link repr d file_path fsentry_id (fresh m) in
  r = (Return VNone,
       {| self := m;
          trace := Acquire ::
            retries (request_url m file_path) (_retry_delay m) (n - 1)
            ++ [Get (request_url m file_path); Release;
                Log ERROR (error_record m (_get_relative_path m file_path)
                             (ClientResponseError (status (n - 1)%nat)))] |})
  /\ requests (trace (snd r)) = n
  /\ sleeps (trace (snd r)) = (n - 1)%nat.
Proof.
  intros Ho Hn Hnet Hd n r. subst r.
  rewrite (@RetryFacts.client_errors_exhaust repr d m file_path fsentry_id Ho Hn Hnet
             (fun k => ClientResponseError (status k))).
  - cbn [snd trace]. split; [reflexivity|]. split.
    + change (requests (Acquire :: ?l)) with (requests l).
      rewrite RetryFacts.requests_retries. cbn. subst n. lia.
    + change (sleeps (Acquire :: ?l)) with (sleeps l).
      rewrite RetryFacts.sleeps_retries. cbn. lia.
  - intros k Hk. destruct (Hd k Hk) as [-> Hc]. simpl.
    replace (status k =? 400)%Z with false by lia.
    replace (status k <? 400)%Z with false by lia. reflexivity.
Qed.

Lemma C2_error_status_is_retried_witness :
  let m := Example.entered (Example.manager 3 None) in
  let r := get_direct_link Example.repr (Example.always (Response 500 (inr VNone)))
             Example.file None (fresh m) in
  r = (Return VNone,
       {| self := m;
          trace := Acquire ::
            retries (request_url m Example.file) (1#2) 2
            ++ [Get (request_url m Example.file); Release;
                Log ERROR (error_record m (_get_relative_path m Example.file)
                             (ClientResponseError 500))] |})
  /\ requests (trace (snd r)) = 3%nat
  /\ sleeps (trace (snd r)) = 2%nat.
Proof.
  apply (@C2_error_status_is_retried Example.repr (Example.always (Response 500 (inr VNone)))
           (Example.entered (Example.manager 3 None)) Example.file None
           (fun _ => 500%Z) (fun _ => inr VNone)).
  - split; [reflexivity | exists 10%Z; split; [reflexivity | reflexivity]].
  - vm_compute. discriminate.
  - reflexivity.
  - intros k Hk. split; reflexivity.
Defined.

(** C2 as stated fails: a daemon that answers every request with status 500
    is sent three requests, not one, by a manager with three attempts; and
    status 304, neither 2xx nor 400, is no error at all: its body is parsed
    and the link returned. *)
Lemma C2_counterexample :
  let m := Example.entered (Example.manager 3 None) in
  let r := get_direct_link Example.repr (Example.always (Response 500 (inr VNone)))
             Example.file None (fresh m) in
  let r' := get_direct_link Example.repr
              (Example.always (Response 304 (inr (VDict [("result", VStr "lucid://x/y/z")]))))
              Example.file None (fresh m) in
  requests (trace (snd r)) = 3%nat /\ sleeps (trace (snd r)) = 2%nat
  /\ requests (trace (snd r)) <> 1%nat
  /\ fst r' = Return (VStr "lucid://x/y/z").
Proof. vm_compute. repeat split; discriminate. Qed.

(* ------------------------------------------------------------------ *)
(** ** Version 2 without a filespace name *)
(* ------------------------------------------------------------------ *)

Module FilespaceFacts.
Import MonadFacts MethodFacts RunFacts.

Section NoFilespace.
Variable repr : value -> string.
Variable d : daemon.

Lemma v2_attempt_no_link (url fp : string) (k : nat) (st st' : state) (x : value) :
  Py.truthy_str (_filespace (self st)) = false ->
  v2_attempt repr d url fp k st = (Return (Some x), st') ->
  x = VNone.
Proof.
  intros Hf. run_attempt.
  destruct (session (self st)) as [[|]|]; simpl; try discriminate.
  destruct (d k url) as [status json|e]; simpl.
  - destruct (status =? 400)%Z; simpl; [intros H; now injection H as <- _|].
    destruct (status <? 400)%Z; simpl.
    + destruct json as [e|data]; simpl.
      * destruct (is_ClientError e); [destruct (Z.of_nat k =? _)%Z|]; discriminate.
      * destruct (Py.truthy data); simpl.
        -- destruct (Py.contains "id" data) as [e|[|]]; simpl.
           ++ destruct (is_ClientError e); [destruct (Z.of_nat k =? _)%Z|]; discriminate.
           ++ destruct (Py.getitem data "id") as [e|id]; simpl.
              ** destruct (is_ClientError e); [destruct (Z.of_nat k =? _)%Z|]; discriminate.
              ** rewrite Hf. simpl. intros H; now injection H as <- _.
           ++ intros H; now injection H as <- _.
        -- intros H; now injection H as <- _.
    + destruct (Z.of_nat k =? _)%Z; discriminate.
  - destruct (is_ClientError e); [destruct (Z.of_nat k =? _)%Z|]; discriminate.
Qed.

Lemma loop_no_link (url fp : string) (xs : list nat) :
  forall (st st' : state) (x : value),
    Py.truthy_str (_filespace (self st)) = false ->
    for_each xs (v2_attempt repr d url fp) st = (Return (Some x), st') ->
    x = VNone.
Proof.
  induction xs as [|k xs IH]; simpl; intros st st' x Hf H; [discriminate|].
  unfold bind in H.
  destruct (v2_attempt_confined repr d url fp k st) as [o [evs [E _]]].
  rewrite E in H. destruct o as [[y|]|e|]; try discriminate.
  - unfold ret in H. injection H as <- _. eapply v2_attempt_no_link; eassumption.
  - eapply IH; [|exact H]. exact Hf.
Qed.

Lemma _get_direct_link_v2_no_link (file_path : string) (fsentry_id : option string)
    (st : state) (x : value) :
  Py.truthy_str fsentry_id = false ->
  Py.truthy_str (_filespace (self st)) = false ->
  fst (_get_direct_link_v2 repr d file_path fsentry_id st) = Return x ->
  x = VNone.
Proof.
  intros Hid Hf.
  rewrite (@_get_direct_link_v2_inner repr d file_path fsentry_id st Hid). cbv zeta.
  unfold try_except, bind, async_with_semaphore.
  destruct (_request_semaphore (self st)) as [v|].
  - destruct (v <=? 0)%Z; [discriminate|].
    match goal with
    | |- context [for_each ?xs ?att ?s] => destruct (for_each xs att s) as [[[y|]|e|] s'] eqn:E
    end; simpl; intros H; try discriminate; try (now injection H as <-).
    injection H as <-. eapply loop_no_link; [|exact E]. exact Hf.
  - simpl. intros H. now injection H as <-.
Qed.

End NoFilespace.
End FilespaceFacts.

(** C3, as the code has it: a version 2 call without an entry id, when no
    filespace name is configured, never yields a link; but it does not fail
    at once.  The name is checked only after the daemon has answered with an
    entry id: the call then has issued its request, logs the configuration
    error and returns no link. *)
Theorem C3_no_filespace_checked_after_request (repr : value -> string) (d : daemon)
    (m : DirectLinkManager) (file_path : string) (fsentry_id : option string) :
  version m = 2%Z ->
  Py.truthy_str fsentry_id = false ->
  Py.truthy_str (_filespace m) = false ->
  (forall tr x,
      fst (get_direct_link repr d file_path fsentry_id {| self := m; trace := tr |}) = Return x ->
      x = VNone) /\
  (gate_exhausted m = false ->
   forall tr,
     fst (get_direct_link repr d file_path fsentry_id {| self := m; trace := tr |}) = Return VNone) /\
  (opened m ->
   (1 <= _retry_attempts m)%Z ->
   forall status data id,
     d O (request_url m file_path) = Response status (inr data) ->
     (status < 400)%Z ->
     Py.truthy data = true ->
     Py.contains "id" data = inr true ->
     Py.getitem data "id" = inr id ->
     get_direct_link repr d file_path fsentry_id (fresh m)
     = (Return VNone,
        {| self := m;
           trace := [Acquire; Get (request_url m file_path);
                     Log ERROR Filespace_name_not_set; Release] |})).
Proof.
  intros Hv Hid Hf.
  assert (Hx : forall tr x,
             fst (get_direct_link repr d file_path fsentry_id {| self := m; trace := tr |})
             = Return x -> x = VNone).
  { intros tr x. unfold get_direct_link, bind, get_self. cbn [self]. rewrite Hv. simpl.
    now apply FilespaceFacts._get_direct_link_v2_no_link. }
  split; [exact Hx|]. split.
  - intros Hg tr.
    destruct (MethodFacts.get_direct_link_disciplined repr d file_path fsentry_id
                {| self := m; trace := tr |}) as [o [evs [E [NR [B _]]]]].
    pose proof (Hx tr) as Hx'. rewrite E in *. simpl in *.
    destruct o as [x|e|].
    + now rewrite (Hx' x eq_refl).
    + now contradiction (NR e).
    + rewrite (B eq_refl) in Hg. discriminate.
  - intros [Hs [v [Hsem Hpos]]] Hn status data id Hd Hst Ht Hc Hg.
    apply (@RunFacts.get_direct_link_network repr d m file_path fsentry_id v
             (Return (Some VNone))
             [Get (request_url m file_path); Log ERROR Filespace_name_not_set]
             Hs Hsem Hpos); [| |discriminate].
    + unfold network_path. rewrite Hid. now rewrite andb_false_r.
    + rewrite (RetryFacts.range_pos Hn). simpl. unfold bind.
      rewrite Hv. simpl.
      erewrite RunFacts.v2_attempt_no_filespace;
        [reflexivity | exact Hs | exact Hd | lia | exact Ht | exact Hc | exact Hg | exact Hf].
Qed.

Lemma C3_no_filespace_checked_after_request_witness :
  get_direct_link Example.repr (Example.always Example.found) Example.file None
    (fresh (Example.entered (Example.manager 2 None)))
  = (Return VNone,
     {| self := Example.entered (Example.manager 2 None);
        trace := [Acquire; Get (request_url (Example.entered (Example.manager 2 None)) Example.file);
                  Log ERROR Filespace_name_not_set; Release] |}).
Proof.
  apply (proj2 (proj2 (@C3_no_filespace_checked_after_request Example.repr
                         (Example.always Example.found)
                         (Example.entered (Example.manager 2 None)) Example.file None
                         eq_refl eq_refl eq_refl)))
    with (status := 200%Z) (id := VStr "abc123")
         (data := VDict [("id", VStr "abc123"); ("result", VStr "lucid://x/y/z")]).
  - split; [reflexivity | exists 10%Z; split; [reflexivity | reflexivity]].
  - vm_compute. discriminate.
  - reflexivity.
  - reflexivity.
  - reflexivity.
  - reflexivity.
  - reflexivity.
Defined.

(** C3 as stated fails: with version 2, no entry id and no filespace name,
    a request is issued before the call fails. *)
Lemma C3_counterexample :
  let r := get_direct_link Example.repr (Example.always Example.found) Example.file None
             (fresh (Example.entered (Example.manager 2 None))) in
  fst r = Return VNone /\ requests (trace (snd r)) = 1%nat /\ requests (trace (snd r)) <> 0%nat.
Proof. vm_compute. repeat split; discriminate. Qed.

(* ------------------------------------------------------------------ *)
(** ** The fast path, the dispatch and the top-level handlers *)
(* ------------------------------------------------------------------ *)

(** C4: with version 2 and an entry id supplied, a configured filespace
    name gives exactly [lucid://{filespace}/file/{entryId}]: the manager is
    left untouched, no slot of the gate is taken and no request is issued,
    the only effect being a debug record.  Without a filespace name the
    call logs the configuration error and returns no link.  (Supplied and
    configured are what the code tests: a string that is not empty.) *)
Theorem C4_v2_fast_path (repr : value -> string) (d : daemon) (file_path entry : string)
    (st : state) :
  version (self st) = 2%Z ->
  entry <> "" ->
  (forall filespace,
      _filespace (self st) = Some filespace ->
      filespace <> "" ->
      get_direct_link repr d file_path (Some entry) st
      = (Return (VStr ("lucid://" ++ filespace ++ "/file/" ++ entry)),
         extend st [Log DEBUG (Generated_v2_using_provided_ID file_path
                                 ("lucid://" ++ filespace ++ "/file/" ++ entry))])) /\
  (Py.truthy_str (_filespace (self st)) = false ->
   get_direct_link repr d file_path (Some entry) st
   = (Return VNone, extend st [Log ERROR Filespace_name_not_set])).
Proof.
  intros Hv He.
  assert (Hid : Py.truthy_str (Some entry) = true) by (destruct entry; [contradiction | reflexivity]).
  split.
  - intros filespace Hf Hne.
    unfold get_direct_link, bind, get_self. rewrite Hv. simpl.
    unfold _get_direct_link_v2, try_except, bind, get_self. rewrite Hid, Hf.
    destruct filespace; [contradiction|]. reflexivity.
  - intros Hf.
    unfold get_direct_link, bind, get_self. rewrite Hv. simpl.
    unfold _get_direct_link_v2, try_except, bind, get_self. rewrite Hid, Hf.
    reflexivity.
Qed.

Lemma C4_v2_fast_path_witness :
  get_direct_link Example.repr Example.refusing Example.file (Some "e1")
    (fresh (Example.manager 2 (Some "myfilespace")))
  = (Return (VStr "lucid://myfilespace/file/e1"),
     extend (fresh (Example.manager 2 (Some "myfilespace")))
       [Log DEBUG (Generated_v2_using_provided_ID Example.file "lucid://myfilespace/file/e1")]).
Proof.
  apply (proj1 (@C4_v2_fast_path Example.repr Example.refusing Example.file "e1"
                  (fresh (Example.manager 2 (Some "myfilespace"))) eq_refl
                  ltac:(discriminate))
           "myfilespace" eq_refl ltac:(discriminate)).
Defined.

(** C10: construction stores the version as given, and a call under any
    version other than 2 (1, 4, 0, ...) is the version 3 call: all its
    requests go to [/fsEntry/direct-link]. *)
Theorem C10_other_versions_use_v3 (repr : value -> string) (d : daemon)
    (api_port : Z) (mount : string) (ver workers attempts : Z) (delay : Q)
    (filespace : option string) (file_path : string) (fsentry_id : option string) (st : state) :
  version (__init__ api_port mount ver workers attempts delay filespace) = ver /\
  (version (self st) <> 2%Z ->
   get_direct_link repr d file_path fsentry_id st = _get_direct_link_v3 d file_path st /\
   exists o evs,
     get_direct_link repr d file_path fsentry_id st = (o, extend st evs) /\
     requests_to ("http://127.0.0.1:" ++ PyStr.of_int (port (self st))
                  ++ "/fsEntry/direct-link?path="
                  ++ _encode_path_for_url (self st) (_get_relative_path (self st) file_path))
       evs).
Proof.
  split; [reflexivity|]. intros Hv.
  assert (E : get_direct_link repr d file_path fsentry_id st = _get_direct_link_v3 d file_path st).
  { unfold get_direct_link, bind, get_self.
    replace (version (self st) =? 2)%Z with false by lia. reflexivity. }
  split; [exact E|]. rewrite E.
  destruct (MethodFacts._get_direct_link_v3_disciplined d file_path st)
    as [o [evs [E' [_ [_ [_ R]]]]]].
  now exists o, evs.
Qed.

Lemma C10_other_versions_use_v3_witness :
  get_direct_link Example.repr (Example.always Example.found) Example.file (Some "e1")
    (fresh (Example.entered (Example.manager 4 (Some "myfilespace"))))
  = _get_direct_link_v3 (Example.always Example.found) Example.file
      (fresh (Example.entered (Example.manager 4 (Some "myfilespace")))).
Proof.
  apply (proj2 (@C10_other_versions_use_v3 Example.repr (Example.always Example.found)
                  8280 "/Volumes/filespace" 4 10 3 (1#2) (Some "myfilespace")
                  Example.file (Some "e1")
                  (fresh (Example.entered (Example.manager 4 (Some "myfilespace")))))).
  vm_compute. discriminate.
Defined.

(** C1, as the code has it: whatever the manager, the arguments and the
    daemon, no exception reaches the caller; the call returns (a link or
    no link) unless the gate has no slot to give.  A call made before the
    session is opened is no exception to this: on a network path it issues
    no request, logs an error and returns the same no-link result as any
    other failure. *)
Theorem C1_no_exception_reaches_the_caller (repr : value -> string) (d : daemon)
    (file_path : string) (fsentry_id : option string) (st : state) :
  let r := get_direct_link repr d file_path fsentry_id st in
  ~ raises_to_caller (fst r) /\
  (gate_exhausted (self st) = false -> exists v, fst r = Return v) /\
  (session (self st) = None ->
   _request_semaphore (self st) = None ->
   network_path (self st) fsentry_id = true ->
   exists msg,
     r = (Return VNone,
          extend st
            [Log ERROR
               (if (version (self st) =? 2)%Z
                then Error_generating_v2 (_get_relative_path (self st) file_path) (TypeError msg)
                else Error_generating file_path (RuntimeError "Session not initialized"))])).
Proof.
  intros r. subst r.
  destruct (MethodFacts.get_direct_link_disciplined repr d file_path fsentry_id st)
    as [o [evs [E [NR [B _]]]]].
  split; [|split].
  - intros [e He]. rewrite E in He. now apply (NR e).
  - intros Hg. rewrite E. simpl. destruct o as [v|e|].
    + now exists v.
    + now contradiction (NR e).
    + rewrite (B eq_refl) in Hg. discriminate.
  - clear E. intros Hs Hsem Hnet.
    unfold get_direct_link, bind, get_self, network_path in *.
    destruct (version (self st) =? 2)%Z.
    + simpl in Hnet. apply negb_true_iff in Hnet.
      rewrite (@RunFacts._get_direct_link_v2_inner repr d file_path fsentry_id st Hnet).
      cbv zeta. unfold try_except, bind, async_with_semaphore. rewrite Hsem.
      eexists. reflexivity.
    + unfold _get_direct_link_v3.
      unfold try_except at 1. unfold bind at 1. unfold get_self at 1. cbv beta iota.
      unfold bind at 1. rewrite Hs. exists "". reflexivity.
Qed.

Lemma C1_no_exception_reaches_the_caller_witness :
  exists msg,
    get_direct_link Example.repr (Example.always Example.found) Example.file None
      (fresh (Example.manager 3 None))
    = (Return VNone,
       extend (fresh (Example.manager 3 None))
         [Log ERROR
            (if (version (self (fresh (Example.manager 3 None))) =? 2)%Z
             then Error_generating_v2
                    (_get_relative_path (self (fresh (Example.manager 3 None))) Example.file)
                    (TypeError msg)
             else Error_generating Example.file (RuntimeError "Session not initialized"))]).
Proof.
  apply (proj2 (proj2 (@C1_no_exception_reaches_the_caller Example.repr
                         (Example.always Example.found) Example.file None
                         (fresh (Example.manager 3 None))))); reflexivity.
Defined.

(** C1 as stated fails: called before the session is opened, the version 3
    path raises nothing to the caller but returns the plain no-link result,
    the same value a refused path gives; the version 2 slow path does the
    same, its log record naming no session; and the version 2 fast path
    returns its link as if nothing were amiss. *)
Lemma C1_counterexample :
  let before := fresh (Example.manager 3 (Some "myfilespace")) in
  let before2 := fresh (Example.manager 2 (Some "myfilespace")) in
  let r := get_direct_link Example.repr (Example.always Example.found) Example.file None before in
  let r2 := get_direct_link Example.repr (Example.always Example.found) Example.file (Some "e1")
              before2 in
  let r2' := get_direct_link Example.repr (Example.always Example.found) Example.file None
               before2 in
  session (self before) = None /\
  ~ raises_to_caller (fst r) /\
  fst r = Return VNone /\
  fst r = fst (get_direct_link Example.repr (Example.always (Response 400 (inr VNone)))
                 Example.file None
                 (fresh (Example.entered (Example.manager 3 (Some "myfilespace"))))) /\
  fst r2 = Return (VStr "lucid://myfilespace/file/e1") /\
  r2' = (Return VNone,
         extend before2
           [Log ERROR
              (Error_generating_v2 "path/to/file2[v1].pdf"
                 (TypeError "'NoneType' object does not support the asynchronous context manager protocol"))]).
Proof.
  vm_compute. repeat split; try reflexivity.
  intros [e He]. discriminate.
Qed.

(* ------------------------------------------------------------------ *)
(** ** Calls in flight together: the gate bounds the requests *)
(* ------------------------------------------------------------------ *)

Module ConcurrentFacts.
Import Concurrent.

Lemma depth_app (a b : list event) : depth (a ++ b) = (depth a + depth b)%Z.
Proof.
  induction a as [|ev a IH]; [simpl; lia|].
  change ((ev :: a) ++ b)%list with (ev :: (a ++ b))%list.
  destruct ev; cbn [depth]; rewrite IH; lia.
Qed.

Lemma depth_ungated (l : list event) : Forall ungated l -> depth l = 0%Z.
Proof.
  induction 1 as [|ev l H _ IH]; [reflexivity|].
  destruct ev; simpl; try assumption; discriminate H.
Qed.

Lemma quiet_ungated (l : list event) : Forall quiet l -> Forall ungated l.
Proof. apply Forall_impl. now intros ev [H _]. Qed.

Lemma Forall_firstn' {A} (P : A -> Prop) (n : nat) (l : list A) :
  Forall P l -> Forall P (firstn n l).
Proof.
  intros H. rewrite <- (firstn_skipn n l) in H. now apply Forall_app in H.
Qed.

Lemma firstn_snoc {A} (l : list A) (n : nat) (x : A) :
  nth_error l n = Some x -> firstn (S n) l = (firstn n l ++ [x])%list.
Proof.
  revert n. induction l as [|a l IH]; intros [|n] H; simpl in *; try discriminate.
  - now injection H as ->.
  - f_equal. now apply IH.
Qed.

Lemma quiet_not_outstanding (l : list event) (k : nat) (ev : event) :
  Forall quiet l -> nth_error l k = Some ev -> is_Get ev = false.
Proof.
  intros H Hn. apply nth_error_In in Hn.
  rewrite Forall_forall in H. now destruct (H ev Hn).
Qed.

(** A call that keeps the gate discipline holds no slot or one, and holds
    one while its request is outstanding. *)
Lemma guarded_held (sc : list event) (n : nat) :
  guarded sc ->
  let t := {| script := sc; pos := n |} in
  (0 <= held t)%Z /\ (outstanding t = true -> held t = 1%Z).
Proof.
  intros [Hq | [inner [post [-> [Hin Hpost]]]]] t; subst t; unfold held, outstanding;
    cbn [script pos].
  - rewrite (depth_ungated (Forall_firstn' n (quiet_ungated Hq))).
    split; [lia|]. destruct n as [|k]; [discriminate|].
    destruct (nth_error sc k) as [ev|] eqn:E; [|discriminate].
    now rewrite (quiet_not_outstanding _ Hq E).
  - destruct n as [|k]; [cbn [firstn depth]; split; [lia | discriminate]|].
    cbn [firstn depth]. rewrite firstn_app, depth_app.
    rewrite (depth_ungated (Forall_firstn' k Hin)).
    destruct (k - List.length inner)%nat as [|j] eqn:Ek.
    + cbn [firstn depth]. split; [lia|]. intros _. lia.
    + cbn [firstn depth]. rewrite (depth_ungated (Forall_firstn' j (quiet_ungated Hpost))).
      split; [lia|].
      destruct k as [|k']; [discriminate|]. cbn [nth_error].
      rewrite nth_error_app2 by lia.
      replace (k' - List.length inner)%nat with j by lia.
      destruct j as [|j']; cbn [nth_error is_Get]; [discriminate|].
      destruct (nth_error post j') as [ev|] eqn:E; [|discriminate].
      now rewrite (quiet_not_outstanding _ Hpost E).
Qed.

Lemma held_advance (t : task) (ev : event) :
  nth_error (script t) (pos t) = Some ev ->
  held (advance t) = (held t + depth [ev])%Z.
Proof.
  intros H. unfold held, advance. simpl script. simpl pos.
  now rewrite (firstn_snoc _ _ H), depth_app.
Qed.

Lemma gate_after_depth (ev : event) (g : Z) : gate_after ev g = (g - depth [ev])%Z.
Proof. destruct ev; simpl; lia. Qed.

Lemma total_held_update (ts : list task) (i : nat) (t t' : task) :
  nth_error ts i = Some t ->
  total_held (update i t' ts) = (total_held ts - held t + held t')%Z.
Proof.
  revert i. induction ts as [|a ts IH]; intros [|i] H; simpl in *; try discriminate.
  - injection H as ->. lia.
  - rewrite (IH i H). lia.
Qed.

Lemma Forall_update {A} (P : A -> Prop) (ts : list A) (i : nat) (t' : A) :
  Forall P ts -> P t' -> Forall P (update i t' ts).
Proof.
  revert i. induction ts as [|a ts IH]; intros i H Ht'; [destruct i; constructor|].
  inversion H; subst. destruct i; simpl; constructor; auto.
Qed.

Lemma step_well_formed (limit : Z) (p p' : pool) :
  well_formed limit p -> step p p' -> well_formed limit p'.
Proof.
  intros [Hsum [Hpos Hg]] [i t ev Ht Hev Hen]. unfold well_formed. simpl.
  repeat split.
  - rewrite total_held_update with (t := t) by exact Ht.
    rewrite held_advance with (ev := ev) by exact Hev.
    rewrite gate_after_depth. lia.
  - destruct ev; simpl; try lia. specialize (Hen eq_refl). lia.
  - apply Forall_update; [assumption|]. simpl.
    rewrite Forall_forall in Hg. apply (Hg t). eapply nth_error_In; eassumption.
Qed.

Lemma reachable_well_formed (limit : Z) (p0 p : pool) :
  well_formed limit p0 -> reachable p0 p -> well_formed limit p.
Proof.
  intros H0 Hr. induction Hr as [|p p' _ IH Hs]; [assumption|].
  eapply step_well_formed; eassumption.
Qed.

Lemma in_flight_le_held (ts : list task) :
  Forall (fun t => guarded (script t)) ts ->
  (Z.of_nat (List.length (filter outstanding ts)) <= total_held ts)%Z.
Proof.
  induction 1 as [|t ts Hg _ IH]; [cbn; lia|].
  destruct t as [sc ps]. cbn [script] in Hg.
  destruct (guarded_held ps Hg) as [H0 H1].
  cbn [filter total_held].
  destruct (outstanding {| script := sc; pos := ps |}) eqn:E.
  - specialize (H1 eq_refl). cbn [List.length]. rewrite Nat2Z.inj_succ. lia.
  - lia.
Qed.

(** Under the invariant, the requests outstanding are at most the limit. *)
Lemma well_formed_bound (limit : Z) (p : pool) :
  well_formed limit p -> (Z.of_nat (in_flight p) <= limit)%Z.
Proof.
  intros [Hsum [Hpos Hg]]. unfold in_flight.
  pose proof (in_flight_le_held Hg). lia.
Qed.

Lemma total_held_start (scripts : list (list event)) :
  total_held (map (fun sc => {| script := sc; pos := 0 |}) scripts) = 0%Z.
Proof. induction scripts as [|sc l IH]; simpl; [reflexivity|]. unfold held. simpl. lia. Qed.

Section Start.
Variable repr : value -> string.
Variable m : DirectLinkManager.

Lemma script_of_guarded (c : call) : guarded (script_of repr m c).
Proof.
  unfold script_of.
  destruct (MethodFacts.get_direct_link_disciplined repr (call_daemon c) (call_path c)
              (call_id c) (fresh m)) as [o [evs [E [_ [_ [G _]]]]]].
  rewrite E. exact G.
Qed.

Lemma start_well_formed (calls : list call) (v : Z) :
  _request_semaphore m = Some v -> (0 <= v)%Z -> well_formed v (start repr m calls).
Proof.
  intros Hv Hpos. unfold well_formed, start. simpl. rewrite Hv.
  repeat split; [|assumption|].
  - rewrite <- (map_map (script_of repr m) (fun sc => {| script := sc; pos := 0 |})).
    rewrite total_held_start. lia.
  - apply Forall_forall. intros t Ht. apply in_map_iff in Ht.
    destruct Ht as [c [<- _]]. simpl. apply script_of_guarded.
Qed.
End Start.

Lemma fire_step (i : nat) (p p' : pool) : fire i p = Some p' -> step p p'.
Proof.
  unfold fire. destruct (nth_error (tasks p) i) as [t|] eqn:Et; [|discriminate].
  destruct (nth_error (script t) (pos t)) as [ev|] eqn:Eev; [|discriminate].
  destruct (match ev with Acquire => (gate p <=? 0)%Z | _ => false end) eqn:Eg; [discriminate|].
  intros H. injection H as <-. apply (@step_task p i t ev Et Eev).
  intros ->. lia.
Qed.

Lemma schedule_reachable (order : list nat) (p0 p : pool) :
  reachable p0 p -> reachable p0 (schedule order p).
Proof.
  revert p. induction order as [|i rest IH]; intros p Hr; [exact Hr|].
  simpl. destruct (fire i p) as [p'|] eqn:E.
  - apply IH. eapply reach_step; [exact Hr|]. exact (@fire_step i p p' E).
  - now apply IH.
Qed.

(** What [__aenter__] leaves behind when it returns. *)
Lemma __aenter___returns (m0 : DirectLinkManager) (st : state) :
  __aenter__ (fresh m0) = (Return tt, st) ->
  _request_semaphore (self st) = Some (_max_workers m0) /\
  (0 <= _max_workers m0)%Z /\
  session (self st) = Some Open.
Proof.
  unfold __aenter__, bind, get_self, set_self, raise, fresh. simpl.
  destruct (_max_workers m0 <? 0)%Z eqn:E; [discriminate|].
  simpl. intros H. injection H as <-. simpl. repeat split. lia.
Qed.

End ConcurrentFacts.

(** C9: every call keeps the gate discipline (a request is issued only
    between taking a slot and giving it back, and the slot is given back
    however the call ends); so, however many calls are issued together and
    however they are interleaved, the requests outstanding at any moment
    are at most [max_workers]. *)
Theorem C9_gate_bounds_outstanding_requests (repr : value -> string) (m0 : DirectLinkManager)
    (st : state) (calls : list Concurrent.call) (p : Concurrent.pool) :
  __aenter__ (fresh m0) = (Return tt, st) ->
  (forall c, guarded (Concurrent.script_of repr (self st) c)) /\
  (Concurrent.reachable (Concurrent.start repr (self st) calls) p ->
   (Z.of_nat (Concurrent.in_flight p) <= _max_workers m0)%Z).
Proof.
  intros Hin. destruct (ConcurrentFacts.__aenter___returns _ Hin) as [Hv [Hpos _]].
  split.
  - intros c. apply ConcurrentFacts.script_of_guarded.
  - intros Hr. apply ConcurrentFacts.well_formed_bound.
    eapply ConcurrentFacts.reachable_well_formed; [|exact Hr].
    now apply ConcurrentFacts.start_well_formed.
Qed.

Lemma C9_gate_bounds_outstanding_requests_witness :
  let st := snd (__aenter__ (fresh Example.narrow)) in
  let p := Concurrent.schedule [0; 1; 0; 1]%nat
             (Concurrent.start Example.repr (self st) Example.two_calls) in
  (Z.of_nat (Concurrent.in_flight p) <= 1)%Z.
Proof.
  apply (proj2 (@C9_gate_bounds_outstanding_requests Example.repr Example.narrow
                  (snd (__aenter__ (fresh Example.narrow))) Example.two_calls
                  (Concurrent.schedule [0; 1; 0; 1]%nat
                     (Concurrent.start Example.repr
                        (self (snd (__aenter__ (fresh Example.narrow)))) Example.two_calls))
                  eq_refl)).
  apply ConcurrentFacts.schedule_reachable. apply Concurrent.reach_start.
Defined.

(* ------------------------------------------------------------------ *)
(** ** Further properties of the network paths *)
(* ------------------------------------------------------------------ *)

Module SuccessFacts.
Import MonadFacts MethodFacts RunFacts.

Section Success.
Variable repr : value -> string.
Variable d : daemon.

(** A version 2 attempt answered with an entry id, the filespace name
    being configured. *)
Lemma v2_attempt_link (url fp : string) (k : nat) (st : state)
    (status : Z) (data : value) (id filespace : string) :
  session (self st) = Some Open ->
  d k url = Response status (inr data) ->
  (status < 400)%Z ->
  Py.truthy data = true ->
  Py.contains "id" data = inr true ->
  Py.getitem data "id" = inr (VStr id) ->
  _filespace (self st) = Some filespace ->
  filespace <> "" ->
  v2_attempt repr d url fp k st
  = (Return (Some (VStr ("lucid://" ++ filespace ++ "/file/" ++ id))),
     extend st [Get url;
                Log DEBUG (Generated_v2_via_API fp ("lucid://" ++ filespace ++ "/file/" ++ id))]).
Proof.
  intros Hs Hd Hok Ht Hc Hg Hf Hne. run_attempt. rewrite Hs. simpl. rewrite Hd. simpl.
  replace (status =? 400)%Z with false by lia.
  replace (status <? 400)%Z with true by lia.
  simpl. rewrite Ht. simpl. rewrite Hc. simpl. rewrite Hg. simpl. rewrite Hf.
  destruct filespace; [contradiction|]. simpl. now rewrite <- app_assoc.
Qed.

(** A version 3 attempt answered with a result. *)
Lemma v3_attempt_result (url fp : string) (k : nat) (st : state)
    (status : Z) (data result : value) :
  session (self st) = Some Open ->
  d k url = Response status (inr data) ->
  (status < 400)%Z ->
  Py.contains "result" data = inr true ->
  Py.getitem data "result" = inr result ->
  v3_attempt d url fp k st = (Return (Some result), extend st [Get url]).
Proof.
  intros Hs Hd Hok Hc Hg. run_attempt. rewrite Hs. simpl. rewrite Hd. simpl.
  replace (status =? 400)%Z with false by lia.
  replace (status <? 400)%Z with true by lia.
  simpl. rewrite Hc. simpl. rewrite Hg. reflexivity.
Qed.

End Success.
End SuccessFacts.

(** X1: version 2 without an entry id, the filespace name configured: when
    the daemon answers the first request with a body whose [id] is a string,
    the call returns [lucid://{filespace}/file/{id}] after that one request
    to [/fsEntry?path=...]. *)
Theorem X1_v2_link_from_daemon_id (repr : value -> string) (d : daemon)
    (m : DirectLinkManager) (file_path : string) (fsentry_id : option string)
    (status : Z) (data : value) (id filespace : string) :
  opened m ->
  (1 <= _retry_attempts m)%Z ->
  version m = 2%Z ->
  Py.truthy_str fsentry_id = false ->
  _filespace m = Some filespace ->
  filespace <> "" ->
  d O (request_url m file_path) = Response status (inr data) ->
  (status < 400)%Z ->
  Py.truthy data = true ->
  Py.contains "id" data = inr true ->
  Py.getitem data "id" = inr (VStr id) ->
  get_direct_link repr d file_path fsentry_id (fresh m)
  = (Return (VStr ("lucid://" ++ filespace ++ "/file/" ++ id)),
     {| self := m;
        trace := [Acquire; Get (request_url m file_path);
                  Log DEBUG (Generated_v2_via_API (_get_relative_path m file_path)
                               ("lucid://" ++ filespace ++ "/file/" ++ id));
                  Release] |}).
Proof.
  intros [Hs [v [Hsem Hpos]]] Hn Hv Hid Hf Hne Hd Hst Ht Hc Hg.
  apply (@RunFacts.get_direct_link_network repr d m file_path fsentry_id v
           (Return (Some (VStr ("lucid://" ++ filespace ++ "/file/" ++ id))))
           [Get (request_url m file_path);
            Log DEBUG (Generated_v2_via_API (_get_relative_path m file_path)
                         ("lucid://" ++ filespace ++ "/file/" ++ id))]
           Hs Hsem Hpos); [| |discriminate].
  - unfold network_path. rewrite Hid. now rewrite andb_false_r.
  - rewrite (RetryFacts.range_pos Hn). simpl. unfold bind. rewrite Hv. simpl.
    erewrite SuccessFacts.v2_attempt_link;
      [reflexivity | exact Hs | exact Hd | exact Hst | exact Ht | exact Hc | exact Hg
       | exact Hf | exact Hne].
Qed.

Lemma X1_v2_link_from_daemon_id_witness :
  get_direct_link Example.repr (Example.always Example.found) Example.file None
    (fresh (Example.entered (Example.manager 2 (Some "myfilespace"))))
  = (Return (VStr "lucid://myfilespace/file/abc123"),
     {| self := Example.entered (Example.manager 2 (Some "myfilespace"));
        trace := [Acquire;
                  Get "http://127.0.0.1:8280/fsEntry?path=path/to/file2[v1].pdf";
                  Log DEBUG (Generated_v2_via_API "path/to/file2[v1].pdf"
                               "lucid://myfilespace/file/abc123");
                  Release] |}).
Proof.
  apply (@X1_v2_link_from_daemon_id Example.repr (Example.always Example.found)
           (Example.entered (Example.manager 2 (Some "myfilespace"))) Example.file None
           200 (VDict [("id", VStr "abc123"); ("result", VStr "lucid://x/y/z")])
           "abc123" "myfilespace").
  - split; [reflexivity | exists 10%Z; split; [reflexivity | reflexivity]].
  - vm_compute. discriminate.
  - reflexivity.
  - reflexivity.
  - reflexivity.
  - discriminate.
  - reflexivity.
  - reflexivity.
  - reflexivity.
  - reflexivity.
  - reflexivity.
Defined.

(** X2: under version 3 (any version but 2), when the daemon answers the
    first request with a body that has a [result], the call returns that
    result as it is, after that one request to [/fsEntry/direct-link?path=...]. *)
Theorem X2_v3_result_verbatim (repr : value -> string) (d : daemon)
    (m : DirectLinkManager) (file_path : string) (fsentry_id : option string)
    (status : Z) (data result : value) :
  opened m ->
  (1 <= _retry_attempts m)%Z ->
  version m <> 2%Z ->
  d O (request_url m file_path) = Response status (inr data) ->
  (status < 400)%Z ->
  Py.contains "result" data = inr true ->
  Py.getitem data "result" = inr result ->
  get_direct_link repr d file_path fsentry_id (fresh m)
  = (Return result,
     {| self := m; trace := [Acquire; Get (request_url m file_path); Release] |}).
Proof.
  intros [Hs [v [Hsem Hpos]]] Hn Hv Hd Hst Hc Hg.
  assert (E : (version m =? 2)%Z = false) by lia.
  apply (@RunFacts.get_direct_link_network repr d m file_path fsentry_id v
           (Return (Some result)) [Get (request_url m file_path)]
           Hs Hsem Hpos); [| |discriminate].
  - unfold network_path. now rewrite E.
  - rewrite (RetryFacts.range_pos Hn). simpl. unfold bind. rewrite E.
    erewrite SuccessFacts.v3_attempt_result;
      [reflexivity | exact Hs | exact Hd | exact Hst | exact Hc | exact Hg].
Qed.

Lemma X2_v3_result_verbatim_witness :
  get_direct_link Example.repr (Example.always Example.found) Example.file None
    (fresh (Example.entered (Example.manager 3 (Some "myfilespace"))))
  = (Return (VStr "lucid://x/y/z"),
     {| self := Example.entered (Example.manager 3 (Some "myfilespace"));
        trace := [Acquire;
                  Get "http://127.0.0.1:8280/fsEntry/direct-link?path=path/to/file2[v1].pdf";
                  Release] |}).
Proof.
  apply (@X2_v3_result_verbatim Example.repr (Example.always Example.found)
           (Example.entered (Example.manager 3 (Some "myfilespace"))) Example.file None
           200 (VDict [("id", VStr "abc123"); ("result", VStr "lucid://x/y/z")])
           (VStr "lucid://x/y/z")).
  - split; [reflexivity | exists 10%Z; split; [reflexivity | reflexivity]].
  - vm_compute. discriminate.
  - vm_compute. discriminate.
  - reflexivity.
  - reflexivity.
  - reflexivity.
  - reflexivity.
Defined.

(** X3: a failure of [session.get] that is no [aiohttp.ClientError] (an
    [asyncio.TimeoutError], say) is not tried again: the call gives the slot
    back, logs the error and returns no link after one request. *)
Theorem X3_other_failure_not_retried (repr : value -> string) (d : daemon)
    (m : DirectLinkManager) (file_path : string) (fsentry_id : option string) (e : exn) :
  opened m ->
  (1 <= _retry_attempts m)%Z ->
  network_path m fsentry_id = true ->
  d O (request_url m file_path) = Failure e ->
  is_ClientError e = false ->
  let r := get_direct_link repr d file_path fsentry_id (fresh m) in
  r = (Return VNone,
       {| self := m;
          trace := [Acquire; Get (request_url m file_path); Release;
                    Log ERROR (error_record m (_get_relative_path m file_path) e)] |})
  /\ requests (trace (snd r)) = 1%nat
  /\ sleeps (trace (snd r)) = 0%nat.
Proof.
  intros Ho Hn Hnet Hd He r. subst r.
  rewrite (@RetryFacts.other_failure_not_retried repr d m file_path fsentry_id Ho Hn Hnet e Hd He).
  repeat split.
Qed.

Lemma X3_other_failure_not_retried_witness :
  let m := Example.entered (Example.manager 3 None) in
  let r := get_direct_link Example.repr
             (Example.always (Failure (OtherException "TimeoutError")))
             Example.file None (fresh m) in
  r = (Return VNone,
       {| self := m;
          trace := [Acquire; Get (request_url m Example.file); Release;
                    Log ERROR (error_record m (_get_relative_path m Example.file)
                                 (OtherException "TimeoutError"))] |})
  /\ requests (trace (snd r)) = 1%nat
  /\ sleeps (trace (snd r)) = 0%nat.
Proof.
  apply (@X3_other_failure_not_retried Example.repr
           (Example.always (Failure (OtherException "TimeoutError")))
           (Example.entered (Example.manager 3 None)) Example.file None
           (OtherException "TimeoutError")).
  - split; [reflexivity | exists 10%Z; split; [reflexivity | reflexivity]].
  - vm_compute. discriminate.
  - reflexivity.
  - reflexivity.
  - reflexivity.
Defined.

(** X4: with [retry_attempts] zero or negative the loop body never runs: a
    call on a network path takes a slot, gives it back and returns no link
    without a request and without a log record. *)
Theorem X4_no_attempts_no_request (repr : value -> string) (d : daemon)
    (m : DirectLinkManager) (file_path : string) (fsentry_id : option string) :
  opened m ->
  (_retry_attempts m <= 0)%Z ->
  network_path m fsentry_id = true ->
  get_direct_link repr d file_path fsentry_id (fresh m)
  = (Return VNone, {| self := m; trace := [Acquire; Release] |}).
Proof.
  intros [Hs [v [Hsem Hpos]]] Hn Hnet.
  apply (@RunFacts.get_direct_link_network repr d m file_path fsentry_id v
           (Return None) [] Hs Hsem Hpos Hnet); [|discriminate].
  unfold range. replace (Z.to_nat (_retry_attempts m)) with O by lia. reflexivity.
Qed.

Lemma X4_no_attempts_no_request_witness :
  get_direct_link Example.repr Example.refusing Example.file None
    (fresh (Example.entered (__init__ 8280 "/Volumes/filespace" 3 10 0 (1#2) None)))
  = (Return VNone,
     {| self := Example.entered (__init__ 8280 "/Volumes/filespace" 3 10 0 (1#2) None);
        trace := [Acquire; Release] |}).
Proof.
  apply (@X4_no_attempts_no_request Example.repr Example.refusing
           (Example.entered (__init__ 8280 "/Volumes/filespace" 3 10 0 (1#2) None))
           Example.file None).
  - split; [reflexivity | exists 10%Z; split; [reflexivity | reflexivity]].
  - vm_compute. discriminate.
  - reflexivity.
Defined.
(* ------------------------------------------------------------------ *)
(** ** The shape of every network call *)
(* ------------------------------------------------------------------ *)

Ltac shape_done :=
  first
    [ left; split; [unfold extend; simpl; rewrite <- ?app_assoc; reflexivity | lia]
    | right; eexists; eexists; split;
      [unfold extend; simpl; rewrite <- ?app_assoc; simpl; reflexivity
      | split; [discriminate | split; [discriminate | repeat constructor]]] ].

Ltac handler_cases k st :=
  match goal with
  | |- context [is_ClientError ?e] => destruct (is_ClientError e)
  | _ => idtac
  end;
  try (destruct (Z.of_nat k =? _retry_attempts (self st) - 1)%Z eqn:?);
  simpl; shape_done.

Module ShapeFacts.
Import MonadFacts MethodFacts RunFacts.

Lemma requests_app (a b : list event) : requests (a ++ b) = (requests a + requests b)%nat.
Proof. unfold requests. now rewrite filter_app, length_app. Qed.

Lemma sleeps_app (a b : list event) : sleeps (a ++ b) = (sleeps a + sleeps b)%nat.
Proof. unfold sleeps. now rewrite filter_app, length_app. Qed.

Lemma logs_silent (l : list event) : Forall is_log l -> requests l = O /\ sleeps l = O.
Proof.
  induction 1 as [|ev l H _ [IH1 IH2]]; [split; reflexivity|].
  destruct ev; simpl in H; try contradiction. split; assumption.
Qed.

Section Shape.
Variable repr : value -> string.
Variable d : daemon.

(** One attempt with the session open: a request, then either the delay
    (and the loop goes on; never on the last attempt) or log records and
    the end of the loop. *)
Lemma v3_attempt_shape (url fp : string) (k : nat) (st : state) :
  session (self st) = Some Open ->
  (v3_attempt d url fp k st
   = (Return None, extend st [Get url; Sleep (_retry_delay (self st))])
   /\ Z.of_nat k <> (_retry_attempts (self st) - 1)%Z)
  \/
  (exists o logs,
      v3_attempt d url fp k st = (o, extend st (Get url :: logs))
      /\ o <> Return None /\ o <> Blocked /\ Forall is_log logs).
Proof.
  intros Hs. run_attempt. rewrite Hs. simpl.
  destruct (d k url) as [status json|e]; simpl.
  - destruct (status =? 400)%Z; simpl; [shape_done|].
    destruct (status <? 400)%Z; simpl; [|handler_cases k st].
    destruct json as [e|data]; simpl; [handler_cases k st|].
    destruct (Py.contains "result" data) as [e|[|]]; simpl; [handler_cases k st | | shape_done].
    destruct (Py.getitem data "result") as [e|result]; simpl; [handler_cases k st | shape_done].
  - handler_cases k st.
Qed.

Lemma v2_attempt_shape (url fp : string) (k : nat) (st : state) :
  session (self st) = Some Open ->
  (v2_attempt repr d url fp k st
   = (Return None, extend st [Get url; Sleep (_retry_delay (self st))])
   /\ Z.of_nat k <> (_retry_attempts (self st) - 1)%Z)
  \/
  (exists o logs,
      v2_attempt repr d url fp k st = (o, extend st (Get url :: logs))
      /\ o <> Return None /\ o <> Blocked /\ Forall is_log logs).
Proof.
  intros Hs. run_attempt. rewrite Hs. simpl.
  destruct (d k url) as [status json|e]; simpl.
  - destruct (status =? 400)%Z; simpl; [shape_done|].
    destruct (status <? 400)%Z; simpl; [|handler_cases k st].
    destruct json as [e|data]; simpl; [handler_cases k st|].
    destruct (Py.truthy data); simpl; [|shape_done].
    destruct (Py.contains "id" data) as [e|[|]]; simpl; [handler_cases k st | | shape_done].
    destruct (Py.getitem data "id") as [e|id]; simpl; [handler_cases k st |].
    destruct (Py.truthy_str (_filespace (self st))); simpl; shape_done.
  - handler_cases k st.
Qed.

(** The loop with the session open and at least one attempt: some failed
    attempts, each followed by the delay, then one request more, which
    ends the loop. *)
Lemma retry_loop_shape (attempt : nat -> M (option value)) (url : string) :
  (forall k st,
      session (self st) = Some Open ->
      (attempt k st = (Return None, extend st [Get url; Sleep (_retry_delay (self st))])
       /\ Z.of_nat k <> (_retry_attempts (self st) - 1)%Z)
      \/
      (exists o logs,
          attempt k st = (o, extend st (Get url :: logs))
          /\ o <> Return None /\ o <> Blocked /\ Forall is_log logs)) ->
  forall (l a : nat) (st : state),
    session (self st) = Some Open ->
    Z.of_nat (a + S l) = _retry_attempts (self st) ->
    exists o j logs,
      (j <= l)%nat /\
      for_each (seq a (S l)) attempt st
      = (o, extend st (retries url (_retry_delay (self st)) j ++ Get url :: logs)) /\
      o <> Return None /\ o <> Blocked /\ Forall is_log logs.
Proof.
  intros Hatt. induction l as [|l IH]; intros a st Hs Hn.
  - simpl. unfold bind.
    destruct (Hatt a st Hs) as [[E Hk] | [o [logs [E [H1 [H2 H3]]]]]]; [lia|].
    rewrite E. exists o, O, logs. split; [lia|].
    destruct o as [[x|]|e|]; try (now contradiction); repeat split; auto; discriminate.
  - change (seq a (S (S l))) with (a :: seq (S a) (S l)).
    cbn [for_each]. unfold bind at 1.
    destruct (Hatt a st Hs) as [[E Hk] | [o [logs [E [H1 [H2 H3]]]]]].
    + rewrite E.
      destruct (IH (S a) (extend st [Get url; Sleep (_retry_delay (self st))]) Hs)
        as [o [j [logs [Hj [E' [H1 [H2 H3]]]]]]].
      { simpl. rewrite <- Hn. lia. }
      exists o, (S j), logs. split; [lia|].
      rewrite E', extend_extend. repeat split; assumption.
    + rewrite E. exists o, O, logs. split; [lia|].
      destruct o as [[x|]|e|]; try (now contradiction); repeat split; auto; discriminate.
Qed.

(** [get_direct_link_network], from any state. *)
Lemma get_direct_link_network_at (file_path : string) (fsentry_id : option string)
    (st : state) (v : Z) (o : outcome (option value)) (evs : list event) :
  session (self st) = Some Open ->
  _request_semaphore (self st) = Some v ->
  (0 < v)%Z ->
  network_path (self st) fsentry_id = true ->
  for_each (range (_retry_attempts (self st)))
    (fun k => if (version (self st) =? 2)%Z
              then v2_attempt repr d (request_url (self st) file_path)
                     (_get_relative_path (self st) file_path) k
              else v3_attempt d (request_url (self st) file_path)
                     (_get_relative_path (self st) file_path) k)
    {| self := set_request_semaphore (Some (v - 1)%Z) (self st);
       trace := (trace st ++ [Acquire])%list |}
  = (o, {| self := set_request_semaphore (Some (v - 1)%Z) (self st);
           trace := ((trace st ++ [Acquire]) ++ evs)%list |}) ->
  o <> Blocked ->
  get_direct_link repr d file_path fsentry_id st
  = (Return (match o with Return (Some x) => x | _ => VNone end),
     extend st (Acquire :: evs ++ Release ::
                  match o with
                  | Raise e => [Log ERROR (error_record (self st)
                                             (_get_relative_path (self st) file_path) e)]
                  | _ => []
                  end)).
Proof.
  intros Hs Hv Hpos Hnet Hloop Hnb.
  unfold get_direct_link, bind, get_self. cbv beta iota.
  unfold network_path, request_url, endpoint, error_record in *.
  destruct (version (self st) =? 2)%Z.
  - simpl in Hnet. apply negb_true_iff in Hnet.
    rewrite (@_get_direct_link_v2_inner repr d file_path fsentry_id st Hnet). cbv zeta.
    apply (@network_call_run _ _ (Error_generating_v2 _) _ st v o evs
             (fun e => eq_refl) Hv Hpos Hloop Hnb).
  - rewrite (@_get_direct_link_v3_inner d file_path st Open Hs). cbv zeta.
    apply (@network_call_run _ _ (Error_generating _) _ st v o evs
             (fun e => eq_refl) Hv Hpos Hloop Hnb).
Qed.

(** Every call on a network path, with the session open, a slot free and
    at least one attempt configured. *)
Lemma get_direct_link_shape (file_path : string) (fsentry_id : option string) (st : state) :
  opened (self st) ->
  (1 <= _retry_attempts (self st))%Z ->
  network_path (self st) fsentry_id = true ->
  exists x j logs post,
    let evs := (Acquire ::
                retries (request_url (self st) file_path) (_retry_delay (self st)) j
                ++ Get (request_url (self st) file_path) :: logs ++ Release :: post)%list in
    get_direct_link repr d file_path fsentry_id st = (Return x, extend st evs) /\
    (j < Z.to_nat (_retry_attempts (self st)))%nat /\
    Forall is_log logs /\ Forall is_log post /\
    requests evs = S j /\ sleeps evs = j.
Proof.
  intros [Hs [v [Hv Hpos]]] Hn Hnet.
  set (st1 := {| self := set_request_semaphore (Some (v - 1)%Z) (self st);
                 trace := (trace st ++ [Acquire])%list |}).
  destruct (Z.to_nat (_retry_attempts (self st))) as [|l] eqn:En; [lia|].
  destruct (@retry_loop_shape
              (fun k => if (version (self st) =? 2)%Z
                        then v2_attempt repr d (request_url (self st) file_path)
                               (_get_relative_path (self st) file_path) k
                        else v3_attempt d (request_url (self st) file_path)
                               (_get_relative_path (self st) file_path) k)
              (request_url (self st) file_path)
              ltac:(intros k s Hk; destruct (version (self st) =? 2)%Z;
                    [now apply v2_attempt_shape
                    | now apply v3_attempt_shape])
              l O st1 Hs ltac:(simpl; lia))
    as [o [j [logs [Hj [E [H1 [H2 H3]]]]]]].
  pose proof (@get_direct_link_network_at file_path fsentry_id st v o
                (retries (request_url (self st) file_path) (_retry_delay (self st)) j
                 ++ Get (request_url (self st) file_path) :: logs)
                Hs Hv Hpos Hnet) as H.
  unfold range in H. rewrite En in H. specialize (H E H2).
  exists (match o with Return (Some x) => x | _ => VNone end), j, logs,
    (match o with
     | Raise e => [Log ERROR (error_record (self st) (_get_relative_path (self st) file_path) e)]
     | _ => []
     end).
  cbv zeta. rewrite H.
  assert (Hpost : Forall is_log
                    (match o with
                     | Raise e => [Log ERROR (error_record (self st)
                                                (_get_relative_path (self st) file_path) e)]
                     | _ => []
                     end)).
  { destruct o; repeat constructor. }
  destruct (logs_silent H3) as [Rl Sl].
  destruct (logs_silent Hpost) as [Rp Sp].
  repeat split; try assumption; try lia.
  - now rewrite <- app_assoc.
  - change (requests (Acquire :: ?l)) with (requests l).
    rewrite RetryFacts.requests_retries.
    change (requests (Get ?u :: ?l)) with (S (requests l)).
    rewrite requests_app.
    change (requests (Release :: ?l)) with (requests l). lia.
  - change (sleeps (Acquire :: ?l)) with (sleeps l).
    rewrite RetryFacts.sleeps_retries.
    change (sleeps (Get ?u :: ?l)) with (sleeps l).
    rewrite sleeps_app.
    change (sleeps (Release :: ?l)) with (sleeps l). lia.
Qed.

End Shape.
End ShapeFacts.

(** X5: on a network path, with the session open, a slot free and at least
    one attempt configured, every call returns, leaves the manager as it
    found it, and does this and nothing else, whatever the daemon answers:
    it takes a slot, makes [j] failed attempts each followed by the delay,
    makes one request more, writes log records, gives the slot back and
    writes log records; [j] is below [retry_attempts] and all requests go
    to the same URL.  So it issues at least one request and at most
    [retry_attempts], and sleeps once less than it requests. *)
Theorem X5_network_call_shape (repr : value -> string) (d : daemon) (file_path : string)
    (fsentry_id : option string) (st : state) :
  opened (self st) ->
  (1 <= _retry_attempts (self st))%Z ->
  network_path (self st) fsentry_id = true ->
  exists x j logs post,
    let evs := (Acquire ::
                retries (request_url (self st) file_path) (_retry_delay (self st)) j
                ++ Get (request_url (self st) file_path) :: logs ++ Release :: post)%list in
    get_direct_link repr d file_path fsentry_id st = (Return x, extend st evs) /\
    (j < Z.to_nat (_retry_attempts (self st)))%nat /\
    Forall is_log logs /\ Forall is_log post /\
    requests evs = S j /\ sleeps evs = j.
Proof.
  intros Ho Hn Hnet.
  destruct (@ShapeFacts.get_direct_link_shape repr d file_path fsentry_id st Ho Hn Hnet)
    as [x [j [logs [post H]]]].
  now exists x, j, logs, post.
Qed.

Lemma X5_network_call_shape_witness :
  exists x j logs post,
    let st := fresh (Example.entered (Example.manager 3 None)) in
    let evs := (Acquire ::
                retries (request_url (self st) Example.file) (_retry_delay (self st)) j
                ++ Get (request_url (self st) Example.file) :: logs ++ Release :: post)%list in
    get_direct_link Example.repr Example.refusing Example.file None st
    = (Return x, extend st evs) /\
    (j < Z.to_nat (_retry_attempts (self st)))%nat /\
    Forall is_log logs /\ Forall is_log post /\
    requests evs = S j /\ sleeps evs = j.
Proof.
  apply (@X5_network_call_shape Example.repr Example.refusing Example.file None
           (fresh (Example.entered (Example.manager 3 None)))).
  - split; [reflexivity | exists 10%Z; split; [reflexivity | reflexivity]].
  - vm_compute. discriminate.
  - reflexivity.
Defined.

(* ------------------------------------------------------------------ *)
(** ** Answers that come after failed attempts, and unusable answers *)
(* ------------------------------------------------------------------ *)

Module DecidedFacts.
Import MonadFacts MethodFacts RunFacts.

Section Decided.
Variable repr : value -> string.
Variable d : daemon.

(** The loop when [j] attempts end in client errors and the next one
    returns: the delays come first, then what that attempt does. *)
Lemma retry_loop_decided (attempt : nat -> M (option value)) (url : string)
    (err : nat -> exn) (x : value) (evs : list event) :
  (forall k st e,
      session (self st) = Some Open ->
      client_error_of (d k url) = Some e ->
      attempt k st =
        if (Z.of_nat k =? _retry_attempts (self st) - 1)%Z
        then (Raise e, extend st [Get url])
        else (Return None, extend st [Get url; Sleep (_retry_delay (self st))])) ->
  forall (j a rest : nat) (st : state),
    session (self st) = Some Open ->
    (Z.of_nat (a + j) < _retry_attempts (self st))%Z ->
    (forall i, (a <= i < a + j)%nat -> client_error_of (d i url) = Some (err i)) ->
    (forall st', self st' = self st ->
                 attempt (a + j)%nat st' = (Return (Some x), extend st' evs)) ->
    for_each (seq a (S j + rest)) attempt st
    = (Return (Some x), extend st (retries url (_retry_delay (self st)) j ++ evs)).
Proof.
  intros Hatt. induction j as [|j IH]; intros a rest st Hs Hn Herr Hlast.
  - simpl. unfold bind. rewrite Nat.add_0_r in Hlast. now rewrite (Hlast st eq_refl).
  - change (seq a (S (S j) + rest)) with (a :: seq (S a) (S j + rest)).
    cbn [for_each]. unfold bind at 1.
    rewrite (Hatt a st (err a) Hs) by (apply Herr; lia).
    replace (Z.of_nat a =? _retry_attempts (self st) - 1)%Z with false by lia.
    rewrite (IH (S a) rest (extend st [Get url; Sleep (_retry_delay (self st))])).
    + rewrite extend_extend. reflexivity.
    + exact Hs.
    + simpl. rewrite <- Nat.add_succ_comm in Hn. exact Hn.
    + intros i Hi. apply Herr. lia.
    + intros st' Hst'. replace (S a + j)%nat with (a + S j)%nat by lia.
      apply Hlast. exact Hst'.
Qed.

Variable m : DirectLinkManager.
Variable file_path : string.
Variable fsentry_id : option string.

Hypothesis session_open : opened m.
Hypothesis on_network : network_path m fsentry_id = true.

(** A call whose first [k] attempts end in client errors and whose next
    attempt returns [x] after the events [evs]. *)
Lemma decided_after_failures (k : nat) (err : nat -> exn) (x : value) (evs : list event) :
  (Z.of_nat k < _retry_attempts m)%Z ->
  (forall i, (i < k)%nat -> client_error_of (d i (request_url m file_path)) = Some (err i)) ->
  (forall st', self st' = set_request_semaphore
                            (option_map (fun v => v - 1)%Z (_request_semaphore m)) m ->
               (if (version m =? 2)%Z
                then v2_attempt repr d (request_url m file_path)
                       (_get_relative_path m file_path) k st'
                else v3_attempt d (request_url m file_path)
                       (_get_relative_path m file_path) k st')
               = (Return (Some x), extend st' evs)) ->
  get_direct_link repr d file_path fsentry_id (fresh m)
  = (Return x,
     {| self := m;
        trace := Acquire :: retries (request_url m file_path) (_retry_delay m) k
                 ++ evs ++ [Release] |}).
Proof.
  intros Hk Herr Hlast. destruct session_open as [Hs [v [Hv Hpos]]].
  rewrite Hv in Hlast. simpl in Hlast.
  pose proof (@get_direct_link_network repr d m file_path fsentry_id v (Return (Some x))
                (retries (request_url m file_path) (_retry_delay m) k ++ evs)
                Hs Hv Hpos on_network) as H.
  rewrite H; [now rewrite <- app_assoc | | discriminate].
  unfold range.
  replace (Z.to_nat (_retry_attempts m)) with (S k + (Z.to_nat (_retry_attempts m) - S k))%nat
    by lia.
  rewrite (@retry_loop_decided _ (request_url m file_path) err x evs) with (j := k) (a := O).
  - reflexivity.
  - intros i st e Hs' He. destruct (version m =? 2)%Z.
    + now apply v2_attempt_client_error.
    + now apply v3_attempt_client_error.
  - exact Hs.
  - simpl. lia.
  - intros i Hi. apply Herr. lia.
  - intros st' Hst'. simpl. specialize (Hlast st' Hst').
    destruct (version m =? 2)%Z; exact Hlast.
Qed.

End Decided.
End DecidedFacts.

Module AnswerFacts.
Import MonadFacts MethodFacts RunFacts.

Lemma contains_fault (key : string) (data : value) (e : exn) :
  Py.contains key data = inl e -> is_ClientError e = false.
Proof. destruct data; simpl; intros H; try discriminate; now injection H as <-. Qed.

Lemma getitem_fault (key : string) (data : value) (e : exn) :
  Py.getitem data key = inl e -> is_ClientError e = false.
Proof.
  destruct data; simpl; intros H; try discriminate; try (now injection H as <-).
  destruct (find (fun kv => String.eqb (fst kv) key) items); [discriminate|].
  now injection H as <-.
Qed.

Lemma lookup_fault_not_client (key : string) (data : value) (e : exn) :
  lookup_fault key data = Some e -> is_ClientError e = false.
Proof.
  unfold lookup_fault.
  destruct (Py.contains key data) as [e'|[|]] eqn:Ec.
  - intros H. injection H as <-. eapply contains_fault; eassumption.
  - destruct (Py.getitem data key) as [e'|v] eqn:Eg; [|discriminate].
    intros H. injection H as <-. eapply getitem_fault; eassumption.
  - discriminate.
Qed.

Lemma find_existsb (A : Type) (f : A -> bool) (l : list A) :
  existsb f l = true -> find f l <> None.
Proof.
  induction l as [|x l IH]; simpl; [discriminate|].
  destruct (f x); [discriminate | exact IH].
Qed.

(** A lookup that raises raises a [TypeError]: a dict that holds the key
    gives its value. *)
Lemma lookup_fault_TypeError (key : string) (data : value) (e : exn) :
  lookup_fault key data = Some e -> exists detail, e = TypeError detail.
Proof.
  unfold lookup_fault. destruct data; simpl;
    try (intros H; injection H as <-; eexists; reflexivity).
  - destruct (PyStr.contains s key); [|discriminate].
    intros H; injection H as <-; eexists; reflexivity.
  - destruct (existsb _ xs); [|discriminate].
    intros H; injection H as <-; eexists; reflexivity.
  - destruct (existsb _ items) eqn:E; [|discriminate].
    apply find_existsb in E. destruct (find _ items); [discriminate | now contradiction E].
Qed.

Section Answers.
Variable repr : value -> string.
Variable d : daemon.

(** A version 2 attempt answered with a body that is empty or has no [id]. *)
Lemma v2_attempt_missing_id (url fp : string) (k : nat) (st : state)
    (status : Z) (data : value) :
  session (self st) = Some Open ->
  d k url = Response status (inr data) ->
  (status < 400)%Z ->
  Py.truthy data = false \/ Py.contains "id" data = inr false ->
  v2_attempt repr d url fp k st
  = (Return (Some VNone), extend st [Get url; Log ERROR (Failed_to_get_fsEntry_ID fp)]).
Proof.
  intros Hs Hd Hok Hmiss. run_attempt. rewrite Hs. simpl. rewrite Hd. simpl.
  replace (status =? 400)%Z with false by lia.
  replace (status <? 400)%Z with true by lia. simpl.
  destruct (Py.truthy data) eqn:Et; simpl.
  - destruct Hmiss as [H|H]; [discriminate|]. rewrite H. simpl. now rewrite <- app_assoc.
  - now rewrite <- app_assoc.
Qed.

(** A version 3 attempt answered with a body that has no [result]. *)
Lemma v3_attempt_missing_result (url fp : string) (k : nat) (st : state)
    (status : Z) (data : value) :
  session (self st) = Some Open ->
  d k url = Response status (inr data) ->
  (status < 400)%Z ->
  Py.contains "result" data = inr false ->
  v3_attempt d url fp k st
  = (Return (Some VNone), extend st [Get url; Log WARNING (No_result_field fp)]).
Proof.
  intros Hs Hd Hok Hmiss. run_attempt. rewrite Hs. simpl. rewrite Hd. simpl.
  replace (status =? 400)%Z with false by lia.
  replace (status <? 400)%Z with true by lia. simpl.
  rewrite Hmiss. simpl. now rewrite <- app_assoc.
Qed.

(** An attempt whose accepted answer has a body that cannot be read. *)
Lemma attempt_body_fault (url fp : string) (k : nat) (st : state)
    (status : Z) (json : exn + value) (e : exn) :
  session (self st) = Some Open ->
  d k url = Response status json ->
  (status < 400)%Z ->
  body_fault (self st) json = Some e ->
  (if (version (self st) =? 2)%Z
   then v2_attempt repr d url fp k st
   else v3_attempt d url fp k st)
  = (Raise e, extend st [Get url]).
Proof.
  intros Hs Hd Hok Hf. unfold body_fault in Hf.
  destruct json as [e'|data].
  - destruct (is_ClientError e') eqn:Ec; [discriminate|]. injection Hf as ->.
    destruct (version (self st) =? 2)%Z; run_attempt; rewrite Hs; simpl; rewrite Hd; simpl;
      replace (status =? 400)%Z with false by lia;
      replace (status <? 400)%Z with true by lia; simpl; now rewrite Ec.
  - destruct (version (self st) =? 2)%Z.
    + destruct (Py.truthy data) eqn:Et; [|discriminate].
      pose proof (lookup_fault_not_client _ _ Hf) as Hc. unfold lookup_fault in Hf.
      run_attempt. rewrite Hs. simpl. rewrite Hd. simpl.
      replace (status =? 400)%Z with false by lia.
      replace (status <? 400)%Z with true by lia. simpl. rewrite Et. simpl.
      destruct (Py.contains "id" data) as [e'|[|]]; simpl.
      * injection Hf as ->. now rewrite Hc.
      * destruct (Py.getitem data "id") as [e'|v]; [|discriminate].
        injection Hf as ->. simpl. now rewrite Hc.
      * discriminate.
    + pose proof (lookup_fault_not_client _ _ Hf) as Hc. unfold lookup_fault in Hf.
      run_attempt. rewrite Hs. simpl. rewrite Hd. simpl.
      replace (status =? 400)%Z with false by lia.
      replace (status <? 400)%Z with true by lia. simpl.
      destruct (Py.contains "result" data) as [e'|[|]]; simpl.
      * injection Hf as ->. now rewrite Hc.
      * destruct (Py.getitem data "result") as [e'|v]; [|discriminate].
        injection Hf as ->. simpl. now rewrite Hc.
      * discriminate.
Qed.

End Answers.
End AnswerFacts.

(** X6: under version 3, when the first [k] attempts end in client errors
    and the next one, still within [retry_attempts], is answered with a
    body that has a [result], the call returns that result: [k] requests
    each followed by the delay, then the request that is answered. *)
Theorem X6_v3_recovers_after_failures (repr : value -> string) (d : daemon)
    (m : DirectLinkManager) (file_path : string) (fsentry_id : option string)
    (k : nat) (err : nat -> exn) (status : Z) (data result : value) :
  opened m ->
  version m <> 2%Z ->
  (Z.of_nat k < _retry_attempts m)%Z ->
  (forall i, (i < k)%nat -> client_error_of (d i (request_url m file_path)) = Some (err i)) ->
  d k (request_url m file_path) = Response status (inr data) ->
  (status < 400)%Z ->
  Py.contains "result" data = inr true ->
  Py.getitem data "result" = inr result ->
  get_direct_link repr d file_path fsentry_id (fresh m)
  = (Return result,
     {| self := m;
        trace := Acquire :: retries (request_url m file_path) (_retry_delay m) k
                 ++ [Get (request_url m file_path); Release] |}).
Proof.
  intros Ho Hv Hk Herr Hd Hst Hc Hg.
  assert (E : (version m =? 2)%Z = false) by lia.
  assert (Hnet : network_path m fsentry_id = true) by (unfold network_path; now rewrite E).
  rewrite (@DecidedFacts.decided_after_failures repr d m file_path fsentry_id Ho Hnet k err
             result [Get (request_url m file_path)] Hk Herr); [reflexivity|].
  intros st' Hst'. rewrite E.
  destruct Ho as [Hs _].
  eapply SuccessFacts.v3_attempt_result; try eassumption.
  rewrite Hst'. exact Hs.
Qed.

Lemma X6_v3_recovers_after_failures_witness :
  let m := Example.entered (Example.manager 3 None) in
  get_direct_link Example.repr
    (fun k url => if (k <? 2)%nat then Example.refusing k url else Example.found)
    Example.file None (fresh m)
  = (Return (VStr "lucid://x/y/z"),
     {| self := m;
        trace := Acquire :: retries (request_url m Example.file) (_retry_delay m) 2
                 ++ [Get (request_url m Example.file); Release] |}).
Proof.
  apply (@X6_v3_recovers_after_failures Example.repr
           (fun k url => if (k <? 2)%nat then Example.refusing k url else Example.found)
           (Example.entered (Example.manager 3 None)) Example.file None 2
           (fun k => ClientError ("Cannot connect, attempt " ++ PyStr.of_int (Z.of_nat k)))
           200 (VDict [("id", VStr "abc123"); ("result", VStr "lucid://x/y/z")])
           (VStr "lucid://x/y/z")).
  - split; [reflexivity | exists 10%Z; split; [reflexivity | reflexivity]].
  - vm_compute. discriminate.
  - reflexivity.
  - intros i Hi. destruct i as [|[|i]]; [reflexivity | reflexivity | lia].
  - reflexivity.
  - reflexivity.
  - reflexivity.
  - reflexivity.
Defined.

(** X7: under version 2 without an entry id and with a filespace name, when
    the first [k] attempts end in client errors and the next one, still
    within [retry_attempts], is answered with a body whose [id] is a string,
    the call returns [lucid://{filespace}/file/{id}]: [k] requests each
    followed by the delay, then the request that is answered. *)
Theorem X7_v2_recovers_after_failures (repr : value -> string) (d : daemon)
    (m : DirectLinkManager) (file_path : string) (fsentry_id : option string)
    (k : nat) (err : nat -> exn) (status : Z) (data : value) (id filespace : string) :
  opened m ->
  version m = 2%Z ->
  Py.truthy_str fsentry_id = false ->
  _filespace m = Some filespace ->
  filespace <> "" ->
  (Z.of_nat k < _retry_attempts m)%Z ->
  (forall i, (i < k)%nat -> client_error_of (d i (request_url m file_path)) = Some (err i)) ->
  d k (request_url m file_path) = Response status (inr data) ->
  (status < 400)%Z ->
  Py.truthy data = true ->
  Py.contains "id" data = inr true ->
  Py.getitem data "id" = inr (VStr id) ->
  get_direct_link repr d file_path fsentry_id (fresh m)
  = (Return (VStr ("lucid://" ++ filespace ++ "/file/" ++ id)),
     {| self := m;
        trace := Acquire :: retries (request_url m file_path) (_retry_delay m) k
                 ++ [Get (request_url m file_path);
                     Log DEBUG (Generated_v2_via_API (_get_relative_path m file_path)
                                  ("lucid://" ++ filespace ++ "/file/" ++ id));
                     Release] |}).
Proof.
  intros Ho Hv Hid Hf Hne Hk Herr Hd Hst Ht Hc Hg.
  assert (E : (version m =? 2)%Z = true) by lia.
  assert (Hnet : network_path m fsentry_id = true).
  { unfold network_path. rewrite Hid. now rewrite andb_false_r. }
  rewrite (@DecidedFacts.decided_after_failures repr d m file_path fsentry_id Ho Hnet k err
             (VStr ("lucid://" ++ filespace ++ "/file/" ++ id))
             [Get (request_url m file_path);
              Log DEBUG (Generated_v2_via_API (_get_relative_path m file_path)
                           ("lucid://" ++ filespace ++ "/file/" ++ id))] Hk Herr);
    [reflexivity|].
  intros st' Hst'. rewrite E.
  destruct Ho as [Hs _].
  eapply SuccessFacts.v2_attempt_link; try eassumption.
  - rewrite Hst'. exact Hs.
  - rewrite Hst'. exact Hf.
Qed.

Lemma X7_v2_recovers_after_failures_witness :
  let m := Example.entered (Example.manager 2 (Some "myfilespace")) in
  get_direct_link Example.repr
    (fun k url => if (k <? 1)%nat then Example.refusing k url else Example.found)
    Example.file None (fresh m)
  = (Return (VStr "lucid://myfilespace/file/abc123"),
     {| self := m;
        trace := Acquire :: retries (request_url m Example.file) (_retry_delay m) 1
                 ++ [Get (request_url m Example.file);
                     Log DEBUG (Generated_v2_via_API (_get_relative_path m Example.file)
                                  "lucid://myfilespace/file/abc123");
                     Release] |}).
Proof.
  apply (@X7_v2_recovers_after_failures Example.repr
           (fun k url => if (k <? 1)%nat then Example.refusing k url else Example.found)
           (Example.entered (Example.manager 2 (Some "myfilespace"))) Example.file None 1
           (fun k => ClientError ("Cannot connect, attempt " ++ PyStr.of_int (Z.of_nat k)))
           200 (VDict [("id", VStr "abc123"); ("result", VStr "lucid://x/y/z")])
           "abc123" "myfilespace").
  - split; [reflexivity | exists 10%Z; split; [reflexivity | reflexivity]].
  - reflexivity.
  - reflexivity.
  - reflexivity.
  - discriminate.
  - reflexivity.
  - intros i Hi. destruct i as [|i]; [reflexivity | lia].
  - reflexivity.
  - reflexivity.
  - reflexivity.
  - reflexivity.
  - reflexivity.
Defined.

(** X8: on a network path, status 400 ends the retries whenever it comes:
    when the first [k] attempts end in client errors and the next one,
    still within [retry_attempts], is answered with status 400, the call
    logs the warning and returns no link after [k + 1] requests, leaving
    the remaining attempts unused. *)
Theorem X8_status_400_ends_retries (repr : value -> string) (d : daemon)
    (m : DirectLinkManager) (file_path : string) (fsentry_id : option string)
    (k : nat) (err : nat -> exn) (json : exn + value) :
  opened m ->
  network_path m fsentry_id = true ->
  (Z.of_nat k < _retry_attempts m)%Z ->
  (forall i, (i < k)%nat -> client_error_of (d i (request_url m file_path)) = Some (err i)) ->
  d k (request_url m file_path) = Response 400 json ->
  let r := get_direct_link repr d file_path fsentry_id (fresh m) in
  r = (Return VNone,
       {| self := m;
          trace := Acquire :: retries (request_url m file_path) (_retry_delay m) k
                   ++ [Get (request_url m file_path);
                       Log WARNING (Bad_Request (_get_relative_path m file_path));
                       Release] |})
  /\ requests (trace (snd r)) = S k
  /\ sleeps (trace (snd r)) = k.
Proof.
  intros Ho Hnet Hk Herr Hd r. subst r.
  rewrite (@DecidedFacts.decided_after_failures repr d m file_path fsentry_id Ho Hnet k err
             VNone [Get (request_url m file_path);
                    Log WARNING (Bad_Request (_get_relative_path m file_path))] Hk Herr).
  - cbn [snd trace]. split; [reflexivity|]. split.
    + change (requests (Acquire :: ?l)) with (requests l).
      rewrite RetryFacts.requests_retries. cbn. lia.
    + change (sleeps (Acquire :: ?l)) with (sleeps l).
      rewrite RetryFacts.sleeps_retries. cbn. lia.
  - intros st' Hst'. destruct Ho as [Hs _].
    assert (Hs' : session (self st') = Some Open) by (rewrite Hst'; exact Hs).
    destruct (version m =? 2)%Z.
    + now apply RunFacts.v2_attempt_400 with (json := json).
    + now apply RunFacts.v3_attempt_400 with (json := json).
Qed.

Lemma X8_status_400_ends_retries_witness :
  let m := Example.entered (Example.manager 3 None) in
  let r := get_direct_link Example.repr
             (fun k url => if (k <? 1)%nat then Example.refusing k url
                           else Response 400 (inr VNone))
             Example.file None (fresh m) in
  r = (Return VNone,
       {| self := m;
          trace := Acquire :: retries (request_url m Example.file) (_retry_delay m) 1
                   ++ [Get (request_url m Example.file);
                       Log WARNING (Bad_Request (_get_relative_path m Example.file));
                       Release] |})
  /\ requests (trace (snd r)) = 2%nat
  /\ sleeps (trace (snd r)) = 1%nat.
Proof.
  apply (@X8_status_400_ends_retries Example.repr
           (fun k url => if (k <? 1)%nat then Example.refusing k url
                         else Response 400 (inr VNone))
           (Example.entered (Example.manager 3 None)) Example.file None 1
           (fun k => ClientError ("Cannot connect, attempt " ++ PyStr.of_int (Z.of_nat k)))
           (inr VNone)).
  - split; [reflexivity | exists 10%Z; split; [reflexivity | reflexivity]].
  - reflexivity.
  - reflexivity.
  - intros i Hi. destruct i as [|i]; [reflexivity | lia].
  - reflexivity.
Defined.

(** X9: under version 2 without an entry id, an accepted answer whose body
    is empty (null, false, zero, an empty string, list or object) or has no
    [id] is not tried again: the call logs that it got no entry id and
    returns no link after that one request, whether or not a filespace
    name is configured. *)
Theorem X9_v2_body_without_id (repr : value -> string) (d : daemon)
    (m : DirectLinkManager) (file_path : string) (fsentry_id : option string)
    (status : Z) (data : value) :
  opened m ->
  (1 <= _retry_attempts m)%Z ->
  version m = 2%Z ->
  Py.truthy_str fsentry_id = false ->
  d O (request_url m file_path) = Response status (inr data) ->
  (status < 400)%Z ->
  Py.truthy data = false \/ Py.contains "id" data = inr false ->
  get_direct_link repr d file_path fsentry_id (fresh m)
  = (Return VNone,
     {| self := m;
        trace := [Acquire; Get (request_url m file_path);
                  Log ERROR (Failed_to_get_fsEntry_ID (_get_relative_path m file_path));
                  Release] |}).
Proof.
  intros Ho Hn Hv Hid Hd Hst Hmiss.
  assert (E : (version m =? 2)%Z = true) by lia.
  assert (Hnet : network_path m fsentry_id = true).
  { unfold network_path. rewrite Hid. now rewrite andb_false_r. }
  rewrite (@DecidedFacts.decided_after_failures repr d m file_path fsentry_id Ho Hnet O
             (fun _ => ClientError "") VNone
             [Get (request_url m file_path);
              Log ERROR (Failed_to_get_fsEntry_ID (_get_relative_path m file_path))]);
    [reflexivity | lia | intros i Hi; lia |].
  intros st' Hst'. rewrite E. destruct Ho as [Hs _].
  eapply AnswerFacts.v2_attempt_missing_id; try eassumption.
  rewrite Hst'. exact Hs.
Qed.

Lemma X9_v2_body_without_id_witness :
  let m := Example.entered (Example.manager 2 (Some "myfilespace")) in
  get_direct_link Example.repr
    (Example.always (Response 200 (inr (VDict [("name", VStr "file2[v1].pdf")]))))
    Example.file None (fresh m)
  = (Return VNone,
     {| self := m;
        trace := [Acquire; Get (request_url m Example.file);
                  Log ERROR (Failed_to_get_fsEntry_ID (_get_relative_path m Example.file));
                  Release] |}).
Proof.
  apply (@X9_v2_body_without_id Example.repr
           (Example.always (Response 200 (inr (VDict [("name", VStr "file2[v1].pdf")]))))
           (Example.entered (Example.manager 2 (Some "myfilespace"))) Example.file None
           200 (VDict [("name", VStr "file2[v1].pdf")])).
  - split; [reflexivity | exists 10%Z; split; [reflexivity | reflexivity]].
  - vm_compute. discriminate.
  - reflexivity.
  - reflexivity.
  - reflexivity.
  - reflexivity.
  - right. reflexivity.
Defined.

(** X10: under version 3, an accepted answer whose body is an object, a
    list or a string without [result] is not tried again: the call logs a
    warning and returns no link after that one request. *)
Theorem X10_v3_body_without_result (repr : value -> string) (d : daemon)
    (m : DirectLinkManager) (file_path : string) (fsentry_id : option string)
    (status : Z) (data : value) :
  opened m ->
  (1 <= _retry_attempts m)%Z ->
  version m <> 2%Z ->
  d O (request_url m file_path) = Response status (inr data) ->
  (status < 400)%Z ->
  Py.contains "result" data = inr false ->
  get_direct_link repr d file_path fsentry_id (fresh m)
  = (Return VNone,
     {| self := m;
        trace := [Acquire; Get (request_url m file_path);
                  Log WARNING (No_result_field (_get_relative_path m file_path));
                  Release] |}).
Proof.
  intros Ho Hn Hv Hd Hst Hmiss.
  assert (E : (version m =? 2)%Z = false) by lia.
  assert (Hnet : network_path m fsentry_id = true) by (unfold network_path; now rewrite E).
  rewrite (@DecidedFacts.decided_after_failures repr d m file_path fsentry_id Ho Hnet O
             (fun _ => ClientError "") VNone
             [Get (request_url m file_path);
              Log WARNING (No_result_field (_get_relative_path m file_path))]);
    [reflexivity | lia | intros i Hi; lia |].
  intros st' Hst'. rewrite E. destruct Ho as [Hs _].
  eapply AnswerFacts.v3_attempt_missing_result; try eassumption.
  rewrite Hst'. exact Hs.
Qed.

Lemma X10_v3_body_without_result_witness :
  let m := Example.entered (Example.manager 3 None) in
  get_direct_link Example.repr
    (Example.always (Response 200 (inr (VDict [("id", VStr "abc123")]))))
    Example.file None (fresh m)
  = (Return VNone,
     {| self := m;
        trace := [Acquire; Get (request_url m Example.file);
                  Log WARNING (No_result_field (_get_relative_path m Example.file));
                  Release] |}).
Proof.
  apply (@X10_v3_body_without_result Example.repr
           (Example.always (Response 200 (inr (VDict [("id", VStr "abc123")]))))
           (Example.entered (Example.manager 3 None)) Example.file None
           200 (VDict [("id", VStr "abc123")])).
  - split; [reflexivity | exists 10%Z; split; [reflexivity | reflexivity]].
  - vm_compute. discriminate.
  - vm_compute. discriminate.
  - reflexivity.
  - reflexivity.
  - reflexivity.
Defined.

(** X11: an accepted answer whose body cannot be read is not tried again:
    the exception leaves the loop, is logged by the top-level handler, and
    the call returns no link after that one request.  The exception logged
    is the one [response.json()] raised, when it is no client error; when
    the body was parsed, it is the [TypeError] of the lookup of the field
    (a null, boolean or number body under version 3, a list or string that
    holds the key, ...). *)
Theorem X11_unreadable_body_not_retried (repr : value -> string) (d : daemon)
    (m : DirectLinkManager) (file_path : string) (fsentry_id : option string)
    (status : Z) (json : exn + value) :
  opened m ->
  (1 <= _retry_attempts m)%Z ->
  network_path m fsentry_id = true ->
  d O (request_url m file_path) = Response status json ->
  (status < 400)%Z ->
  body_fault m json <> None ->
  exists e,
    (forall raised, json = inl raised -> e = raised) /\
    (forall data, json = inr data -> exists detail, e = TypeError detail) /\
    get_direct_link repr d file_path fsentry_id (fresh m)
    = (Return VNone,
       {| self := m;
          trace := [Acquire; Get (request_url m file_path); Release;
                    Log ERROR (error_record m (_get_relative_path m file_path) e)] |}).
Proof.
  intros [Hs [v [Hv Hpos]]] Hn Hnet Hd Hst Hf.
  destruct (body_fault m json) as [e|] eqn:Ef; [clear Hf | now contradiction Hf].
  exists e. split; [|split].
  - intros raised ->. simpl in Ef. destruct (is_ClientError raised); congruence.
  - intros data ->. simpl in Ef.
    destruct (version m =? 2)%Z;
      [destruct (Py.truthy data); [|discriminate]|];
      eapply AnswerFacts.lookup_fault_TypeError; exact Ef.
  - apply (@RunFacts.get_direct_link_network repr d m file_path fsentry_id v (Raise e)
             [Get (request_url m file_path)] Hs Hv Hpos Hnet); [|discriminate].
    rewrite (RetryFacts.range_pos Hn). simpl. unfold bind.
    pose proof (@AnswerFacts.attempt_body_fault repr d (request_url m file_path)
                  (_get_relative_path m file_path) O
                  {| self := set_request_semaphore (Some (v - 1)%Z) m; trace := [Acquire] |}
                  status json e Hs Hd Hst Ef) as H.
    cbn [self version set_request_semaphore] in H.
    destruct (version m =? 2)%Z; now rewrite H.
Qed.

Lemma X11_unreadable_body_not_retried_witness :
  let m := Example.entered (Example.manager 3 None) in
  exists e,
    (forall raised, inr VNone = inl raised -> e = raised) /\
    (forall data, @inr exn value VNone = inr data -> exists detail, e = TypeError detail) /\
    get_direct_link Example.repr (Example.always (Response 200 (inr VNone)))
      Example.file None (fresh m)
    = (Return VNone,
       {| self := m;
          trace := [Acquire; Get (request_url m Example.file); Release;
                    Log ERROR (error_record m (_get_relative_path m Example.file) e)] |}).
Proof.
  apply (@X11_unreadable_body_not_retried Example.repr
           (Example.always (Response 200 (inr VNone)))
           (Example.entered (Example.manager 3 None)) Example.file None
           200 (inr VNone)).
  - split; [reflexivity | exists 10%Z; split; [reflexivity | reflexivity]].
  - vm_compute. discriminate.
  - reflexivity.
  - reflexivity.
  - reflexivity.
  - vm_compute. discriminate.
Defined.

(* ------------------------------------------------------------------ *)
(** ** The life of the session *)
(* ------------------------------------------------------------------ *)

Module LifecycleFacts.
Import MonadFacts MethodFacts RunFacts.

(** Entering and leaving the scope, for a gate of at least no slots. *)
Lemma enter_exit (m0 : DirectLinkManager) :
  (0 <= _max_workers m0)%Z ->
  (__aenter__ ;; __aexit__) (fresh m0)
  = (Return tt,
     fresh (set_session (Some Closed) (set_request_semaphore (Some (_max_workers m0)) m0))).
Proof.
  intros H. unfold __aenter__, __aexit__, bind, get_self, set_self, raise, ret, fresh. simpl.
  replace (_max_workers m0 <? 0)%Z with false by lia. reflexivity.
Qed.

Section Closed.
Variable repr : value -> string.
Variable d : daemon.

(** An attempt on a closed session: refused before anything is sent. *)
Lemma attempt_closed (url fp : string) (k : nat) (st : state) :
  session (self st) = Some Closed ->
  (if (version (self st) =? 2)%Z
   then v2_attempt repr d url fp k st
   else v3_attempt d url fp k st)
  = (Raise (RuntimeError "Session is closed"), st).
Proof.
  intros Hs. destruct (version (self st) =? 2)%Z; run_attempt; rewrite Hs; reflexivity.
Qed.

Lemma get_direct_link_closed (m : DirectLinkManager) (file_path : string)
    (fsentry_id : option string) (v : Z) :
  session m = Some Closed ->
  _request_semaphore m = Some v ->
  (0 < v)%Z ->
  (1 <= _retry_attempts m)%Z ->
  network_path m fsentry_id = true ->
  get_direct_link repr d file_path fsentry_id (fresh m)
  = (Return VNone,
     {| self := m;
        trace := [Acquire; Release;
                  Log ERROR (error_record m (_get_relative_path m file_path)
                               (RuntimeError "Session is closed"))] |}).
Proof.
  intros Hs Hv Hpos Hn Hnet.
  assert (Hloop : for_each (range (_retry_attempts m))
                    (fun k => if (version m =? 2)%Z
                              then v2_attempt repr d (request_url m file_path)
                                     (_get_relative_path m file_path) k
                              else v3_attempt d (request_url m file_path)
                                     (_get_relative_path m file_path) k)
                    {| self := set_request_semaphore (Some (v - 1)%Z) m; trace := [Acquire] |}
                  = (Raise (RuntimeError "Session is closed"),
                     {| self := set_request_semaphore (Some (v - 1)%Z) m;
                        trace := Acquire :: [] |})).
  { rewrite (RetryFacts.range_pos Hn). simpl. unfold bind.
    pose proof (@attempt_closed (request_url m file_path) (_get_relative_path m file_path) O
                  {| self := set_request_semaphore (Some (v - 1)%Z) m; trace := [Acquire] |}
                  Hs) as H.
    cbn [self version set_request_semaphore] in H.
    destruct (version m =? 2)%Z; now rewrite H. }
  unfold get_direct_link, bind, get_self, fresh. cbv beta iota.
  unfold network_path, request_url, endpoint, error_record in *. cbn [self] in *.
  destruct (version m =? 2)%Z.
  - simpl in Hnet. apply negb_true_iff in Hnet.
    rewrite (@_get_direct_link_v2_inner repr d file_path fsentry_id
               {| self := m; trace := [] |} Hnet). cbv zeta. cbn [self].
    apply (@network_call_run _ _ (Error_generating_v2 _) _ {| self := m; trace := [] |} v
             (Raise (RuntimeError "Session is closed")) []
             (fun e => eq_refl) Hv Hpos Hloop). discriminate.
  - rewrite (@_get_direct_link_v3_inner d file_path {| self := m; trace := [] |} Closed Hs).
    cbv zeta. cbn [self].
    apply (@network_call_run _ _ (Error_generating _) _ {| self := m; trace := [] |} v
             (Raise (RuntimeError "Session is closed")) []
             (fun e => eq_refl) Hv Hpos Hloop). discriminate.
Qed.

End Closed.
End LifecycleFacts.

(** X12: once the scope has been entered and left, the session is closed
    and stays so: a call on a network path then takes a slot, is refused by
    the closed session before anything is sent, gives the slot back, logs
    the error and returns no link; no request is issued, whatever
    [retry_attempts]. *)
Theorem X12_calls_after_exit_issue_no_request (repr : value -> string) (d : daemon)
    (m0 : DirectLinkManager) (file_path : string) (fsentry_id : option string) :
  (0 < _max_workers m0)%Z ->
  (1 <= _retry_attempts m0)%Z ->
  network_path m0 fsentry_id = true ->
  let left := (__aenter__ ;; __aexit__) (fresh m0) in
  let m := self (snd left) in
  fst left = Return tt /\
  session m = Some Closed /\
  get_direct_link repr d file_path fsentry_id (fresh m)
  = (Return VNone,
     {| self := m;
        trace := [Acquire; Release;
                  Log ERROR (error_record m (_get_relative_path m file_path)
                               (RuntimeError "Session is closed"))] |}).
Proof.
  intros Hw Hn Hnet left m. subst m left.
  rewrite LifecycleFacts.enter_exit by lia. cbn [fst snd self fresh].
  split; [reflexivity|]. split; [reflexivity|].
  apply LifecycleFacts.get_direct_link_closed with (v := _max_workers m0);
    try reflexivity; assumption.
Qed.

Lemma X12_calls_after_exit_issue_no_request_witness :
  let left := (__aenter__ ;; __aexit__) (fresh (Example.manager 3 None)) in
  let m := self (snd left) in
  fst left = Return tt /\
  session m = Some Closed /\
  get_direct_link Example.repr (Example.always Example.found) Example.file None (fresh m)
  = (Return VNone,
     {| self := m;
        trace := [Acquire; Release;
                  Log ERROR (error_record m (_get_relative_path m Example.file)
                               (RuntimeError "Session is closed"))] |}).
Proof.
  apply (@X12_calls_after_exit_issue_no_request Example.repr (Example.always Example.found)
           (Example.manager 3 None) Example.file None).
  - reflexivity.
  - vm_compute. discriminate.
  - reflexivity.
Defined.

(** X13: the capacity of the gate at its edges.  With [max_workers]
    negative, [__aenter__] raises [ValueError] and leaves the manager
    unopened.  With [max_workers] zero it succeeds, and every call on a
    network path then waits at the gate for good: it issues no request,
    writes no log record and does not return. *)
Theorem X13_gate_without_slots (repr : value -> string) (d : daemon)
    (m0 : DirectLinkManager) (file_path : string) (fsentry_id : option string) :
  ((_max_workers m0 < 0)%Z ->
   exists msg, __aenter__ (fresh m0) = (Raise (ValueError msg), fresh m0)) /\
  (_max_workers m0 = 0%Z ->
   network_path m0 fsentry_id = true ->
   let entered := __aenter__ (fresh m0) in
   fst entered = Return tt /\
   get_direct_link repr d file_path fsentry_id (fresh (self (snd entered)))
   = (Blocked, fresh (self (snd entered)))).
Proof.
  split.
  - intros H. eexists.
    unfold __aenter__, bind, get_self, set_self, raise, fresh. simpl.
    replace (_max_workers m0 <? 0)%Z with true by lia. reflexivity.
  - intros H Hnet entered. subst entered.
    unfold __aenter__ at 1 2 3, bind, get_self, set_self, raise, fresh. simpl.
    rewrite H. simpl. split; [reflexivity|].
    unfold get_direct_link, bind, get_self, network_path in *. cbn [self version set_session
      set_request_semaphore].
    destruct (version m0 =? 2)%Z.
    + simpl in Hnet. apply negb_true_iff in Hnet.
      rewrite (@RunFacts._get_direct_link_v2_inner repr d file_path fsentry_id _ Hnet).
      reflexivity.
    + erewrite RunFacts._get_direct_link_v3_inner by reflexivity. reflexivity.
Qed.

Lemma X13_gate_without_slots_witness :
  let entered := __aenter__ (fresh (__init__ 8280 "/Volumes/filespace" 3 0 5 (1#2) None)) in
  fst entered = Return tt /\
  get_direct_link Example.repr (Example.always Example.found) Example.file None
    (fresh (self (snd entered)))
  = (Blocked, fresh (self (snd entered))).
Proof.
  apply (proj2 (@X13_gate_without_slots Example.repr (Example.always Example.found)
                  (__init__ 8280 "/Volumes/filespace" 3 0 5 (1#2) None) Example.file None));
    reflexivity.
Defined.

(** X14: whatever the manager, the arguments and the daemon, a call leaves
    the manager as it found it (configuration, session and the counter of
    the gate: a slot taken is given back on every way out) and only adds to
    the trace. *)
Theorem X14_call_leaves_manager_unchanged (repr : value -> string) (d : daemon)
    (file_path : string) (fsentry_id : option string) (st : state) :
  let r := get_direct_link repr d file_path fsentry_id st in
  self (snd r) = self st /\
  exists evs, trace (snd r) = (trace st ++ evs)%list /\
              requests_to (request_url (self st) file_path) evs.
Proof.
  intros r. subst r.
  destruct (MethodFacts.get_direct_link_disciplined repr d file_path fsentry_id st)
    as [o [evs [E [_ [_ [_ R]]]]]].
  rewrite E. simpl. split; [reflexivity|]. now exists evs.
Qed.

(* ------------------------------------------------------------------ *)
(** ** More on paths and their encoding *)
(* ------------------------------------------------------------------ *)

Module EncodeFacts.
Import PyStr PyStrFacts Urllib UrllibFacts.

Lemma mem_app (c : ascii) (a b : string) : mem c (a ++ b) = mem c a || mem c b.
Proof. induction a as [|x a IH]; simpl; [reflexivity|]. now rewrite IH, orb_assoc. Qed.

Lemma hex_digit_always_safe (n : N) : mem (hex_digit n) _ALWAYS_SAFE = true.
Proof.
  unfold hex_digit.
  destruct (N.to_nat n) as [|k]; [reflexivity|].
  do 15 (destruct k as [|k]; [reflexivity|]).
  reflexivity.
Qed.

Lemma always_safe_is_safe (safe : string) (c : ascii) :
  mem c _ALWAYS_SAFE = true -> is_safe safe c = true.
Proof. intros H. unfold is_safe. now rewrite mem_app, H. Qed.

Lemma quote_app (safe a b : string) : quote (a ++ b) safe = quote a safe ++ quote b safe.
Proof.
  unfold quote. induction a as [|x a IH]; simpl; [reflexivity|].
  now rewrite IH, append_assoc.
Qed.

Lemma quote_safe_only (safe p : string) :
  (forall c, mem c p = true -> is_safe safe c = true) -> quote p safe = p.
Proof.
  unfold quote. induction p as [|x p IH]; intros H; simpl; [reflexivity|].
  unfold quoter. rewrite (H x) by (simpl; now rewrite Ascii.eqb_refl).
  simpl. f_equal. apply IH. intros c Hc. apply H. simpl. now rewrite Hc, orb_true_r.
Qed.

Lemma length_append (a b : string) :
  String.length (a ++ b) = (String.length a + String.length b)%nat.
Proof. induction a; simpl; congruence. Qed.

Lemma quote_length (safe p : string) :
  (String.length p <= String.length (quote p safe) <= 3 * String.length p)%nat.
Proof.
  unfold quote. induction p as [|x p IH]; simpl; [lia|].
  rewrite length_append. unfold quoter. destruct (is_safe safe x); simpl; lia.
Qed.

Lemma quote_alphabet (safe p : string) (c : ascii) :
  mem c (quote p safe) = true -> c = "%"%char \/ is_safe safe c = true.
Proof.
  unfold quote. induction p as [|x p IH]; simpl; [discriminate|].
  rewrite mem_app. intros H. apply orb_true_iff in H. destruct H as [H|H]; [|now apply IH].
  unfold quoter in H. destruct (is_safe safe x) eqn:E.
  - cbn [mem] in H. rewrite orb_false_r in H. apply Ascii.eqb_eq in H. subst. now right.
  - unfold escape in H. cbn [mem] in H. rewrite orb_false_r in H.
    apply orb_true_iff in H. destruct H as [H|H];
      [apply Ascii.eqb_eq in H; subst; now left|].
    apply orb_true_iff in H. destruct H as [H|H]; apply Ascii.eqb_eq in H; subst;
      right; apply always_safe_is_safe, hex_digit_always_safe.
Qed.

Lemma lstrip_no_head (c : ascii) (s : string) : head s <> Some c -> lstrip c s = s.
Proof.
  destruct s as [|a s]; simpl; [reflexivity|]. intros H.
  destruct (Ascii.eqb a c) eqn:E; [|reflexivity].
  apply Ascii.eqb_eq in E. subst. now contradiction H.
Qed.

Lemma lstrip_head (c : ascii) (s : string) : head (lstrip c s) <> Some c.
Proof. destruct (lstrip_spec c s) as [k [_ H]]. exact H. Qed.

Lemma prefix_head (p s : string) (a : ascii) :
  head p = Some a -> head s <> Some a -> String.prefix p s = false.
Proof.
  destruct p as [|x p]; simpl; [discriminate|]. intros H. injection H as ->.
  destruct s as [|y s]; simpl; [reflexivity|]. intros Hy.
  destruct (ascii_dec a y) as [->|]; [now contradiction Hy | reflexivity].
Qed.

Lemma relative_head (m : DirectLinkManager) (p : string) :
  head (_get_relative_path m p) <> Some "/"%char.
Proof.
  unfold _get_relative_path. destruct (startswith p (mount_point m)); apply lstrip_head.
Qed.

Lemma relative_pass (m : DirectLinkManager) (p : string) :
  head (mount_point m) = Some "/"%char \/ mount_point m = "" ->
  head p <> Some "/"%char ->
  _get_relative_path m p = p.
Proof.
  intros Hm Hp. unfold _get_relative_path, startswith.
  destruct Hm as [Hm|Hm].
  - rewrite (prefix_head _ _ Hm Hp). now apply lstrip_no_head.
  - rewrite Hm. destruct p as [|a p]; [reflexivity|].
    change (lstrip "/" (String a p) = String a p). now apply lstrip_no_head.
Qed.

End EncodeFacts.

(** X15: the encoded path is made of ASCII letters and digits, the
    characters [_.-~], the safe characters [/[](),-_ .] and [%] only: no
    [?], [&], [#], [=] or [+], no control character and no byte above 127
    can reach the query string, and a space is passed as it is. *)
Theorem X15_encoded_path_alphabet (m : DirectLinkManager) (path : string) (c : ascii) :
  PyStr.mem c (_encode_path_for_url m path) = true ->
  PyStr.mem c (Urllib._ALWAYS_SAFE ++ safe_chars ++ "%") = true.
Proof.
  intros H. apply EncodeFacts.quote_alphabet in H.
  rewrite !EncodeFacts.mem_app. destruct H as [->|H]; [reflexivity|].
  unfold Urllib.is_safe in H. rewrite EncodeFacts.mem_app in H.
  change (Urllib.ascii_only safe_chars) with safe_chars in H.
  apply orb_true_iff in H. destruct H as [-> | ->]; [reflexivity|].
  now rewrite orb_true_r.
Qed.

Lemma X15_encoded_path_alphabet_witness :
  PyStr.mem " " (Urllib._ALWAYS_SAFE ++ safe_chars ++ "%") = true.
Proof.
  apply (@X15_encoded_path_alphabet (Example.manager 3 None) "path to/file3?.doc" " ").
  reflexivity.
Defined.

(** X16: encoding goes through concatenation (a path may be encoded
    piece by piece), and leaves unchanged every path made of unreserved and
    safe characters only. *)
Theorem X16_encoding_composes (m : DirectLinkManager) (a b : string) :
  _encode_path_for_url m (a ++ b) = _encode_path_for_url m a ++ _encode_path_for_url m b /\
  ((forall c, PyStr.mem c a = true -> Urllib.is_safe safe_chars c = true) ->
   _encode_path_for_url m a = a).
Proof.
  unfold _encode_path_for_url. split; [apply EncodeFacts.quote_app|].
  apply EncodeFacts.quote_safe_only.
Qed.

Lemma X16_encoding_composes_witness :
  _encode_path_for_url (Example.manager 3 None) "path to/file2[v1].pdf"
  = "path to/file2[v1].pdf".
Proof.
  apply (proj2 (@X16_encoding_composes (Example.manager 3 None)
                  "path to/file2[v1].pdf" "")).
  intros c. destruct c as [[] [] [] [] [] [] [] []]; vm_compute; intros H; congruence.
Defined.

(** X21: the encoded path, which is ASCII only, has at least as many
    characters as the path has bytes in UTF-8, and at most three times as
    many: a byte is passed as it is or becomes the three characters [%XX].
    (The bound is in bytes, not in code points: a code point outside ASCII
    is two to four bytes, and becomes six to twelve characters.) *)
Theorem X21_encoded_length_in_bytes (m : DirectLinkManager) (path : string) :
  (PyStr.utf8_len path <= PyStr.utf8_len (_encode_path_for_url m path)
   <= 3 * PyStr.utf8_len path)%nat.
Proof. unfold PyStr.utf8_len, _encode_path_for_url. apply EncodeFacts.quote_length. Qed.

(** X17: a relative path never starts with a separator; and when the mount
    point is absolute (it starts with a separator, or is the root, stored
    as the empty string), a path that is relative already is passed as it
    is, so that making a path relative twice is the same as once. *)
Theorem X17_relative_paths_pass_through (m : DirectLinkManager) (p : string) :
  PyStr.head (_get_relative_path m p) <> Some "/"%char /\
  (PyStr.head (mount_point m) = Some "/"%char \/ mount_point m = "" ->
   (PyStr.head p <> Some "/"%char -> _get_relative_path m p = p) /\
   _get_relative_path m (_get_relative_path m p) = _get_relative_path m p).
Proof.
  split; [apply EncodeFacts.relative_head|]. intros Hm. split.
  - now apply EncodeFacts.relative_pass.
  - apply EncodeFacts.relative_pass; [exact Hm | apply EncodeFacts.relative_head].
Qed.

Lemma X17_relative_paths_pass_through_witness :
  _get_relative_path (Example.manager 3 None)
    (_get_relative_path (Example.manager 3 None) Example.file)
  = _get_relative_path (Example.manager 3 None) Example.file.
Proof.
  apply (proj2 (proj2 (@X17_relative_paths_pass_through (Example.manager 3 None) Example.file)
                  (or_introl eq_refl))).
Defined.

(* ------------------------------------------------------------------ *)
(** ** Calls in flight together: no slot is lost, no call is stuck *)
(* ------------------------------------------------------------------ *)

Module ProgressFacts.
Import Concurrent Progress ConcurrentFacts.

Lemma depth_guarded (sc : list event) : guarded sc -> depth sc = 0%Z.
Proof.
  intros [Hq | [inner [post [-> [Hin Hpost]]]]].
  - apply depth_ungated, quiet_ungated, Hq.
  - cbn [depth]. rewrite depth_app. cbn [depth].
    rewrite (depth_ungated Hin), (depth_ungated (quiet_ungated Hpost)). lia.
Qed.

(** A call that is done holds no slot. *)
Lemma finished_held (t : task) : guarded (script t) -> finished t -> held t = 0%Z.
Proof.
  intros Hg Hf. unfold finished in Hf. apply nth_error_None in Hf.
  unfold held. rewrite firstn_all2 by exact Hf. now apply depth_guarded.
Qed.

(** A call holds no slot, or one; and one that holds a slot has a next
    thing to do, which is not to take a slot. *)
Lemma held_cases (sc : list event) (n : nat) :
  guarded sc ->
  let t := {| script := sc; pos := n |} in
  held t = 0%Z \/
  (held t = 1%Z /\ exists ev, nth_error sc n = Some ev /\ ev <> Acquire).
Proof.
  intros [Hq | [inner [post [-> [Hin Hpost]]]]] t; subst t; unfold held; cbn [script pos].
  - left. apply depth_ungated, Forall_firstn', quiet_ungated, Hq.
  - destruct n as [|k]; [left; reflexivity|].
    cbn [firstn depth nth_error]. rewrite firstn_app, depth_app.
    rewrite (depth_ungated (Forall_firstn' k Hin)).
    destruct (k - List.length inner)%nat as [|j] eqn:Ek.
    + right. cbn [firstn depth]. split; [lia|].
      assert (Hk : (k <= List.length inner)%nat) by lia.
      destruct (Nat.eq_dec k (List.length inner)) as [->|Hne].
      * exists Release. rewrite nth_error_app2 by lia. rewrite Nat.sub_diag.
        split; [reflexivity | discriminate].
      * assert (Hlt : (k < List.length inner)%nat) by lia.
        rewrite nth_error_app1 by exact Hlt.
        destruct (nth_error inner k) as [ev|] eqn:E.
        -- exists ev. split; [reflexivity|]. intros ->.
           apply nth_error_In in E. rewrite Forall_forall in Hin.
           specialize (Hin _ E). discriminate Hin.
        -- apply nth_error_None in E. lia.
    + left. cbn [firstn depth].
      rewrite (depth_ungated (Forall_firstn' j (quiet_ungated Hpost))). lia.
Qed.

(** Either no call holds a slot, or some call does and can go on. *)
Lemma holder_or_none (ts : list task) :
  Forall (fun t => guarded (script t)) ts ->
  total_held ts = 0%Z \/
  exists i t ev, nth_error ts i = Some t /\
                 nth_error (script t) (pos t) = Some ev /\ ev <> Acquire.
Proof.
  induction 1 as [|t ts Hg _ IH]; [left; reflexivity|].
  destruct t as [sc n]. cbn [script] in Hg.
  destruct (held_cases n Hg) as [H0 | [_ [ev [Hev Hne]]]].
  - destruct IH as [IH | [i [t [ev [Ht [Hev Hne]]]]]].
    + left. cbn [total_held]. lia.
    + right. exists (S i), t, ev. repeat split; assumption.
  - right. exists O, {| script := sc; pos := n |}, ev. repeat split; assumption.
Qed.

Lemma unfinished_next (t : task) : ~ finished t -> exists ev, nth_error (script t) (pos t) = Some ev.
Proof.
  unfold finished. destruct (nth_error (script t) (pos t)) as [ev|]; [now exists ev|].
  intros H. now contradiction H.
Qed.

Lemma total_held_finished (ts : list task) :
  Forall (fun t => guarded (script t)) ts ->
  Forall finished ts ->
  total_held ts = 0%Z.
Proof.
  induction 1 as [|t ts Hg _ IH]; intros Hf; [reflexivity|].
  inversion Hf; subst. cbn [total_held]. rewrite (finished_held Hg) by assumption.
  rewrite IH by assumption. reflexivity.
Qed.

Lemma total_held_nonneg (ts : list task) :
  Forall (fun t => guarded (script t)) ts -> (0 <= total_held ts)%Z.
Proof.
  induction 1 as [|t ts Hg _ IH]; [cbn; lia|].
  destruct t as [sc n]. cbn [script] in Hg.
  destruct (guarded_held n Hg) as [H0 _]. cbn [total_held]. lia.
Qed.

End ProgressFacts.

(** X18: among calls in flight together, no slot of the gate is lost or
    made up: at every moment the counter of the gate lies between zero and
    [max_workers], and once every call is done it is back at
    [max_workers]. *)
Theorem X18_gate_slots_are_conserved (repr : value -> string) (m0 : DirectLinkManager)
    (st : state) (calls : list Concurrent.call) (p : Concurrent.pool) :
  __aenter__ (fresh m0) = (Return tt, st) ->
  Concurrent.reachable (Concurrent.start repr (self st) calls) p ->
  (0 <= Concurrent.gate p <= _max_workers m0)%Z /\
  (Forall Progress.finished (Concurrent.tasks p) -> Concurrent.gate p = _max_workers m0).
Proof.
  intros Hin Hr.
  destruct (ConcurrentFacts.__aenter___returns _ Hin) as [Hv [Hpos _]].
  assert (W : Concurrent.well_formed (_max_workers m0) p).
  { eapply ConcurrentFacts.reachable_well_formed; [|exact Hr].
    now apply ConcurrentFacts.start_well_formed. }
  destruct W as [Hsum [Hg0 Hg]].
  pose proof (ProgressFacts.total_held_nonneg Hg) as Hh.
  split; [lia|]. intros Hf.
  rewrite (ProgressFacts.total_held_finished Hg Hf) in Hsum. lia.
Qed.

Lemma X18_gate_slots_are_conserved_witness :
  let st := snd (__aenter__ (fresh Example.narrow)) in
  let p := Concurrent.schedule [0; 1; 0; 0; 1; 1; 1; 1]%nat
             (Concurrent.start Example.repr (self st) Example.two_calls) in
  (0 <= Concurrent.gate p <= 1)%Z /\
  (Forall Progress.finished (Concurrent.tasks p) -> Concurrent.gate p = 1%Z).
Proof.
  apply (@X18_gate_slots_are_conserved Example.repr Example.narrow
           (snd (__aenter__ (fresh Example.narrow))) Example.two_calls
           (Concurrent.schedule [0; 1; 0; 0; 1; 1; 1; 1]%nat
              (Concurrent.start Example.repr
                 (self (snd (__aenter__ (fresh Example.narrow)))) Example.two_calls))
           eq_refl).
  apply ConcurrentFacts.schedule_reachable. apply Concurrent.reach_start.
Defined.

(** X19: with at least one slot, calls in flight together never get stuck:
    as long as some call is not done, some call can move (one that holds a
    slot can always go on, and when none holds a slot the gate has one to
    give). *)
Theorem X19_calls_never_deadlock (repr : value -> string) (m0 : DirectLinkManager)
    (st : state) (calls : list Concurrent.call) (p : Concurrent.pool) :
  __aenter__ (fresh m0) = (Return tt, st) ->
  (0 < _max_workers m0)%Z ->
  Concurrent.reachable (Concurrent.start repr (self st) calls) p ->
  (exists i t, nth_error (Concurrent.tasks p) i = Some t /\ ~ Progress.finished t) ->
  Progress.can_move p.
Proof.
  intros Hin Hw Hr [i [t [Ht Hnf]]].
  destruct (ConcurrentFacts.__aenter___returns _ Hin) as [Hv [Hpos _]].
  assert (W : Concurrent.well_formed (_max_workers m0) p).
  { eapply ConcurrentFacts.reachable_well_formed; [|exact Hr].
    now apply ConcurrentFacts.start_well_formed. }
  destruct W as [Hsum [Hg0 Hg]].
  destruct (ProgressFacts.holder_or_none Hg) as [H0 | [i' [t' [ev [Ht' [Hev Hne]]]]]].
  - destruct (ProgressFacts.unfinished_next Hnf) as [ev Hev].
    eexists. apply (@Concurrent.step_task p i t ev Ht Hev). intros _. lia.
  - eexists. apply (@Concurrent.step_task p i' t' ev Ht' Hev). intros ->. now contradiction Hne.
Qed.

Lemma X19_calls_never_deadlock_witness :
  let st := snd (__aenter__ (fresh Example.narrow)) in
  Progress.can_move
    (Concurrent.schedule [0; 1; 0]%nat
       (Concurrent.start Example.repr (self st) Example.two_calls)).
Proof.
  apply (@X19_calls_never_deadlock Example.repr Example.narrow
           (snd (__aenter__ (fresh Example.narrow))) Example.two_calls
           (Concurrent.schedule [0; 1; 0]%nat
              (Concurrent.start Example.repr
                 (self (snd (__aenter__ (fresh Example.narrow)))) Example.two_calls))
           eq_refl).
  - reflexivity.
  - apply ConcurrentFacts.schedule_reachable. apply Concurrent.reach_start.
  - exists 1%nat. eexists. split; [reflexivity|]. unfold Progress.finished. discriminate.
Defined.

(* ------------------------------------------------------------------ *)
(** ** The example program *)
(* ------------------------------------------------------------------ *)

Module BasicUsageFacts.
Import MonadFacts BasicUsage.

Section Loop.
Variable repr : value -> string.
Variable daemons : nat -> daemon.

(** The loop over the files, with the session open, a slot free and at
    least one attempt configured: it returns, having printed two lines for
    each file in order, and issued for each file at least one request and
    at most [retry_attempts], with one sleep less than requests. *)
Lemma resolve_files_spec (fs : list string) :
  forall (i : nat) (stdout : list string) (st : state),
    opened (self st) ->
    (1 <= _retry_attempts (self st))%Z ->
    exists links evs,
      resolve_files repr daemons i fs stdout st
      = (Return (stdout ++ flat_map (fun fl => printed repr (fst fl) (snd fl))
                             (combine fs links))%list,
         extend st evs) /\
      List.length links = List.length fs /\
      (List.length fs <= requests evs
       <= List.length fs * Z.to_nat (_retry_attempts (self st)))%nat /\
      (sleeps evs + List.length fs = requests evs)%nat.
Proof.
  induction fs as [|f fs IH]; intros i stdout st Ho Hn.
  - exists [], []. cbn [resolve_files combine flat_map List.length].
    rewrite app_nil_r, extend_nil. unfold requests, sleeps. cbn [filter List.length].
    split; [reflexivity|]. split; [reflexivity|]. split; [lia | reflexivity].
  - cbn [resolve_files]. unfold bind.
    destruct (@ShapeFacts.get_direct_link_shape repr (daemons i) f None st Ho Hn)
      as [x [j [logs [post [E [Hj [_ [_ [Hr Hs]]]]]]]]].
    { unfold network_path. simpl. now rewrite andb_false_r. }
    cbv zeta in E, Hr, Hs. rewrite E.
    match type of E with
    | _ = (_, extend st ?evs1) =>
        destruct (IH (S i) (stdout ++ printed repr f x)%list (extend st evs1) Ho Hn)
          as [links [evs [E' [Hl [Hreq Hsl]]]]];
        exists (x :: links), (evs1 ++ evs)%list
    end.
    rewrite E', extend_extend. cbn [self extend] in *.
    rewrite ShapeFacts.requests_app, ShapeFacts.sleeps_app, Hr, Hs.
    cbn [combine flat_map fst snd List.length]. rewrite <- app_assoc.
    repeat split; lia.
Qed.

End Loop.
End BasicUsageFacts.

(** X20: the example program, whatever the daemon answers: it ends without
    an exception, having printed for each of its three files, in order, the
    line [File: ...] and the line [Direct Link: ...]; it leaves the session
    closed and the gate with its ten slots; and it has issued between 3 and
    15 requests (one to five for each file), sleeping once after each
    request that was tried again. *)
Theorem X20_basic_usage_main (repr : value -> string) (daemons : nat -> daemon) :
  exists links evs,
    BasicUsage.main repr daemons
    = (Return (flat_map (fun fl => BasicUsage.printed repr (fst fl) (snd fl))
                 (combine BasicUsage.files links)),
       {| self := set_session (Some Closed)
                    (set_request_semaphore (Some 10%Z)
                       (__init__ 8280 "/Volumes/filespace" 3 10 5 (1#2) (Some "myfilespace")));
          trace := evs |}) /\
    List.length links = 3%nat /\
    (3 <= requests evs <= 15)%nat /\
    (sleeps evs + 3 = requests evs)%nat.
Proof.
  set (m0 := __init__ 8280 "/Volumes/filespace" 3 10 5 (1#2) (Some "myfilespace")).
  set (m1 := set_session (Some Open) (set_request_semaphore (Some 10%Z) m0)).
  assert (Ho : opened (self (fresh m1))).
  { split; [reflexivity | exists 10%Z; split; [reflexivity | reflexivity]]. }
  assert (Hn : (1 <= _retry_attempts (self (fresh m1)))%Z) by (vm_compute; discriminate).
  destruct (BasicUsageFacts.resolve_files_spec repr daemons BasicUsage.files O [] (fresh m1) Ho Hn)
    as [links [evs [E [Hl [Hr Hs]]]]].
  exists links, evs.
  unfold BasicUsage.main, BasicUsage.async_with_manager.
  change (__aenter__ (fresh (__init__ 8280 "/Volumes/filespace" 3 10 5 (1#2) (Some "myfilespace"))))
    with (Return tt, fresh m1).
  cbv beta iota. rewrite E.
  change (_retry_attempts (self (fresh m1))) with 5%Z in Hr.
  change (List.length BasicUsage.files) with 3%nat in *.
  repeat split; try lia.
Qed.
